(** * Enumeration-Chain: a shallow embedding of [enum_chain.py]

    The script chains five reconnaissance tools (subfinder, dnsx, naabu,
    httpx, katana), feeding the text produced by one stage to the next and
    saving every stage to a file.  The tools, the file system and the
    console are outside the program: they are modelled as an operating-system
    interface ([OSModel]) whose answers the program reacts to, and every call
    the program makes is recorded, with its answer, in an event log.

    Python text ([str]) is modelled by [string]; a character is a code point
    below 256.  Glyphs of the console decoration that lie outside that range
    appear in literals as their UTF-8 bytes; no operation inspects them. *)

From stdpp Require Import base option list gmap strings pretty.
From Stdlib Require Import Ascii String ZArith Lia.

Local Open Scope string_scope.
Local Open Scope list_scope.

(** ** Python text primitives *)

Module PyStr.

Definition LF : ascii := ascii_of_nat 10.
Definition CR : ascii := ascii_of_nat 13.

(** [str.isspace] on one character, for code points below 256:
    TAB..CR, FS..US, SPACE, NEL and NBSP. *)
Definition isspace (c : ascii) : bool :=
  let n := N_of_ascii c in
  (((9 <=? n) && (n <=? 13)) || ((28 <=? n) && (n <=? 32))
   || (n =? 133) || (n =? 160))%N.

(** Truth value of a [str]: non-empty. *)
Definition truthy (s : string) : bool :=
  match s with EmptyString => false | String _ _ => true end.

(** Truth value of an optional [str] ([None] is false). *)
Definition truthy_opt (o : option string) : bool :=
  match o with Some s => truthy s | None => false end.

Fixpoint lstrip (s : string) : string :=
  match s with
  | EmptyString => EmptyString
  | String c r => if isspace c then lstrip r else s
  end.

Fixpoint rstrip (s : string) : string :=
  match s with
  | EmptyString => EmptyString
  | String c r =>
      match rstrip r with
      | EmptyString => if isspace c then EmptyString else String c EmptyString
      | r' => String c r'
      end
  end.

(** [s.strip()] *)
Definition strip (s : string) : string := rstrip (lstrip s).

(** [s.split()]: maximal runs of non-whitespace characters. *)
Fixpoint split (s : string) : list string :=
  match s with
  | EmptyString => []
  | String c r =>
      if isspace c then split r
      else match r with
           | EmptyString => [String c EmptyString]
           | String d _ =>
               if isspace d then String c EmptyString :: split r
               else match split r with
                    | w :: ws => String c w :: ws
                    | [] => [String c EmptyString]
                    end
           end
  end.

(** [sep.join(parts)] *)
Fixpoint join (sep : string) (parts : list string) : string :=
  match parts with
  | [] => EmptyString
  | [p] => p
  | p :: ps => p +:+ sep +:+ join sep ps
  end.

(** [c * n] for a one-character string. *)
Fixpoint repeat_char (c : ascii) (n : nat) : string :=
  match n with O => EmptyString | S k => String c (repeat_char c k) end.

(** ASCII part of [s.upper()]; the script applies it to ASCII tool names. *)
Definition upper_char (c : ascii) : ascii :=
  let n := N_of_ascii c in
  if ((97 <=? n) && (n <=? 122))%N then ascii_of_N (n - 32) else c.

Fixpoint upper (s : string) : string :=
  match s with
  | EmptyString => EmptyString
  | String c r => String (upper_char c) (upper r)
  end.

(** [f"{s:<n}"]: pad on the right with spaces up to width [n]. *)
Definition ljust (n : nat) (s : string) : string :=
  s +:+ repeat_char " "%char (n - String.length s).

(** Newline translation of a text-mode [open(path, 'r')]: CR LF and a
    lone CR both read as LF. *)
Fixpoint universal_newlines (s : string) : string :=
  match s with
  | EmptyString => EmptyString
  | String c r =>
      if Ascii.eqb c CR then
        String LF (match r with
                   | String d r' =>
                       if Ascii.eqb d LF then universal_newlines r'
                       else universal_newlines r
                   | EmptyString => EmptyString
                   end)
      else String c (universal_newlines r)
  end.

(** The lines a text file object yields when iterated (and the list
    [f.readlines()] returns): each line keeps its terminating LF; a last
    line without LF is yielded as it is. *)
Fixpoint iter_lines (s : string) : list string :=
  match s with
  | EmptyString => []
  | String c r =>
      if Ascii.eqb c LF then String c EmptyString :: iter_lines r
      else match iter_lines r with
           | l :: ls => String c l :: ls
           | [] => [String c EmptyString]
           end
  end.

(** The lines of a file as Python reads them in text mode. *)
Definition file_lines (content : string) : list string :=
  iter_lines (universal_newlines content).

(** [os.path.join(a, b)] (posixpath). *)
Fixpoint ends_with_slash (s : string) : bool :=
  match s with
  | EmptyString => false
  | String c EmptyString => Ascii.eqb c "/"%char
  | String _ r => ends_with_slash r
  end.

Definition path_join (a b : string) : string :=
  match b with
  | String "/"%char _ => b
  | _ => if negb (truthy a) || ends_with_slash a then a +:+ b
         else a +:+ "/" +:+ b
  end.

(** [os.path.basename(p)] (posixpath): what follows the last slash. *)
Fixpoint basename (p : string) : string :=
  match p with
  | EmptyString => EmptyString
  | String c r =>
      if existsb (Ascii.eqb "/"%char) (list_ascii_of_string r) then basename r
      else if Ascii.eqb c "/"%char then r else p
  end.

End PyStr.

(** ** Exceptions, process results and the recorded events *)

(** The exceptions the script distinguishes: the two it names in [except]
    clauses, and every other subclass of [Exception]. The text is [str(e)]. *)
Inductive exn : Type :=
| CalledProcessError (returncode : Z) (output stderr : string)
| FileNotFoundError (text : string)
| OtherException (class text : string).

Definition exn_str (e : exn) : string :=
  match e with
  | CalledProcessError rc _ _ =>
      "Command returned non-zero exit status " +:+ pretty rc +:+ "."
  | FileNotFoundError t => t
  | OtherException _ t => t
  end.

(** What a call to the outside can raise by itself: a missing file or
    program ([FileNotFoundError]), or any other error (permissions, a
    directory in the way, undecodable bytes, ...). [CalledProcessError] is
    not among them: [subprocess.run] raises it for a non-zero exit status. *)
Inductive failure : Type :=
| ENoEntry (text : string)
| EOther (class text : string).

Definition exn_of (f : failure) : exn :=
  match f with
  | ENoEntry t => FileNotFoundError t
  | EOther c t => OtherException c t
  end.

(** [subprocess.CompletedProcess] *)
Record CompletedProcess : Type := mkCompletedProcess {
  args : list string;
  returncode : Z;
  stdout : string;
  stderr : string
}.

(** What launching a child process comes to: it ran and exited with a
    status and its captured output, or [subprocess.run] raised before or
    while running it (missing binary, permissions, undecodable output). *)
Inductive exec_answer : Type :=
| Exited (rc : Z) (out err : string)
| ExecError (e : failure).

(** The text [run_command] hands back as captured standard output. *)
Definition captured (a : exec_answer) : string :=
  match a with
  | Exited rc out _ => if (rc =? 0)%Z then out else EmptyString
  | ExecError _ => EmptyString
  end.

(** Every interaction with the outside, with the answer it got. [env] is
    the [env=] argument of [subprocess.run] ([None]: the child inherits the
    environment of the script). *)
Inductive event : Type :=
| EvPrint (text : string)
| EvExec (cmd : list string) (input : option string)
         (env : option (gmap string string)) (ans : exec_answer)
| EvRead (path : string) (ans : failure + string)
| EvWrite (path content : string) (ans : option failure)
| EvMakedirs (path : string) (ans : option failure).

(** The operating system as the script sees it. *)
Class OSModel (OS : Type) : Type := {
  (** run a program with arguments, standard input and environment *)
  os_exec : list string -> option string -> gmap string string -> OS ->
            exec_answer * OS;
  (** [open(path, 'r')] and read it all *)
  os_read : string -> OS -> (failure + string) * OS;
  (** [open(path, 'w')] and write the text *)
  os_write : string -> string -> OS -> option failure * OS;
  (** [os.makedirs(path, exist_ok=True)] *)
  os_makedirs : string -> OS -> option failure * OS;
  (** [os.path.abspath(path)] (depends on the working directory) *)
  os_abspath : string -> OS -> string
}.

(** The environment a child receives. *)
Definition child_environment (environ : gmap string string)
    (env : option (gmap string string)) : gmap string string :=
  match env with Some e => e | None => environ end.

(** ** The program monad: state, log, exceptions, exit and [continue] *)

Inductive outcome (A : Type) : Type :=
| Normal (a : A)
| LoopContinue
| SysExit (code : Z)
| Raised (e : exn).
Arguments Normal {A} a.
Arguments LoopContinue {A}.
Arguments SysExit {A} code.
Arguments Raised {A} e.

Section Program.

Context {OS : Type} `{OSModel OS}.

(** The state the script runs on: the outside world, the environment of
    the script ([os.environ], which it never assigns to) and the one
    variable of [main] that lives across the stages, [current_input]. *)
Record state : Type := mkState {
  os_state : OS;
  os_environ : gmap string string;
  current_input : option string
}.

Record result (A : Type) : Type := Res {
  out : outcome A;
  final : state;
  log : list event
}.
Arguments Res {A} out final log.
Arguments out {A} r.
Arguments final {A} r.
Arguments log {A} r.

Definition M (A : Type) : Type := state -> result A.

Definition ret {A} (a : A) : M A := fun s => Res (Normal a) s [].

Definition bind {A B} (m : M A) (k : A -> M B) : M B :=
  fun s =>
    let r := m s in
    match out r with
    | Normal a =>
        let r' := k a (final r) in
        Res (out r') (final r') (log r ++ log r')
    | LoopContinue => Res LoopContinue (final r) (log r)
    | SysExit c => Res (SysExit c) (final r) (log r)
    | Raised e => Res (Raised e) (final r) (log r)
    end.

Definition raise {A} (e : exn) : M A := fun s => Res (Raised e) s [].
Definition sys_exit {A} (code : Z) : M A := fun s => Res (SysExit code) s [].
Definition continue_ {A} : M A := fun s => Res LoopContinue s [].

(** [try: body / except ...: handler]; a handler answers [None] for the
    exceptions its clauses do not match. *)
Definition try_except {A} (body : M A) (handler : exn -> option (M A)) : M A :=
  fun s =>
    let r := body s in
    match out r with
    | Raised e =>
        match handler e with
        | Some h =>
            let r' := h (final r) in
            Res (out r') (final r') (log r ++ log r')
        | None => r
        end
    | _ => r
    end.

Definition when (b : bool) (m : M unit) : M unit :=
  if b then m else ret tt.

(** A result with some earlier events put in front of its log. *)
Definition prepend {A} (l : list event) (r : result A) : result A :=
  Res (out r) (final r) (l ++ log r).

End Program.

Arguments state OS : clear implicits.
Arguments result OS A : clear implicits.
Arguments M OS A : clear implicits.
Arguments Res {OS A} out final log.
Arguments out {OS A} r.
Arguments final {OS A} r.
Arguments log {OS A} r.
Arguments mkState {OS} os_state os_environ current_input.
Arguments os_state {OS} s.
Arguments os_environ {OS} s.
Arguments current_input {OS} s.

Declare Scope prog_scope.
Delimit Scope prog_scope with prog.
Notation "x <- m ;; k" := (bind m (fun x => k))
  (at level 100, m at next level, k at level 200, right associativity,
   only parsing) : prog_scope.
Notation "m ;; k" := (bind m (fun _ => k))
  (at level 100, k at level 200, right associativity,
   only parsing) : prog_scope.
Local Open Scope prog_scope.

(** ** Console decoration (class [Colors]) *)

Module Colors.
Definition ESC : string := String (ascii_of_nat 27) EmptyString.
Definition HEADER : string := ESC +:+ "[95m".
Definition BLUE : string := ESC +:+ "[94m".
Definition CYAN : string := ESC +:+ "[96m".
Definition GREEN : string := ESC +:+ "[92m".
Definition YELLOW : string := ESC +:+ "[93m".
Definition RED : string := ESC +:+ "[91m".
Definition WHITE : string := ESC +:+ "[97m".
Definition ENDC : string := ESC +:+ "[0m".
Definition BOLD : string := ESC +:+ "[1m".
Definition UNDERLINE : string := ESC +:+ "[4m".
End Colors.

(** A line feed inside a printed text. *)
Definition NL : string := String PyStr.LF EmptyString.

(** [TOOL_CHAIN] *)
Definition TOOL_CHAIN : list string :=
  ["subfinder"; "dnsx"; "naabu"; "httpx"; "katana"].

(** The parsed command line ([args] of [main]): [-d], [-l], [-o], [-p] and
    [--dry-run]. argparse leaves an option that was not given at [None];
    [-o] defaults to [recon_results]. *)
Record Args : Type := mkArgs {
  args_domain : option string;
  args_list : option string;
  args_output_dir : string;
  args_proxy : option string;
  args_dry_run : bool
}.

(** The text of an optional string inside an f-string. *)
Definition fmt_opt (o : option string) : string :=
  match o with Some s => s | None => "None" end.

(** ** Pure parts of [main] *)

(** Line 136: [[line.strip() for line in f if line.strip()]] *)
Fixpoint targets_of_lines (lines : list string) : list string :=
  match lines with
  | [] => []
  | line :: rest =>
      if PyStr.truthy (PyStr.strip line)
      then PyStr.strip line :: targets_of_lines rest
      else targets_of_lines rest
  end.

(** Lines 232-235: the first field of every line that has one. *)
Fixpoint clean_urls_of (raw_lines : list string) : list string :=
  match raw_lines with
  | [] => []
  | line :: rest =>
      match PyStr.split (PyStr.strip line) with
      | [] => clean_urls_of rest
      | url :: _ => url :: clean_urls_of rest
      end
  end.

(** The commands of the five stages and of the proxy seeding step. *)
Section Commands.
Variable a : Args.
Variable proxy_url : string.
Variable target : string.

Definition out_file (suffix : string) : string :=
  PyStr.path_join (args_output_dir a) (target +:+ suffix).

Definition subfinder_output_file : string := out_file "_subfinder.txt".
Definition dnsx_output_file : string := out_file "_dnsx.txt".
Definition naabu_output_file : string := out_file "_naabu.txt".
Definition httpx_details_file : string := out_file "_httpx_details.txt".
Definition urls_for_burp_file : string := out_file "_urls_for_burp.txt".
Definition katana_output_file : string := out_file "_katana_crawled_paths.txt".

Definition subfinder_cmd : list string :=
  ["subfinder"; "-d"; target; "-silent"].
Definition dnsx_cmd : list string := ["dnsx"; "-silent"].
Definition naabu_cmd : list string :=
  ["naabu"; "-p"; "80,443,8080,8443"; "-nmap-cli"; "-silent"].
Definition httpx_cmd : list string :=
  ["httpx"; "-sc"; "-cl"; "-title"; "-probe"; "-silent"; "-o";
   httpx_details_file]
  ++ (if PyStr.truthy_opt (args_proxy a)
      then ["-http-proxy"; proxy_url] else []).
Definition katana_cmd : list string :=
  ["katana"; "-jc"; "-aff"; "-kf"; "all"; "-silent"]
  ++ (if PyStr.truthy_opt (args_proxy a)
      then ["-proxy"; proxy_url] else []).
Definition seed_cmd : list string :=
  ["httpx"; "-silent"; "-http-proxy"; proxy_url; "-l"; urls_for_burp_file].

(** The five stage commands, in pipeline order. *)
Definition stage_cmds : list (list string) :=
  [subfinder_cmd; dnsx_cmd; naabu_cmd; httpx_cmd; katana_cmd].

(** The seeding command runs after stage 5 when a proxy is configured. *)
Definition seeder_cmds : list (list string) :=
  if PyStr.truthy_opt (args_proxy a) then [seed_cmd] else [].
End Commands.

(** ** The script *)

Section Script.

Context {OS : Type} `{OSModel OS}.

(** *** Primitive actions *)

Definition print (text : string) : M OS unit :=
  fun s => Res (Normal tt) s [EvPrint text].

Definition get_current_input : M OS (option string) :=
  fun s => Res (Normal (current_input s)) s [].

Definition set_current_input (v : option string) : M OS unit :=
  fun s => Res (Normal tt) (mkState (os_state s) (os_environ s) v) [].

Definition get_environ : M OS (gmap string string) :=
  fun s => Res (Normal (os_environ s)) s [].

Definition abspath (path : string) : M OS string :=
  fun s => Res (Normal (os_abspath path (os_state s))) s [].

Definition with_os (s : state OS) (os' : OS) : state OS :=
  mkState os' (os_environ s) (current_input s).

(** [subprocess.run(command, input=..., capture_output=True, text=True,
    check=True, env=...)]: an empty argument list raises before anything
    is launched; a non-zero exit status raises [CalledProcessError]. *)
Definition subprocess_run (command : list string) (input : option string)
    (env : option (gmap string string)) : M OS CompletedProcess :=
  match command with
  | [] => raise (OtherException "IndexError" "list index out of range")
  | _ :: _ =>
      fun s =>
        let a := os_exec command input
                   (child_environment (os_environ s) env) (os_state s) in
        Res (match a.1 with
             | Exited rc out err =>
                 if (rc =? 0)%Z
                 then Normal (mkCompletedProcess command rc out err)
                 else Raised (CalledProcessError rc out err)
             | ExecError e => Raised (exn_of e)
             end)
            (with_os s a.2)
            [EvExec command input env a.1]
  end.

(** [with open(path, 'w') as f: f.write(text)] *)
Definition open_write (path text : string) : M OS unit :=
  fun s =>
    let a := os_write path text (os_state s) in
    Res (match a.1 with None => Normal tt | Some e => Raised (exn_of e) end)
        (with_os s a.2)
        [EvWrite path text a.1].

(** [with open(path, 'r') as f:] and reading [f] to its end. *)
Definition open_read (path : string) : M OS string :=
  fun s =>
    let a := os_read path (os_state s) in
    Res (match a.1 with
         | inr text => Normal text
         | inl e => Raised (exn_of e)
         end)
        (with_os s a.2)
        [EvRead path a.1].

(** [os.makedirs(path, exist_ok=True)] *)
Definition makedirs (path : string) : M OS unit :=
  fun s =>
    let a := os_makedirs path (os_state s) in
    Res (match a.1 with None => Normal tt | Some e => Raised (exn_of e) end)
        (with_os s a.2)
        [EvMakedirs path a.1].

(** *** Printing helpers (lines 25-39) *)

Definition print_info (msg : string) : M OS unit :=
  print (Colors.BLUE +:+ "[*] " +:+ msg +:+ Colors.ENDC).

Definition print_success (msg : string) : M OS unit :=
  print (Colors.GREEN +:+ "[✓] " +:+ msg +:+ Colors.ENDC).

Definition print_warn (msg : string) : M OS unit :=
  print (Colors.YELLOW +:+ "[!] " +:+ msg +:+ Colors.ENDC).

Definition print_err (msg : string) : M OS unit :=
  print (Colors.RED +:+ "[✗] " +:+ msg +:+ Colors.ENDC).

Definition print_step (step_num total : nat) (tool_name description : string)
  : M OS unit :=
  print (NL +:+ Colors.HEADER +:+ Colors.BOLD +:+ "--- Step "
         +:+ pretty step_num +:+ "/" +:+ pretty total +:+ ": "
         +:+ PyStr.upper tool_name +:+ " ---" +:+ Colors.ENDC) ;;
  print (Colors.HEADER +:+ "    Description: " +:+ description
         +:+ Colors.ENDC).

(** *** [check_tools_installed] (lines 41-62) *)

Fixpoint check_each (tools missing_tools : list string) : M OS (list string) :=
  match tools with
  | [] => ret missing_tools
  | tool :: rest =>
      missing_tools' <-
        try_except
          (subprocess_run ["which"; tool] None None ;;
           print ("    " +:+ Colors.GREEN +:+ "✓" +:+ Colors.ENDC +:+ " "
                  +:+ PyStr.ljust 10 tool +:+ " " +:+ Colors.GREEN
                  +:+ "INSTALLED" +:+ Colors.ENDC) ;;
           ret missing_tools)
          (fun e =>
             match e with
             | CalledProcessError _ _ _ =>
                 Some (print ("    " +:+ Colors.RED +:+ "✗" +:+ Colors.ENDC
                              +:+ " " +:+ PyStr.ljust 10 tool +:+ " "
                              +:+ Colors.RED +:+ "MISSING" +:+ Colors.ENDC) ;;
                       ret (missing_tools ++ [tool]))
             | FileNotFoundError _ =>
                 Some (print ("    " +:+ Colors.RED +:+ "✗" +:+ Colors.ENDC
                              +:+ " " +:+ PyStr.ljust 10 tool +:+ " "
                              +:+ Colors.RED +:+ "ERROR (cmd not found)"
                              +:+ Colors.ENDC) ;;
                       ret (missing_tools ++ [tool]))
             | OtherException _ _ => None
             end) ;;
      check_each rest missing_tools'
  end.

Definition check_tools_installed (tools : list string) : M OS unit :=
  print (Colors.BOLD +:+ NL
         +:+ "--- System Check: Verifying Installed Tools ---"
         +:+ Colors.ENDC) ;;
  missing_tools <- check_each tools [] ;;
  match missing_tools with
  | _ :: _ =>
      print (NL +:+ Colors.RED +:+ Colors.BOLD
             +:+ "[FATAL] The following tools are missing: "
             +:+ PyStr.join ", " missing_tools +:+ Colors.ENDC) ;;
      print (Colors.YELLOW +:+ "Please install them to run this script."
             +:+ Colors.ENDC) ;;
      sys_exit 1
  | [] =>
      print (Colors.GREEN +:+ "    >> All systems go. Starting reconnaissance."
             +:+ Colors.ENDC)
  end.

(** *** [run_command] (lines 64-105) *)

Definition dry_run_result (command : list string) : CompletedProcess :=
  mkCompletedProcess command 0 ("Simulated output" +:+ NL) "".

Definition run_command (command : list string)
    (input_data output_file : option string)
    (environment : option (gmap string string)) (dry_run : bool)
  : M OS CompletedProcess :=
  let cmd_str := PyStr.join " " command in
  print (Colors.CYAN +:+ "    ➜ Executing: " +:+ cmd_str +:+ Colors.ENDC) ;;
  if dry_run then
    let proxy_msg :=
      match environment with
      | Some env =>
          if bool_decide (env = ∅) then ""
          else " (Proxy: " +:+ fmt_opt (env !! "HTTP_PROXY") +:+ ")"
      | None => ""
      end in
    print (Colors.YELLOW +:+ "    [DRY-RUN] Command skipped." +:+ proxy_msg
           +:+ Colors.ENDC) ;;
    when (PyStr.truthy_opt output_file)
         (print (Colors.YELLOW +:+ "    [DRY-RUN] Output path: "
                 +:+ fmt_opt output_file +:+ Colors.ENDC)) ;;
    ret (dry_run_result command)
  else
    try_except
      (result <- subprocess_run command input_data environment ;;
       when (PyStr.truthy_opt output_file)
            (open_write (fmt_opt output_file) (stdout result) ;;
             print (Colors.GREEN +:+ "    ✓ Output saved to: "
                    +:+ Colors.UNDERLINE +:+ fmt_opt output_file
                    +:+ Colors.ENDC)) ;;
       ret result)
      (fun e =>
         match e with
         | CalledProcessError rc _ err =>
             Some (match command with
                   | [] => raise (OtherException "IndexError"
                                    "list index out of range")
                   | prog :: _ =>
                       print (NL +:+ Colors.RED +:+ "    [ERROR] Tool '"
                              +:+ prog +:+ "' failed with exit code "
                              +:+ pretty rc +:+ "." +:+ Colors.ENDC) ;;
                       when (PyStr.truthy err)
                            (print (Colors.RED +:+ "    Stderr: "
                                    +:+ PyStr.strip err +:+ Colors.ENDC)) ;;
                       ret (mkCompletedProcess command 1 "" err)
                   end)
         | _ =>
             Some (print (NL +:+ Colors.RED +:+ Colors.BOLD
                          +:+ "[CRITICAL ERROR] " +:+ exn_str e
                          +:+ Colors.ENDC) ;;
                   sys_exit 1)
         end).

(** *** The target loader (lines 131-143) *)

Definition load_targets (a : Args) : M OS (list string) :=
  if PyStr.truthy_opt (args_domain a) then
    ret [fmt_opt (args_domain a)]
  else
    try_except
      (match args_list a with
       | None =>
           raise (OtherException "TypeError"
                    "expected str, bytes or os.PathLike object, not NoneType")
       | Some path =>
           content <- open_read path ;;
           ret (targets_of_lines (PyStr.file_lines content))
       end)
      (fun e =>
         match e with
         | FileNotFoundError _ =>
             Some (print_err ("Input list file '" +:+ fmt_opt (args_list a)
                              +:+ "' not found.") ;;
                   sys_exit 1)
         | _ => None
         end).

(** *** One iteration of the target loop (lines 165-289) *)

Definition banner (colour : string) : string :=
  Colors.BOLD +:+ colour +:+ PyStr.repeat_char "="%char 60 +:+ Colors.ENDC.

(** Lines 279-289. *)
Definition final_summary (a : Args) (target : string) : M OS unit :=
  print (NL +:+ banner Colors.GREEN) ;;
  print (Colors.BOLD +:+ Colors.GREEN +:+ " RECONNAISSANCE COMPLETE: "
         +:+ Colors.WHITE +:+ target +:+ Colors.ENDC) ;;
  print (banner Colors.GREEN) ;;
  results_dir <- abspath (args_output_dir a) ;;
  print ("    " +:+ Colors.CYAN +:+ "Results Directory:" +:+ Colors.ENDC
         +:+ " " +:+ results_dir) ;;
  (if PyStr.truthy_opt (args_proxy a) then
     print ("    " +:+ Colors.CYAN +:+ "Proxy Status:" +:+ Colors.ENDC
            +:+ "      Traffic sent to " +:+ fmt_opt (args_proxy a)) ;;
     print ("    " +:+ Colors.CYAN +:+ "Next Step:" +:+ Colors.ENDC
            +:+ "         Check Burp Suite 'Target' tab.")
   else
     print ("    " +:+ Colors.CYAN +:+ "Manual Import:" +:+ Colors.ENDC
            +:+ "     Import '"
            +:+ PyStr.basename (urls_for_burp_file a target)
            +:+ "' into Burp.")) ;;
  print NL.

(** Lines 229-247: the clean URL list is read back from the detail file
    httpx wrote, saved, and made the current input. *)
Definition extract_clean_urls (a : Args) (target : string) : M OS unit :=
  try_except
    (content <- open_read (httpx_details_file a target) ;;
     let raw_lines := PyStr.file_lines content in
     let clean_urls := clean_urls_of raw_lines in
     open_write (urls_for_burp_file a target) (PyStr.join NL clean_urls) ;;
     set_current_input (Some (PyStr.join NL clean_urls)) ;;
     print (Colors.GREEN +:+ "    ✓ Rich details: "
            +:+ httpx_details_file a target +:+ Colors.ENDC) ;;
     print (Colors.GREEN +:+ "    ✓ Clean URLs: "
            +:+ urls_for_burp_file a target +:+ " (Ready for Burp)"
            +:+ Colors.ENDC))
    (fun e =>
       match e with
       | FileNotFoundError _ =>
           Some (print_warn
                   "httpx did not produce an output file. Likely no live services found." ;;
                 set_current_input None)
       | _ => None
       end).

Definition process_target (a : Args) (proxy_url : string)
    (current_env : gmap string string) (target : string) : M OS unit :=
  let dry := args_dry_run a in
  print (NL +:+ banner Colors.BLUE) ;;
  print (Colors.BOLD +:+ Colors.BLUE +:+ " STARTING RECON FOR TARGET: "
         +:+ Colors.WHITE +:+ target +:+ Colors.ENDC) ;;
  print (banner Colors.BLUE) ;;
  set_current_input None ;;
  (* 1. subfinder *)
  print_step 1 6 "Subfinder" "Enumerating subdomains" ;;
  subfinder_result <-
    run_command (subfinder_cmd target) None None None dry ;;
  set_current_input (Some (stdout subfinder_result)) ;;
  cur <- get_current_input ;;
  when (PyStr.truthy_opt cur && negb dry)
       (open_write (subfinder_output_file a target) (fmt_opt cur) ;;
        print (Colors.GREEN +:+ "    ✓ Output saved to: "
               +:+ subfinder_output_file a target +:+ Colors.ENDC)) ;;
  cur <- get_current_input ;;
  when (negb (PyStr.truthy_opt cur) && negb dry)
       (print_warn
          "Subfinder returned no results. Stopping chain for this target." ;;
        continue_) ;;
  (* 2. dnsx *)
  print_step 2 6 "DNSx" "Resolving active subdomains" ;;
  cur <- get_current_input ;;
  dnsx_result <-
    run_command dnsx_cmd cur (Some (dnsx_output_file a target)) None dry ;;
  set_current_input (Some (stdout dnsx_result)) ;;
  cur <- get_current_input ;;
  when (negb (PyStr.truthy_opt cur) && negb dry)
       (print_warn "DNSx resolved no hosts. Stopping chain for this target." ;;
        continue_) ;;
  (* 3. naabu *)
  print_step 3 6 "Naabu" "Port scanning (Top web ports)" ;;
  cur <- get_current_input ;;
  naabu_result <-
    run_command naabu_cmd cur (Some (naabu_output_file a target)) None dry ;;
  set_current_input (Some (stdout naabu_result)) ;;
  cur <- get_current_input ;;
  when (negb (PyStr.truthy_opt cur) && negb dry)
       (print_warn
          "Naabu found no open web ports. Stopping chain for this target." ;;
        continue_) ;;
  (* 4. httpx *)
  print_step 4 6 "HTTPX" "Probing for live HTTP services" ;;
  cur <- get_current_input ;;
  run_command (httpx_cmd a proxy_url target) cur None (Some current_env) dry ;;
  when (negb dry) (extract_clean_urls a target) ;;
  cur <- get_current_input ;;
  when (negb (PyStr.truthy_opt cur) && negb dry)
       (print_warn
          "httpx found no live HTTP(S) services. Stopping chain for this target." ;;
        continue_) ;;
  (* 5. katana *)
  print_step 5 6 "Katana" "Crawling for endpoints" ;;
  cur <- get_current_input ;;
  run_command (katana_cmd a proxy_url) cur
              (Some (katana_output_file a target)) (Some current_env) dry ;;
  when (negb dry)
       (print (Colors.GREEN +:+ "    ✓ Crawled paths saved." +:+ Colors.ENDC)) ;;
  (* 6. seeding Burp *)
  when (PyStr.truthy_opt (args_proxy a) && negb dry)
       (print_step 6 6 "Burp Suite Integration" "Seeding Site Map" ;;
        print ("    Sending discovered URLs to " +:+ Colors.BOLD
               +:+ fmt_opt (args_proxy a) +:+ Colors.ENDC +:+ "...") ;;
        run_command (seed_cmd a proxy_url target) None None
                    (Some current_env) dry ;;
        print_success "Burp Suite Site Map populated successfully.") ;;
  final_summary a target.

(** [for target in targets: ...]: [continue] ends the iteration, an exit
    or an exception ends the loop. *)
Fixpoint for_each (targets : list string) (body : string -> M OS unit)
  : M OS unit :=
  match targets with
  | [] => ret tt
  | target :: rest =>
      fun s =>
        let r := body target s in
        match out r with
        | Normal _ | LoopContinue =>
            let r' := for_each rest body (final r) in
            Res (out r') (final r') (log r ++ log r')
        | SysExit c => Res (SysExit c) (final r) (log r)
        | Raised e => Res (Raised e) (final r) (log r)
        end
  end.

(** *** [main] (lines 110-289), from the parsed arguments on *)

Definition main (a : Args) : M OS unit :=
  check_tools_installed TOOL_CHAIN ;;
  targets <- load_targets a ;;
  match targets with
  | [] =>
      print_err "No valid targets found in the input." ;;
      sys_exit 1
  | _ :: _ =>
      let output_base_dir := args_output_dir a in
      makedirs output_base_dir ;;
      print_info ("Output directory: " +:+ output_base_dir) ;;
      environ <- get_environ ;;
      (* os.environ.copy(): the assignments below change the copy only *)
      let current_env := environ in
      let proxy_url :=
        if PyStr.truthy_opt (args_proxy a)
        then "http://" +:+ fmt_opt (args_proxy a) else "" in
      let current_env :=
        if PyStr.truthy_opt (args_proxy a)
        then <["HTTPS_PROXY" := proxy_url]>
               (<["HTTP_PROXY" := proxy_url]> current_env)
        else current_env in
      (if PyStr.truthy_opt (args_proxy a)
       then print_info ("Proxy enabled: " +:+ Colors.BOLD +:+ proxy_url
                        +:+ Colors.ENDC +:+ " (BurpSuite Integration)")
       else print_info "No proxy specified. Direct connection mode.") ;;
      for_each targets (process_target a proxy_url current_env)
  end.

End Script.

(** ** Reading a log *)

Record exec_call : Type := mkExecCall {
  ec_cmd : list string;
  ec_input : option string;
  ec_env : option (gmap string string);
  ec_answer : exec_answer
}.

(** The child processes a log launched, in order. *)
Fixpoint execs (l : list event) : list exec_call :=
  match l with
  | [] => []
  | EvExec cmd input env ans :: l' => mkExecCall cmd input env ans :: execs l'
  | _ :: l' => execs l'
  end.

(** Their command lines. *)
Definition launched (l : list event) : list (list string) :=
  map ec_cmd (execs l).

(** The program a child process runs. *)
Definition program (c : exec_call) : string :=
  match ec_cmd c with prog :: _ => prog | [] => "" end.

(** The texts printed, in order. *)
Fixpoint printed (l : list event) : list string :=
  match l with
  | [] => []
  | EvPrint t :: l' => t :: printed l'
  | _ :: l' => printed l'
  end.

(** The events that are not console output. *)
Definition is_print (e : event) : bool :=
  match e with EvPrint _ => true | _ => false end.

Definition effects (l : list event) : list event :=
  List.filter (fun e => negb (is_print e)) l.

(** The events that create or change something in the file system. *)
Definition is_fs_change (e : event) : bool :=
  match e with EvWrite _ _ _ | EvMakedirs _ _ => true | _ => false end.

Definition fs_changes (l : list event) : list event :=
  List.filter is_fs_change l.

(** The answers the reads of a log got, and the writes that failed. *)
Fixpoint read_answers (l : list event) : list (failure + string) :=
  match l with
  | [] => []
  | EvRead _ ans :: l' => ans :: read_answers l'
  | _ :: l' => read_answers l'
  end.

Fixpoint failed_writes (l : list event) : list failure :=
  match l with
  | [] => []
  | EvWrite _ _ (Some e) :: l' => e :: failed_writes l'
  | _ :: l' => failed_writes l'
  end.

(** What stage 4 hands on, read off the log of one iteration: the clean URL
    list made from the detail file, when that file could be read and the
    list could be saved. *)
Definition probe_yield (l : list event) : option string :=
  match read_answers l, failed_writes l with
  | inr content :: _, [] =>
      Some (PyStr.join NL (clean_urls_of (PyStr.file_lines content)))
  | _, _ => None
  end.

(** What stage [k] (1 to 4) of an iteration handed on, read off its log:
    for stages 1 to 3 the captured output of the [k]-th child process. A
    stage that did not run handed on nothing. *)
Definition stage_yield (l : list event) (k : nat) : option string :=
  if (k =? 4)%nat then probe_yield l
  else (fun c => captured (ec_answer c)) <$> (execs l !! (k - 1)%nat).

(** The first stage among 1 to 4 that handed on nothing usable. *)
Definition first_empty_stage (l : list event) : option nat :=
  List.find (fun k => negb (PyStr.truthy_opt (stage_yield l k))) [1; 2; 3; 4]%nat.

(** Number of stages an iteration with this log went through. *)
Definition stages_run (l : list event) : nat :=
  match first_empty_stage l with Some k => k | None => 5%nat end.

(** ** The possible runs of a command and of an iteration

    What a live run of [run_command] and a live iteration of the target
    loop can come to, as the answers of the outside decide. *)

Definition aborted {A} (o : outcome A) : Prop :=
  match o with
  | SysExit _ | Raised _ => True
  | Normal _ | LoopContinue => False
  end.

(** The file a live [run_command] saves: the captured output, when an
    output file was asked for and the child exited with status 0. *)
Definition saved_output (outf : option string) (ans : exec_answer)
  : list event :=
  if PyStr.truthy_opt outf then
    match ans with
    | Exited rc so _ =>
        if (rc =? 0)%Z then [EvWrite (fmt_opt outf) so None] else []
    | ExecError _ => []
    end
  else [].

(** The effects of a live [run_command] that returns. *)
Definition run_effects (cmd : list string) (input outf : option string)
    (env : option (gmap string string)) (ans : exec_answer) : list event :=
  EvExec cmd input env ans :: saved_output outf ans.

(** The effects of a stage that [run_command] saves by itself. *)
Definition stage_effects (cmd : list string) (input : option string)
    (path : string) (env : option (gmap string string)) (ans : exec_answer)
  : list event :=
  run_effects cmd input (Some path) env ans.

(** The clean URL text made from the content of the detail file. *)
Definition urls_text (content : string) : string :=
  PyStr.join NL (clean_urls_of (PyStr.file_lines content)).

(** Every child process of an iteration is fed by what the iteration itself
    just produced: the first (subfinder) gets no input, the second to fourth
    (dnsx, naabu, httpx) get the captured output of the one before, the fifth
    (katana) gets the URL list made from the detail file read in this
    iteration, and the seeding run gets no input. *)
Definition fresh_chain (calls : list exec_call)
    (reads : list (failure + string)) : Prop :=
  forall (i : nat) (c : exec_call),
    calls !! i = Some c ->
    match i with
    | 0%nat => ec_input c = None
    | 1%nat | 2%nat | 3%nat =>
        exists p, calls !! (i - 1)%nat = Some p
                  /\ ec_input c = Some (captured (ec_answer p))
    | 4%nat =>
        exists content, head reads = Some (inr content)
                        /\ ec_input c = Some (urls_text content)
    | _ => ec_input c = None
    end.

Definition fresh_inputs (l : list event) : Prop :=
  fresh_chain (execs l) (read_answers l).

Section Shapes.

Context {OS : Type} `{OSModel OS}.

Inductive live_run (command : list string) (input outf : option string)
    (env : option (gmap string string)) (s : state OS)
  : result OS CompletedProcess -> Prop :=
| live_exit0 so se os1 l :
    os_exec command input (child_environment (os_environ s) env) (os_state s)
    = (Exited 0 so se, os1) ->
    PyStr.truthy_opt outf = false ->
    effects l = [EvExec command input env (Exited 0 so se)] ->
    live_run command input outf env s
      (Res (Normal (mkCompletedProcess command 0 so se)) (with_os s os1) l)
| live_exit0_saved so se os1 os2 l :
    os_exec command input (child_environment (os_environ s) env) (os_state s)
    = (Exited 0 so se, os1) ->
    PyStr.truthy_opt outf = true ->
    os_write (fmt_opt outf) so os1 = (None, os2) ->
    effects l = [EvExec command input env (Exited 0 so se);
                 EvWrite (fmt_opt outf) so None] ->
    live_run command input outf env s
      (Res (Normal (mkCompletedProcess command 0 so se)) (with_os s os2) l)
| live_exit0_unsaved so se os1 os2 f l :
    os_exec command input (child_environment (os_environ s) env) (os_state s)
    = (Exited 0 so se, os1) ->
    PyStr.truthy_opt outf = true ->
    os_write (fmt_opt outf) so os1 = (Some f, os2) ->
    effects l = [EvExec command input env (Exited 0 so se);
                 EvWrite (fmt_opt outf) so (Some f)] ->
    live_run command input outf env s (Res (SysExit 1) (with_os s os2) l)
| live_failed rc so se os1 l :
    os_exec command input (child_environment (os_environ s) env) (os_state s)
    = (Exited rc so se, os1) ->
    rc <> 0%Z ->
    effects l = [EvExec command input env (Exited rc so se)] ->
    live_run command input outf env s
      (Res (Normal (mkCompletedProcess command 1 "" se)) (with_os s os1) l)
| live_not_run f os1 l :
    os_exec command input (child_environment (os_environ s) env) (os_state s)
    = (ExecError f, os1) ->
    effects l = [EvExec command input env (ExecError f)] ->
    live_run command input outf env s (Res (SysExit 1) (with_os s os1) l).

(** The same, told apart only by whether [run_command] returned. *)
Inductive live_outcome (command : list string) (input outf : option string)
    (env : option (gmap string string)) (s : state OS)
  : result OS CompletedProcess -> Prop :=
| live_returned ans rc se os' l :
    effects l = run_effects command input outf env ans ->
    live_outcome command input outf env s
      (Res (Normal (mkCompletedProcess command rc (captured ans) se))
           (with_os s os') l)
| live_unsaved so se f os' l :
    effects l = [EvExec command input env (Exited 0 so se);
                 EvWrite (fmt_opt outf) so (Some f)] ->
    live_outcome command input outf env s (Res (SysExit 1) (with_os s os') l)
| live_exited f os' l :
    effects l = [EvExec command input env (ExecError f)] ->
    live_outcome command input outf env s (Res (SysExit 1) (with_os s os') l).

(** What reading the clean URL list back comes to: the list is the new
    current input; or the detail file, or the place for the list, is
    missing and the current input is [None]; or another error is raised. *)
Inductive extract_outcome (a : Args) (target : string) (s : state OS)
  : result OS unit -> Prop :=
| extract_listed content os' l :
    effects l = [EvRead (httpx_details_file a target) (inr content);
                 EvWrite (urls_for_burp_file a target)
                   (urls_text content) None] ->
    extract_outcome a target s
      (Res (Normal tt)
           (mkState os' (os_environ s) (Some (urls_text content))) l)
| extract_missing t os' l :
    effects l = [EvRead (httpx_details_file a target) (inl (ENoEntry t))] ->
    extract_outcome a target s
      (Res (Normal tt) (mkState os' (os_environ s) None) l)
| extract_unsaved content t os' l :
    effects l = [EvRead (httpx_details_file a target) (inr content);
                 EvWrite (urls_for_burp_file a target)
                   (urls_text content) (Some (ENoEntry t))] ->
    extract_outcome a target s
      (Res (Normal tt) (mkState os' (os_environ s) None) l)
| extract_raised e s' l :
    execs l = [] ->
    extract_outcome a target s (Res (Raised e) s' l).

(** The warnings that end an iteration at stages 1 to 4, and the lines
    that end a completed one. *)
Definition stop_warning (k : nat) : string :=
  Colors.YELLOW +:+ "[!] " +:+
  match k with
  | 1%nat => "Subfinder returned no results. Stopping chain for this target."
  | 2%nat => "DNSx resolved no hosts. Stopping chain for this target."
  | 3%nat => "Naabu found no open web ports. Stopping chain for this target."
  | _ => "httpx found no live HTTP(S) services. Stopping chain for this target."
  end +:+ Colors.ENDC.

Definition summary_lines (a : Args) (target results_dir : string)
  : list string :=
  [NL +:+ banner Colors.GREEN;
   Colors.BOLD +:+ Colors.GREEN +:+ " RECONNAISSANCE COMPLETE: "
     +:+ Colors.WHITE +:+ target +:+ Colors.ENDC;
   banner Colors.GREEN;
   "    " +:+ Colors.CYAN +:+ "Results Directory:" +:+ Colors.ENDC
     +:+ " " +:+ results_dir]
  ++ (if PyStr.truthy_opt (args_proxy a)
      then ["    " +:+ Colors.CYAN +:+ "Proxy Status:" +:+ Colors.ENDC
              +:+ "      Traffic sent to " +:+ fmt_opt (args_proxy a);
            "    " +:+ Colors.CYAN +:+ "Next Step:" +:+ Colors.ENDC
              +:+ "         Check Burp Suite 'Target' tab."]
      else ["    " +:+ Colors.CYAN +:+ "Manual Import:" +:+ Colors.ENDC
              +:+ "     Import '"
              +:+ PyStr.basename (urls_for_burp_file a target)
              +:+ "' into Burp."])
  ++ [NL].

(** The console output of a log ends with the given lines. *)
Definition prints_last (l : list event) (tail : list string) : Prop :=
  exists pre, printed l = pre ++ tail.

(** What a dry iteration comes to: it completes, only prints (ending with
    the summary) and leaves the outside and the environment alone. *)
Definition dry_shape (a : Args) (target : string) (s : state OS)
    (r : result OS unit) : Prop :=
  out r = Normal tt /\
  effects (log r) = [] /\
  os_state (final r) = os_state s /\
  os_environ (final r) = os_environ s /\
  prints_last (log r)
    (summary_lines a target (os_abspath (args_output_dir a) (os_state s))).

Section Iteration.
Variable a : Args.
Variable proxy_url : string.
Variable current_env : gmap string string.
Variable target : string.

Definition effects_upto1 (a1 : exec_answer) : list event :=
  EvExec (subfinder_cmd target) None None a1 ::
  (if PyStr.truthy (captured a1)
   then [EvWrite (subfinder_output_file a target) (captured a1) None]
   else []).

Definition effects_upto2 (a1 a2 : exec_answer) : list event :=
  effects_upto1 a1
  ++ stage_effects dnsx_cmd (Some (captured a1))
       (dnsx_output_file a target) None a2.

Definition effects_upto3 (a1 a2 a3 : exec_answer) : list event :=
  effects_upto2 a1 a2
  ++ stage_effects naabu_cmd (Some (captured a2))
       (naabu_output_file a target) None a3.

Definition effects_upto4 (a1 a2 a3 a4 : exec_answer)
    (rd : failure + string) : list event :=
  effects_upto3 a1 a2 a3
  ++ [EvExec (httpx_cmd a proxy_url target) (Some (captured a3))
        (Some current_env) a4;
      EvRead (httpx_details_file a target) rd].

Inductive iteration_shape : result OS unit -> Prop :=
| it_abort o s' l :
    aborted o -> fresh_inputs l -> iteration_shape (Res o s' l)
| it_stop1 a1 s' l :
    effects l = effects_upto1 a1 ->
    captured a1 = "" ->
    prints_last l [stop_warning 1] ->
    iteration_shape (Res LoopContinue s' l)
| it_stop2 a1 a2 s' l :
    effects l = effects_upto2 a1 a2 ->
    PyStr.truthy (captured a1) = true ->
    captured a2 = "" ->
    prints_last l [stop_warning 2] ->
    iteration_shape (Res LoopContinue s' l)
| it_stop3 a1 a2 a3 s' l :
    effects l = effects_upto3 a1 a2 a3 ->
    PyStr.truthy (captured a1) = true ->
    PyStr.truthy (captured a2) = true ->
    captured a3 = "" ->
    prints_last l [stop_warning 3] ->
    iteration_shape (Res LoopContinue s' l)
| it_stop4_missing a1 a2 a3 a4 t s' l :
    effects l = effects_upto4 a1 a2 a3 a4 (inl (ENoEntry t)) ->
    PyStr.truthy (captured a1) = true ->
    PyStr.truthy (captured a2) = true ->
    PyStr.truthy (captured a3) = true ->
    prints_last l [stop_warning 4] ->
    iteration_shape (Res LoopContinue s' l)
| it_stop4_empty a1 a2 a3 a4 content s' l :
    effects l = effects_upto4 a1 a2 a3 a4 (inr content)
                ++ [EvWrite (urls_for_burp_file a target)
                      (urls_text content) None] ->
    PyStr.truthy (captured a1) = true ->
    PyStr.truthy (captured a2) = true ->
    PyStr.truthy (captured a3) = true ->
    urls_text content = "" ->
    prints_last l [stop_warning 4] ->
    iteration_shape (Res LoopContinue s' l)
| it_stop4_unsaved a1 a2 a3 a4 content t s' l :
    effects l = effects_upto4 a1 a2 a3 a4 (inr content)
                ++ [EvWrite (urls_for_burp_file a target)
                      (urls_text content) (Some (ENoEntry t))] ->
    PyStr.truthy (captured a1) = true ->
    PyStr.truthy (captured a2) = true ->
    PyStr.truthy (captured a3) = true ->
    prints_last l [stop_warning 4] ->
    iteration_shape (Res LoopContinue s' l)
| it_done a1 a2 a3 a4 a5 content seeding s' l :
    effects l = effects_upto4 a1 a2 a3 a4 (inr content)
                ++ [EvWrite (urls_for_burp_file a target)
                      (urls_text content) None]
                ++ stage_effects (katana_cmd a proxy_url)
                     (Some (urls_text content))
                     (katana_output_file a target) (Some current_env) a5
                ++ seeding ->
    PyStr.truthy (captured a1) = true ->
    PyStr.truthy (captured a2) = true ->
    PyStr.truthy (captured a3) = true ->
    PyStr.truthy (urls_text content) = true ->
    (if PyStr.truthy_opt (args_proxy a)
     then exists a6, seeding = [EvExec (seed_cmd a proxy_url target) None
                                  (Some current_env) a6]
     else seeding = []) ->
    prints_last l (summary_lines a target
                     (os_abspath (args_output_dir a) (os_state s'))) ->
    iteration_shape (Res (Normal tt) s' l).

End Iteration.

End Shapes.

(** ** The footprint of a run

    Every interaction [main] can have with the outside, site by site. *)

(** The proxy URL [main] synthesises. *)
Definition proxy_url_of (a : Args) : string :=
  if PyStr.truthy_opt (args_proxy a)
  then "http://" +:+ fmt_opt (args_proxy a) else "".

(** A mapping that carries the configured proxy in both variables. *)
Definition proxied (a : Args) (m : gmap string string) : Prop :=
  forall addr,
    args_proxy a = Some addr -> PyStr.truthy addr = true ->
    m !! "HTTP_PROXY" = Some ("http://" +:+ addr)
    /\ m !! "HTTPS_PROXY" = Some ("http://" +:+ addr).

Inductive main_event (a : Args) : event -> Prop :=
| me_print t :
    main_event a (EvPrint t)
| me_which tool ans :
    In tool TOOL_CHAIN ->
    main_event a (EvExec ["which"; tool] None None ans)
| me_read_list path ans :
    args_list a = Some path ->
    main_event a (EvRead path ans)
| me_makedirs ans :
    main_event a (EvMakedirs (args_output_dir a) ans)
| me_stage target cmd input ans :
    args_dry_run a = false ->
    In cmd [subfinder_cmd target; dnsx_cmd; naabu_cmd] ->
    main_event a (EvExec cmd input None ans)
| me_http_stage target cmd input m ans :
    args_dry_run a = false ->
    In cmd [httpx_cmd a (proxy_url_of a) target;
            katana_cmd a (proxy_url_of a);
            seed_cmd a (proxy_url_of a) target] ->
    proxied a m ->
    main_event a (EvExec cmd input (Some m) ans)
| me_read_details target ans :
    args_dry_run a = false ->
    main_event a (EvRead (httpx_details_file a target) ans)
| me_write target path text ans :
    args_dry_run a = false ->
    In path [subfinder_output_file a target; dnsx_output_file a target;
             naabu_output_file a target; urls_for_burp_file a target;
             katana_output_file a target] ->
    main_event a (EvWrite path text ans).

(** What is left of it in a dry run: the setup before the target loop. *)
Inductive setup_event (a : Args) : event -> Prop :=
| se_print t :
    setup_event a (EvPrint t)
| se_which tool ans :
    In tool TOOL_CHAIN ->
    setup_event a (EvExec ["which"; tool] None None ans)
| se_read_list path ans :
    args_list a = Some path ->
    setup_event a (EvRead path ans)
| se_makedirs ans :
    setup_event a (EvMakedirs (args_output_dir a) ans).

Section Footprint.

Context {OS : Type} `{OSModel OS}.

(** All events of a computation satisfy [P], and the computation leaves
    the environment of the script as it was. *)
Definition emits {A} (P : event -> Prop) (m : M OS A) : Prop :=
  forall s, Forall P (log (m s)) /\ os_environ (final (m s)) = os_environ s.

End Footprint.

(** ** A small concrete system, for running the script *)

Module Toy.

(** Files, directories, and a record of what every child process found
    in [HTTP_PROXY]. *)
Record world : Type := mkWorld {
  files : gmap string string;
  dirs : gset string;
  received : list (string * option string)
}.

Definition empty_world : world := mkWorld ∅ ∅ [].

Definition detail_lines : string :=
  "https://a.com 200 1234 Title Here" +:+ NL +:+ NL
  +:+ "https://b.com 403 0 Forbidden" +:+ NL.

(** The tools: [which] finds everything; subfinder knows nothing about
    [void.test] and fails on [down.test]; dnsx and naabu pass their input
    on; httpx writes its detail file; katana reports one path. *)
Definition answer (cmd : list string) (input : option string)
    (w : world) : exec_answer * gmap string string :=
  match cmd with
  | "which" :: tool :: _ =>
      (Exited 0 ("/usr/bin/" +:+ tool +:+ NL) "", files w)
  | "subfinder" :: "-d" :: t :: _ =>
      if String.eqb t "void.test" then (Exited 0 "" "", files w)
      else if String.eqb t "down.test"
           then (Exited 2 "" ("resolver unreachable" +:+ NL), files w)
           else (Exited 0 ("www." +:+ t +:+ NL) "", files w)
  | "dnsx" :: _ | "naabu" :: _ =>
      (Exited 0 (match input with Some i => i | None => "" end) "", files w)
  | "httpx" :: "-sc" :: _ :: _ :: _ :: _ :: "-o" :: file :: _ =>
      (Exited 0 detail_lines "", <[file := detail_lines]> (files w))
  | "httpx" :: _ => (Exited 0 "" "", files w)
  | "katana" :: _ => (Exited 0 ("https://a.com/login" +:+ NL) "", files w)
  | _ => (ExecError (ENoEntry "[Errno 2] No such file or directory"), files w)
  end.

Definition exec (cmd : list string) (input : option string)
    (env : gmap string string) (w : world) : exec_answer * world :=
  let r := answer cmd input w in
  (r.1,
   mkWorld r.2 (dirs w)
     (received w ++ [(match cmd with prog :: _ => prog | [] => "" end,
                      env !! "HTTP_PROXY")])).

Definition read (path : string) (w : world) : (failure + string) * world :=
  match files w !! path with
  | Some text => (inr text, w)
  | None => (inl (ENoEntry "[Errno 2] No such file or directory"), w)
  end.

Definition write (path text : string) (w : world)
  : option failure * world :=
  (None, mkWorld (<[path := text]> (files w)) (dirs w) (received w)).

Definition mkdirs (path : string) (w : world) : option failure * world :=
  (None, mkWorld (files w) ({[path]} ∪ dirs w) (received w)).

Definition abspath (path : string) (w : world) : string :=
  match path with
  | String "/"%char _ => path
  | _ => "/work/" +:+ path
  end.

#[global] Instance os : OSModel world := {
  os_exec := exec;
  os_read := read;
  os_write := write;
  os_makedirs := mkdirs;
  os_abspath := abspath
}.

Definition start_in (w : world) (environ : gmap string string)
  : state world :=
  mkState w environ None.

Definition start (environ : gmap string string) : state world :=
  start_in empty_world environ.

End Toy.

(** Inputs the properties below are tried on. *)
Module Examples.

Definition dry_args : Args :=
  mkArgs (Some "a.com") None "recon_results" (Some "127.0.0.1:8080") true.

Definition live_args : Args :=
  mkArgs (Some "a.com") None "recon_results" None false.

Definition proxy_args : Args :=
  mkArgs (Some "a.com") None "recon_results" (Some "127.0.0.1:8080") false.

Definition void_args : Args :=
  mkArgs (Some "void.test") None "recon_results" None false.

Definition empty_domain_args : Args :=
  mkArgs (Some "") None "recon_results" None false.

Definition list_args : Args :=
  mkArgs None (Some "targets.txt") "recon_results" None false.

Definition list_text : string :=
  "a.com" +:+ NL +:+ NL +:+ "  b.com " +:+ NL.

Definition list_world : Toy.world :=
  Toy.mkWorld {["targets.txt" := list_text]} ∅ [].

(** An environment that already carries a proxy. *)
Definition corporate_env : gmap string string :=
  {["HTTP_PROXY" := "http://10.0.0.1:3128"]}.

Definition failing_cmd : list string := subfinder_cmd "down.test".

End Examples.

(** ** What the specification says the loader and the URL extraction compute *)

Module LoaderSpec.

(** The lines of a text: the pieces between line terminators (LF, CR LF
    or CR), without the terminators. *)
Fixpoint text_lines (s : string) : list string :=
  match s with
  | EmptyString => [EmptyString]
  | String c r =>
      if Ascii.eqb c PyStr.LF then EmptyString :: text_lines r
      else if Ascii.eqb c PyStr.CR then
        EmptyString ::
          match r with
          | String d r' =>
              if Ascii.eqb d PyStr.LF then text_lines r' else text_lines r
          | EmptyString => [EmptyString]
          end
      else match text_lines r with
           | l :: ls => String c l :: ls
           | [] => [String c EmptyString]
           end
  end.

(** Split into lines, trim each, drop the empty ones. *)
Definition targets (content : string) : list string :=
  List.filter PyStr.truthy (List.map PyStr.strip (text_lines content)).

(** The same pieces as a file object yields them: every piece but the
    last with its line feed, the last only when it is not empty. *)
Fixpoint with_terminators (pieces : list string) : list string :=
  match pieces with
  | [] => []
  | [last] => if PyStr.truthy last then [last] else []
  | p :: rest => (p +:+ NL) :: with_terminators rest
  end.

End LoaderSpec.

Module UrlSpec.

(** The longest prefix without whitespace. *)
Fixpoint take_token (s : string) : string :=
  match s with
  | EmptyString => EmptyString
  | String c r =>
      if PyStr.isspace c then EmptyString else String c (take_token r)
  end.

(** The first whitespace-delimited token of a line. *)
Definition first_token (line : string) : string :=
  take_token (PyStr.lstrip line).

(** A line is blank when trimming leaves nothing. *)
Definition blank (line : string) : bool :=
  negb (PyStr.truthy (PyStr.strip line)).

(** The first token of every line that is not blank, in order. *)
Definition clean_urls (raw_lines : list string) : list string :=
  List.map first_token (List.filter (fun l => negb (blank l)) raw_lines).

End UrlSpec.

(** ** More ways to read a log, and shapes of text *)

(** ** Shapes of text *)

Module TextShape.

(** No whitespace anywhere in the text. *)
Definition spaceless (s : string) : bool :=
  forallb (fun c => negb (PyStr.isspace c)) (list_ascii_of_string s).

(** No line terminator (LF or CR) anywhere in the text. *)
Definition one_line (s : string) : bool :=
  forallb (fun c => negb (Ascii.eqb c PyStr.LF || Ascii.eqb c PyStr.CR))
          (list_ascii_of_string s).

(** A text trimming leaves as it is, and that is not empty. *)
Definition trimmed (s : string) : Prop :=
  PyStr.truthy s = true /\ PyStr.strip s = s.

End TextShape.

(** A [which] probe that found its tool. *)
Definition probe_ok (c : exec_call) : bool :=
  match ec_answer c with
  | Exited rc _ _ => (rc =? 0)%Z
  | ExecError _ => false
  end.

(** The tools whose probe did not find them, in the order probed. *)
Definition failed_tools (l : list event) : list string :=
  map (fun c => match ec_cmd c with
                | [_; tool] => tool
                | _ => EmptyString
                end)
      (List.filter (fun c => negb (probe_ok c)) (execs l)).

(** The line [run_command] prints before giving up. *)
Definition critical_line (e : exn) : string :=
  NL +:+ Colors.RED +:+ Colors.BOLD +:+ "[CRITICAL ERROR] " +:+ exn_str e
  +:+ Colors.ENDC.

(** ** A system with working tools and a file system that refuses *)

Module Faulty.

Inductive world : Type := Locked.

Definition denied : failure :=
  EOther "PermissionError" "[Errno 13] Permission denied".

Definition exec (cmd : list string) (input : option string)
    (env : gmap string string) (w : world) : exec_answer * world :=
  (Exited 0 ("found" +:+ NL) "", w).

Definition read (path : string) (w : world) : (failure + string) * world :=
  (inl denied, w).

Definition write (path text : string) (w : world) : option failure * world :=
  (Some denied, w).

Definition mkdirs (path : string) (w : world) : option failure * world :=
  (Some denied, w).

Definition abspath (path : string) (w : world) : string := path.

#[global] Instance os : OSModel world := {
  os_exec := exec;
  os_read := read;
  os_write := write;
  os_makedirs := mkdirs;
  os_abspath := abspath
}.

Definition start : state world := mkState Locked ∅ None.

End Faulty.

(** The files a log wrote, with what was written, in order (a write that
    failed wrote nothing). *)
Fixpoint saved_files (l : list event) : list (string * string) :=
  match l with
  | [] => []
  | EvWrite path content None :: l' => (path, content) :: saved_files l'
  | _ :: l' => saved_files l'
  end.

(** The subfinder commands a log launched, in order. *)
Definition subfinder_runs (l : list event) : list (list string) :=
  List.filter (fun cmd => bool_decide (head cmd = Some "subfinder"))
              (launched l).

(** No slash anywhere in the text. *)
Definition slashless (s : string) : bool :=
  forallb (fun c => negb (Ascii.eqb c "/"%char)) (list_ascii_of_string s).

(** What [main] does before it creates the output directory: console
    output, [which] probes, and the read of the list file. *)
Definition before_setup (a : Args) (e : event) : Prop :=
  match e with
  | EvPrint _ => True
  | EvExec cmd _ _ _ => exists tool, cmd = ["which"; tool]
  | EvRead path _ => args_list a = Some path
  | EvWrite _ _ _ | EvMakedirs _ _ => False
  end.

(** Anything but the creation of a directory. *)
Definition no_makedirs (e : event) : Prop :=
  match e with EvMakedirs _ _ => False | _ => True end.

(** The line [run_command] prints first, in either mode. *)
Definition executing_line (command : list string) : string :=
  Colors.CYAN +:+ "    ➜ Executing: " +:+ PyStr.join " " command
  +:+ Colors.ENDC.

(** [s.startswith(p)] *)
Fixpoint starts_with (p s : string) : bool :=
  match p, s with
  | EmptyString, _ => true
  | String a p', String b s' => Ascii.eqb a b && starts_with p' s'
  | String _ _, EmptyString => false
  end.

(** A printed line that announces a command. *)
Definition is_announcement (line : string) : bool :=
  starts_with (Colors.CYAN +:+ "    ➜ Executing: ") line.

(** The commands a log announced, as printed. *)
Definition announced (l : list event) : list string :=
  List.filter is_announcement (printed l).

Section Announcing.

Context {OS : Type} `{OSModel OS}.

(** A computation that always returns, having announced these commands. *)
Definition announces {A} (m : M OS A) (lines : list string) : Prop :=
  forall s, (exists x, out (m s) = Normal x)
            /\ announced (log (m s)) = lines
            /\ effects (log (m s)) = [].

End Announcing.

Section Tracing.

Context {OS : Type} `{OSModel OS}.

(** A computation that announces nothing and launches nothing. *)
Definition quiet {A} (m : M OS A) : Prop :=
  forall s, announced (log (m s)) = [] /\ launched (log (m s)) = [].

(** A computation that launches one command, without announcing it. *)
Definition launches {A} (command : list string) (m : M OS A) : Prop :=
  forall s, announced (log (m s)) = []
            /\ launched (log (m s)) = [command].

(** A computation whose announcements are the commands it launched. *)
Definition traced {A} (m : M OS A) : Prop :=
  forall s, announced (log (m s))
            = map executing_line (launched (log (m s))).

End Tracing.

(** More inputs the properties are tried on. *)
Module Cases.

(** A list file that holds only blank lines. *)
Definition blank_list_world : Toy.world :=
  Toy.mkWorld {["targets.txt" := NL +:+ "   " +:+ NL]} ∅ [].

(** A program the toy system does not have. *)
Definition unknown_cmd : list string := ["nmap"; "-sV"].

Definition no_such_file : failure :=
  ENoEntry "[Errno 2] No such file or directory".

End Cases.

(** ** The loop, target by target *)

Section Loop.

Context {OS : Type} `{OSModel OS}.

(** The iterations a run of the loop goes through: every target reached,
    with the result of its iteration, in order. An iteration that exits or
    raises is the last one. *)
Fixpoint iterations (targets : list string) (body : string -> M OS unit)
    (s : state OS) : list (string * result OS unit) :=
  match targets with
  | [] => []
  | target :: rest =>
      let r := body target s in
      (target, r) ::
      match out r with
      | Normal _ | LoopContinue => iterations rest body (final r)
      | SysExit _ | Raised _ => []
      end
  end.

End Loop.

(** ** What the stages of an iteration produced *)

Definition exited_zero (ans : exec_answer) : bool :=
  match ans with
  | Exited rc _ _ => (rc =? 0)%Z
  | ExecError _ => false
  end.

(** The output of stage [k] (1 to 4) in an iteration with this log. For
    stages 1 to 3 it is the captured output of the tool. Stage 4 writes to
    its detail file: its output is the clean URL list made from that file,
    when httpx exited with status 0, the file could be read and the list
    saved. A stage that did not run produced nothing. *)
Definition stage_output (l : list event) (k : nat) : option string :=
  if (k =? 4)%nat then
    match execs l !! 3%nat with
    | Some c => if exited_zero (ec_answer c) then probe_yield l else None
    | None => None
    end
  else (fun c => captured (ec_answer c)) <$> (execs l !! (k - 1)%nat).

(** The first stage among 1 to 4 without output, and the number of stages
    that go with it. *)
Definition first_silent_stage (l : list event) : option nat :=
  List.find (fun k => negb (PyStr.truthy_opt (stage_output l k)))
            [1; 2; 3; 4]%nat.

Definition stages_reached (l : list event) : nat :=
  match first_silent_stage l with Some k => k | None => 5%nat end.

(** The case the script does not tell apart: httpx did not exit with status
    0, and yet a detail file was there to read and gave URLs. *)
Definition stale_probe (l : list event) : bool :=
  match execs l !! 3%nat with
  | Some c =>
      negb (exited_zero (ec_answer c)) && PyStr.truthy_opt (probe_yield l)
  | None => false
  end.

Section Within.

Context {OS : Type} `{OSModel OS}.

(** The child processes of a computation are the first ones of [cmds], in
    order, and all of them when it returns. *)
Definition runs_within {A} (cmds : list (list string)) (m : M OS A) : Prop :=
  forall s,
    (exists k, launched (log (m s)) = firstn k cmds)
    /\ ((exists x, out (m s) = Normal x) -> launched (log (m s)) = cmds).

End Within.

(** An event that is not the launch of a child process. *)
Definition no_exec (e : event) : Prop :=
  match e with EvExec _ _ _ _ => False | _ => True end.

(** ** A system with one write-protected file *)

Module Halfway.

(** The files and tools of [Toy]. The place for the dnsx output of [a.com]
    is taken by a file that may not be written. *)
Record world : Type := mkWorld { inner : Toy.world }.

Definition protected : string := "recon_results/a.com_dnsx.txt".

Definition lift {X} (r : X * Toy.world) : X * world := (r.1, mkWorld r.2).

Definition write (path text : string) (w : world) : option failure * world :=
  if String.eqb path protected
  then (Some (EOther "PermissionError"
                ("[Errno 13] Permission denied: '" +:+ protected +:+ "'")),
        w)
  else lift (Toy.write path text (inner w)).

#[global] Instance os : OSModel world := {
  os_exec := fun cmd input env w => lift (Toy.exec cmd input env (inner w));
  os_read := fun path w => lift (Toy.read path (inner w));
  os_write := write;
  os_makedirs := fun path w => lift (Toy.mkdirs path (inner w));
  os_abspath := fun path w => Toy.abspath path (inner w)
}.

Definition start_in (w : Toy.world) : state world :=
  mkState (mkWorld w) ∅ None.

End Halfway.

(** ** The lines of the summary block on the console *)

(** A printed text that looks like a line of the summary block: a green
    banner or title, a line that opens with four spaces and the cyan label
    of an entry, or the closing line break. *)
Definition is_summary_line (line : string) : bool :=
  starts_with (NL +:+ Colors.BOLD +:+ Colors.GREEN) line
  || starts_with (Colors.BOLD +:+ Colors.GREEN) line
  || starts_with ("    " +:+ Colors.CYAN) line
  || String.eqb line NL.

Definition summaries (l : list event) : list string :=
  List.filter is_summary_line (printed l).

Definition not_summary (e : event) : Prop :=
  match e with
  | EvPrint t => is_summary_line t = false
  | _ => True
  end.

Section Summarising.

Context {OS : Type} `{OSModel OS}.

(** A computation prints the summary block of [target] when it returns,
    once and as the last thing, and no line of it otherwise. *)
Definition summarised {A} (a : Args) (target : string) (m : M OS A) : Prop :=
  forall s,
    summaries (log (m s))
    = match out (m s) with
      | Normal _ =>
          summary_lines a target
            (os_abspath (args_output_dir a) (os_state (final (m s))))
      | _ => []
      end.

End Summarising.

(** ** A system whose network is lost after the first probe *)

Module Outage.

(** The files and tools of [Toy]; httpx works once, and from then on it
    fails and writes nothing. *)
Record world : Type := mkWorld {
  inner : Toy.world;
  probes : nat
}.

Definition exec (cmd : list string) (input : option string)
    (env : gmap string string) (w : world) : exec_answer * world :=
  match cmd, probes w with
  | "httpx" :: _, S _ =>
      (Exited 1 "" ("dial tcp: network is unreachable" +:+ NL), w)
  | "httpx" :: _, O =>
      let r := Toy.exec cmd input env (inner w) in (r.1, mkWorld r.2 1)
  | _, n =>
      let r := Toy.exec cmd input env (inner w) in (r.1, mkWorld r.2 n)
  end.

Definition lift {X} (n : nat) (r : X * Toy.world) : X * world :=
  (r.1, mkWorld r.2 n).

#[global] Instance os : OSModel world := {
  os_exec := exec;
  os_read := fun path w => lift (probes w) (Toy.read path (inner w));
  os_write := fun path text w =>
                lift (probes w) (Toy.write path text (inner w));
  os_makedirs := fun path w => lift (probes w) (Toy.mkdirs path (inner w));
  os_abspath := fun path w => Toy.abspath path (inner w)
}.

(** A list file that names the same domain twice. *)
Definition list_text : string := "a.com" +:+ NL +:+ "a.com" +:+ NL.

Definition start : state world :=
  mkState (mkWorld (Toy.mkWorld {["targets.txt" := list_text]} ∅ []) 0)
          ∅ None.

End Outage.

(** * Properties *)

(** ** Text primitives *)

Section TextLemmas.
Import PyStr.

Lemma isspace_LF : isspace LF = true.
Proof. reflexivity. Qed.

Lemma truthy_app_r (x y : string) : truthy y = true -> truthy (x +:+ y) = true.
Proof. destruct x; simpl; auto. Qed.

Lemma rstrip_empty_lstrip (s : string) :
  rstrip s = EmptyString -> lstrip s = EmptyString.
Proof.
  induction s as [|c r IH]; simpl; auto.
  destruct (rstrip r) eqn:E.
  - destruct (isspace c); [auto | discriminate].
  - discriminate.
Qed.

Lemma lstrip_empty_rstrip (s : string) :
  lstrip s = EmptyString -> rstrip s = EmptyString.
Proof.
  induction s as [|c r IH]; simpl; auto.
  destruct (isspace c) eqn:E; [|discriminate].
  intros Hl. now rewrite (IH Hl).
Qed.

(** A trailing line feed does not survive trimming. *)
Lemma rstrip_app_LF (s : string) : rstrip (s +:+ NL) = rstrip s.
Proof.
  induction s as [|c r IH]; simpl.
  - reflexivity.
  - now rewrite IH.
Qed.

Lemma lstrip_app_LF (s : string) :
  lstrip (s +:+ NL) =
  if truthy (lstrip s) then lstrip s +:+ NL else EmptyString.
Proof.
  induction s as [|c r IH]; simpl.
  - reflexivity.
  - destruct (isspace c); [exact IH | reflexivity].
Qed.

Lemma strip_app_LF (s : string) : strip (s +:+ NL) = strip s.
Proof.
  unfold strip. rewrite lstrip_app_LF.
  destruct (lstrip s) eqn:E; simpl truthy; cbv iota.
  - reflexivity.
  - apply rstrip_app_LF.
Qed.

(** The head of a non-empty trimmed text is not whitespace. *)
Lemma lstrip_head (s : string) c r :
  lstrip s = String c r -> isspace c = false.
Proof.
  induction s as [|d t IH]; simpl; [discriminate|].
  destruct (isspace d) eqn:E; [exact IH|].
  intros [= -> _]. exact E.
Qed.

Lemma rstrip_head (c : ascii) (r : string) :
  isspace c = false -> exists r', rstrip (String c r) = String c r'.
Proof.
  intros Hc. simpl. rewrite Hc. destruct (rstrip r); eauto.
Qed.

Lemma split_lstrip (s : string) : split (lstrip s) = split s.
Proof.
  induction s as [|c r IH]; [reflexivity|].
  simpl lstrip. destruct (isspace c) eqn:E.
  - rewrite IH. simpl. now rewrite E.
  - reflexivity.
Qed.

(** On a text that starts with a token, [split] starts with that token. *)
Lemma split_head (r : string) : forall c,
  isspace c = false ->
  exists ws, split (String c r) = UrlSpec.take_token (String c r) :: ws.
Proof.
  induction r as [|d r IH]; intros c Hc.
  - exists []. simpl. now rewrite Hc.
  - simpl split. rewrite Hc. simpl UrlSpec.take_token. rewrite Hc.
    destruct (isspace d) eqn:Hd.
    + eexists. reflexivity.
    + destruct (IH d Hd) as [ws Hws].
      change (split (String d r)) with
        (if isspace d then split r
         else match r with
              | EmptyString => [String d EmptyString]
              | String d' _ =>
                  if isspace d' then String d EmptyString :: split r
                  else match split r with
                       | w :: ws => String d w :: ws
                       | [] => [String d EmptyString]
                       end
              end) in Hws.
      rewrite Hd in Hws. rewrite Hws.
      exists ws. simpl. now rewrite Hd.
Qed.

(** Trimming on the right leaves the first token as it was. *)
Lemma take_token_rstrip (s : string) :
  UrlSpec.take_token (rstrip s) = UrlSpec.take_token s.
Proof.
  induction s as [|c r IH]; [reflexivity|].
  simpl rstrip. destruct (rstrip r) eqn:E.
  - simpl in IH. destruct (isspace c) eqn:Hc; simpl; rewrite Hc.
    + reflexivity.
    + now rewrite <- IH.
  - simpl. destruct (isspace c); [reflexivity|].
    f_equal. exact IH.
Qed.

End TextLemmas.

(** ** The target loader *)

Section LoaderLemmas.
Import PyStr LoaderSpec.

Lemma text_lines_nonempty (s : string) : text_lines s <> [].
Proof.
  destruct s as [|c r]; simpl; [discriminate|].
  destruct (Ascii.eqb c LF); [discriminate|].
  destruct (Ascii.eqb c CR); [discriminate|].
  destruct (text_lines r); discriminate.
Qed.

Lemma with_terminators_cons (p : string) (rest : list string) :
  rest <> [] -> with_terminators (p :: rest) = (p +:+ NL) :: with_terminators rest.
Proof. destruct rest; [congruence | reflexivity]. Qed.

(** Iterating over the file yields the pieces between terminators. *)
Lemma iter_lines_text_lines (s : string) :
  iter_lines (universal_newlines s) = with_terminators (text_lines s).
Proof.
  enough (Hboth :
    iter_lines (universal_newlines s) = with_terminators (text_lines s)
    /\ forall d r', s = String d r' ->
         iter_lines (universal_newlines r') = with_terminators (text_lines r'))
    by apply Hboth.
  induction s as [|c r [IHr IHr']]; split; try discriminate.
  - reflexivity.
  - simpl universal_newlines. simpl text_lines.
    destruct (Ascii.eqb c CR) eqn:Hcr.
    + assert (Hlf : Ascii.eqb c LF = false).
      { apply Ascii.eqb_eq in Hcr. subst c. reflexivity. }
      rewrite Hlf. simpl iter_lines.
      destruct r as [|d r'].
      * reflexivity.
      * destruct (Ascii.eqb d LF) eqn:Hd.
        -- rewrite with_terminators_cons by apply text_lines_nonempty.
           f_equal. exact (IHr' d r' eq_refl).
        -- rewrite with_terminators_cons by apply text_lines_nonempty.
           f_equal. exact IHr.
    + simpl iter_lines. destruct (Ascii.eqb c LF) eqn:Hlf.
      * rewrite with_terminators_cons by apply text_lines_nonempty.
        apply Ascii.eqb_eq in Hlf. subst c. f_equal. exact IHr.
      * rewrite IHr.
        pose proof (text_lines_nonempty r) as Hne.
        destruct (text_lines r) as [|l ls]; [congruence|].
        destruct ls as [|l' ls].
        -- simpl. destruct l; reflexivity.
        -- reflexivity.
  - intros d r' [= -> ->]. exact IHr.
Qed.

Lemma targets_of_with_terminators (pieces : list string) :
  targets_of_lines (with_terminators pieces) =
  List.filter truthy (List.map strip pieces).
Proof.
  induction pieces as [|p rest IH]; [reflexivity|].
  destruct rest as [|q rest].
  - simpl. destruct p as [|c p]; [reflexivity|].
    simpl with_terminators. simpl targets_of_lines. reflexivity.
  - rewrite with_terminators_cons by discriminate.
    remember (with_terminators (q :: rest)) as later eqn:Hlater.
    remember (q :: rest) as pieces eqn:Hpieces.
    simpl. rewrite strip_app_LF, IH.
    destruct (truthy (strip p)); reflexivity.
Qed.

(** The comprehension of line 136 computes what the specification says. *)
Lemma targets_of_file (content : string) :
  targets_of_lines (file_lines content) = targets content.
Proof.
  unfold file_lines, targets.
  rewrite iter_lines_text_lines. apply targets_of_with_terminators.
Qed.

End LoaderLemmas.

(** ** The clean URL list *)

Section UrlLemmas.
Import PyStr UrlSpec.

Lemma split_strip (line : string) :
  match split (strip line) with
  | [] => blank line = true
  | url :: _ => blank line = false /\ url = first_token line
  end.
Proof.
  unfold blank, strip, first_token.
  destruct (lstrip line) as [|c r] eqn:Hl.
  - reflexivity.
  - pose proof (lstrip_head _ _ _ Hl) as Hc.
    destruct (rstrip_head c r Hc) as [r' Hr'].
    destruct (split_head r' c Hc) as [ws Hws].
    rewrite Hr', Hws. split; [reflexivity|].
    rewrite <- Hr'. apply take_token_rstrip.
Qed.

Lemma clean_urls_of_spec (raw_lines : list string) :
  clean_urls_of raw_lines = clean_urls raw_lines.
Proof.
  unfold clean_urls.
  induction raw_lines as [|line rest IH]; [reflexivity|].
  simpl. pose proof (split_strip line) as Hs.
  destruct (split (strip line)) as [|url ws].
  - rewrite Hs. simpl. exact IH.
  - destruct Hs as [-> ->]. simpl. now rewrite IH.
Qed.

End UrlLemmas.

(** ** Running the monad step by step *)

(** Unfold the bookkeeping of results and states, and run the primitive
    actions that are applied to a state. *)
Ltac pysimpl :=
  unfold prepend, with_os, when;
  cbn [out final log fst snd stdout stderr returncode args
       os_state os_environ current_input app
       subprocess_run open_write open_read makedirs exn_of
       ret raise sys_exit continue_ print set_current_input
       PyStr.truthy_opt PyStr.truthy negb andb fmt_opt].

Section Stepping.

Context {OS : Type} `{OSModel OS}.

Lemma result_eta {A} (r : result OS A) : Res (out r) (final r) (log r) = r.
Proof. destruct r; reflexivity. Qed.

Lemma prepend_nil {A} (r : result OS A) : prepend [] r = r.
Proof. apply result_eta. Qed.

Lemma prepend_prepend {A} (l1 l2 : list event) (r : result OS A) :
  prepend l1 (prepend l2 r) = prepend (l1 ++ l2) r.
Proof. unfold prepend; simpl. now rewrite app_assoc. Qed.

Lemma out_prepend {A} (l : list event) (r : result OS A) :
  out (prepend l r) = out r.
Proof. reflexivity. Qed.

Lemma final_prepend {A} (l : list event) (r : result OS A) :
  final (prepend l r) = final r.
Proof. reflexivity. Qed.

Lemma log_prepend {A} (l : list event) (r : result OS A) :
  log (prepend l r) = l ++ log r.
Proof. reflexivity. Qed.

(** [bind] once the first action has been run. *)
Lemma bind_run {A B} (m : M OS A) (k : A -> M OS B) (s : state OS) :
  bind m k s =
  match out (m s) with
  | Normal a => prepend (log (m s)) (k a (final (m s)))
  | LoopContinue => Res LoopContinue (final (m s)) (log (m s))
  | SysExit c => Res (SysExit c) (final (m s)) (log (m s))
  | Raised e => Res (Raised e) (final (m s)) (log (m s))
  end.
Proof. reflexivity. Qed.

Lemma bind_assoc {A B C} (m : M OS A) (k1 : A -> M OS B) (k2 : B -> M OS C)
    (s : state OS) :
  bind (bind m k1) k2 s = bind m (fun a => bind (k1 a) k2) s.
Proof.
  unfold bind. destruct (m s) as [[a| |c|e] s1 l1]; simpl; try reflexivity.
  destruct (k1 a s1) as [[b| |c|e] s2 l2]; simpl; try reflexivity.
  now rewrite app_assoc.
Qed.

Lemma bind_ret {A B} (a : A) (k : A -> M OS B) (s : state OS) :
  bind (ret a) k s = k a s.
Proof. unfold bind; simpl. apply result_eta. Qed.

Lemma bind_print {B} (t : string) (k : unit -> M OS B) (s : state OS) :
  bind (print t) k s = prepend [EvPrint t] (k tt s).
Proof. reflexivity. Qed.

Lemma bind_set_current_input {B} (v : option string) (k : unit -> M OS B)
    (s : state OS) :
  bind (set_current_input v) k s =
  k tt (mkState (os_state s) (os_environ s) v).
Proof. unfold bind; simpl. apply result_eta. Qed.

Lemma bind_get_current_input {B} (k : option string -> M OS B) (s : state OS) :
  bind get_current_input k s = k (current_input s) s.
Proof. unfold bind; simpl. apply result_eta. Qed.

Lemma bind_get_environ {B} (k : gmap string string -> M OS B) (s : state OS) :
  bind get_environ k s = k (os_environ s) s.
Proof. unfold bind; simpl. apply result_eta. Qed.

Lemma bind_abspath {B} (p : string) (k : string -> M OS B) (s : state OS) :
  bind (abspath p) k s = k (os_abspath p (os_state s)) s.
Proof. unfold bind; simpl. apply result_eta. Qed.

Lemma bind_continue {A B} (k : A -> M OS B) (s : state OS) :
  bind continue_ k s = Res LoopContinue s [].
Proof. reflexivity. Qed.

Lemma bind_sys_exit {A B} (c : Z) (k : A -> M OS B) (s : state OS) :
  bind (sys_exit c) k s = Res (SysExit c) s [].
Proof. reflexivity. Qed.

Lemma bind_raise {A B} (e : exn) (k : A -> M OS B) (s : state OS) :
  bind (raise e) k s = Res (Raised e) s [].
Proof. reflexivity. Qed.

(** Projections of a log distribute over concatenation. *)
Lemma execs_app (l1 l2 : list event) : execs (l1 ++ l2) = execs l1 ++ execs l2.
Proof.
  induction l1 as [|e l1 IH]; [reflexivity|].
  destruct e; simpl; now rewrite IH.
Qed.

Lemma printed_app (l1 l2 : list event) :
  printed (l1 ++ l2) = printed l1 ++ printed l2.
Proof.
  induction l1 as [|e l1 IH]; [reflexivity|].
  destruct e; simpl; now rewrite IH.
Qed.

Lemma read_answers_app (l1 l2 : list event) :
  read_answers (l1 ++ l2) = read_answers l1 ++ read_answers l2.
Proof.
  induction l1 as [|e l1 IH]; [reflexivity|].
  destruct e; simpl; now rewrite IH.
Qed.

Lemma failed_writes_app (l1 l2 : list event) :
  failed_writes (l1 ++ l2) = failed_writes l1 ++ failed_writes l2.
Proof.
  induction l1 as [|e l1 IH]; [reflexivity|].
  destruct e as [| | |p c [f|]|]; simpl; now rewrite IH.
Qed.

Lemma execs_effects (l : list event) : execs (effects l) = execs l.
Proof.
  induction l as [|e l IH]; [reflexivity|].
  destruct e; simpl; now rewrite ?IH.
Qed.

Lemma read_answers_effects (l : list event) :
  read_answers (effects l) = read_answers l.
Proof.
  induction l as [|e l IH]; [reflexivity|].
  destruct e; simpl; now rewrite ?IH.
Qed.

Lemma failed_writes_effects (l : list event) :
  failed_writes (effects l) = failed_writes l.
Proof.
  induction l as [|e l IH]; [reflexivity|].
  destruct e as [| | |p c [f|]|]; simpl; now rewrite ?IH.
Qed.

Lemma fs_changes_effects (l : list event) :
  fs_changes (effects l) = fs_changes l.
Proof.
  induction l as [|e l IH]; [reflexivity|].
  destruct e; simpl; now rewrite ?IH.
Qed.

Lemma execs_saved_output (outf : option string) (ans : exec_answer) :
  execs (saved_output outf ans) = [].
Proof.
  unfold saved_output. destruct (PyStr.truthy_opt outf); [|reflexivity].
  destruct ans as [rc so se|f]; [|reflexivity].
  now destruct (rc =? 0)%Z.
Qed.

Lemma read_answers_saved_output (outf : option string) (ans : exec_answer) :
  read_answers (saved_output outf ans) = [].
Proof.
  unfold saved_output. destruct (PyStr.truthy_opt outf); [|reflexivity].
  destruct ans as [rc so se|f]; [|reflexivity].
  now destruct (rc =? 0)%Z.
Qed.

Lemma failed_writes_saved_output (outf : option string) (ans : exec_answer) :
  failed_writes (saved_output outf ans) = [].
Proof.
  unfold saved_output. destruct (PyStr.truthy_opt outf); [|reflexivity].
  destruct ans as [rc so se|f]; [|reflexivity].
  now destruct (rc =? 0)%Z.
Qed.

Lemma execs_run_effects cmd input outf env ans :
  execs (run_effects cmd input outf env ans) = [mkExecCall cmd input env ans].
Proof. unfold run_effects; simpl. now rewrite execs_saved_output. Qed.

Lemma read_answers_run_effects cmd input outf env ans :
  read_answers (run_effects cmd input outf env ans) = [].
Proof. unfold run_effects; simpl. apply read_answers_saved_output. Qed.

Lemma failed_writes_run_effects cmd input outf env ans :
  failed_writes (run_effects cmd input outf env ans) = [].
Proof. unfold run_effects; simpl. apply failed_writes_saved_output. Qed.

Lemma execs_of_effects (l eff : list event) :
  effects l = eff -> execs l = execs eff.
Proof. intros <-. now rewrite execs_effects. Qed.

Lemma read_answers_of_effects (l eff : list event) :
  effects l = eff -> read_answers l = read_answers eff.
Proof. intros <-. now rewrite read_answers_effects. Qed.

Lemma failed_writes_of_effects (l eff : list event) :
  effects l = eff -> failed_writes l = failed_writes eff.
Proof. intros <-. now rewrite failed_writes_effects. Qed.

Lemma execs_prints (lines : list string) : execs (List.map EvPrint lines) = [].
Proof. induction lines; simpl; auto. Qed.

Lemma read_answers_prints (lines : list string) :
  read_answers (List.map EvPrint lines) = [].
Proof. induction lines; simpl; auto. Qed.

Lemma effects_app (l1 l2 : list event) :
  effects (l1 ++ l2) = effects l1 ++ effects l2.
Proof. unfold effects. apply List.filter_app. Qed.

Lemma fs_changes_app (l1 l2 : list event) :
  fs_changes (l1 ++ l2) = fs_changes l1 ++ fs_changes l2.
Proof. unfold fs_changes. apply List.filter_app. Qed.

(** *** [run_command], run *)

(** The log of a dry run of one command: console output only. *)
Lemma run_command_dry (command : list string)
    (input_data output_file : option string)
    (environment : option (gmap string string)) (s : state OS) :
  let r := run_command command input_data output_file environment true s in
  out r = Normal (dry_run_result command) /\ final r = s /\ effects (log r) = [].
Proof.
  unfold run_command. rewrite bind_print, bind_print.
  unfold when. destruct (PyStr.truthy_opt output_file).
  - rewrite bind_print; repeat split.
  - rewrite bind_ret; repeat split.
Qed.

Lemma run_command_live (command : list string)
    (input outf : option string) (env : option (gmap string string))
    (s : state OS) :
  command <> [] ->
  live_run command input outf env s
    (run_command command input outf env false s).
Proof.
  destruct command as [|prog rest]; [congruence|intros _].
  unfold run_command. rewrite bind_print. cbv iota.
  unfold try_except. rewrite bind_run. pysimpl.
  destruct (os_exec (prog :: rest) input
              (child_environment (os_environ s) env) (os_state s))
    as [[rc so se|f] os1] eqn:Eexec; pysimpl.
  - destruct (Z.eqb_spec rc 0) as [->|Hrc]; pysimpl.
    + destruct (PyStr.truthy_opt outf) eqn:Hout; pysimpl.
      * rewrite bind_assoc, bind_run. pysimpl.
        destruct (os_write (fmt_opt outf) so os1) as [[f|] os2] eqn:Ewrite;
          pysimpl.
        -- destruct f; pysimpl; rewrite bind_print; pysimpl;
             apply (live_exit0_unsaved _ _ _ _ s so se os1 os2 _ _
                      Eexec Hout Ewrite); reflexivity.
        -- rewrite bind_print. pysimpl.
           apply (live_exit0_saved _ _ _ _ s so se os1 os2 _
                    Eexec Hout Ewrite); reflexivity.
      * rewrite bind_ret. pysimpl.
        apply (live_exit0 _ _ _ _ s so se os1 _ Eexec Hout); reflexivity.
    + rewrite bind_print. pysimpl.
      destruct (PyStr.truthy se); pysimpl.
      * rewrite bind_print. pysimpl.
        apply (live_failed _ _ _ _ s rc so se os1 _ Eexec Hrc); reflexivity.
      * rewrite bind_ret. pysimpl.
        apply (live_failed _ _ _ _ s rc so se os1 _ Eexec Hrc); reflexivity.
  - destruct f; pysimpl; rewrite bind_print; pysimpl;
      apply (live_not_run _ _ _ _ s _ os1 _ Eexec); reflexivity.
Qed.

Lemma run_command_outcome (command : list string)
    (input outf : option string) (env : option (gmap string string))
    (s : state OS) :
  command <> [] ->
  live_outcome command input outf env s
    (run_command command input outf env false s).
Proof.
  intros Hne.
  destruct (run_command_live command input outf env s Hne)
    as [so se os1 l _ Hout Hl|so se os1 os2 l _ Hout _ Hl
       |so se os1 os2 f l _ _ _ Hl|rc so se os1 l _ Hrc Hl|f os1 l _ Hl].
  - apply (live_returned _ _ _ _ s (Exited 0 so se)).
    unfold run_effects, saved_output. now rewrite Hout.
  - apply (live_returned _ _ _ _ s (Exited 0 so se)).
    unfold run_effects, saved_output. now rewrite Hout.
  - now apply (live_unsaved _ _ _ _ s so se f).
  - apply Z.eqb_neq in Hrc.
    replace EmptyString with (captured (Exited rc so se))
      by (simpl; now rewrite Hrc).
    apply live_returned.
    unfold run_effects, saved_output. rewrite Hrc.
    now destruct (PyStr.truthy_opt outf).
  - now apply (live_exited _ _ _ _ s f).
Qed.

Lemma extract_clean_urls_outcome (a : Args) (target : string) (s : state OS) :
  extract_outcome a target s (extract_clean_urls a target s).
Proof.
  unfold extract_clean_urls, try_except. rewrite bind_run. pysimpl.
  destruct (os_read (httpx_details_file a target) (os_state s))
    as [[[t|c t]|content] os1]; pysimpl.
  - unfold print_warn. rewrite bind_print. pysimpl.
    now apply (extract_missing a target s t os1).
  - now apply extract_raised.
  - rewrite bind_run. pysimpl.
    destruct (os_write (urls_for_burp_file a target)
                (PyStr.join NL (clean_urls_of (PyStr.file_lines content)))
                os1) as [[[t|c t]|] os2]; pysimpl.
    + unfold print_warn. rewrite bind_print. pysimpl.
      now apply (extract_unsaved a target s content t os2).
    + now apply extract_raised.
    + rewrite bind_set_current_input, bind_print. pysimpl.
      now apply (extract_listed a target s content os2).
Qed.

End Stepping.

(** ** The iterations of the target loop *)

(** Projections of a log whose effects are known. *)
Ltac project_hyps :=
  repeat match goal with
         | Hl : effects ?l = ?eff |- _ =>
             pose proof (execs_of_effects l eff Hl);
             pose proof (read_answers_of_effects l eff Hl);
             pose proof (failed_writes_of_effects l eff Hl);
             clear Hl
         end.

Ltac project_log :=
  repeat first
    [ rewrite execs_app | rewrite read_answers_app | rewrite failed_writes_app
    | rewrite execs_prints | rewrite read_answers_prints
    | match goal with
      | Hl : execs ?l = _ |- context [execs ?l] => rewrite Hl
      | Hl : read_answers ?l = _ |- context [read_answers ?l] => rewrite Hl
      | Hl : failed_writes ?l = _ |- context [failed_writes ?l] => rewrite Hl
      end
    | rewrite execs_run_effects | rewrite read_answers_run_effects
    | rewrite failed_writes_run_effects ];
  cbn [execs read_answers failed_writes app fmt_opt].

Ltac solve_chain :=
  let i := fresh "i" in
  let c := fresh "c" in
  let Hc := fresh "Hc" in
  intros i c Hc; cbn [lookup list_lookup] in Hc;
  repeat
    first
      [ discriminate Hc
      | destruct i as [|i]; cbn [lookup list_lookup] in Hc;
        [ first [ discriminate Hc
                | injection Hc as <-;
                  cbn [lookup list_lookup head ec_input ec_answer Nat.sub];
                  eauto ] | ] ].

Section Iterations.

Context {OS : Type} `{OSModel OS}.

Lemma prints_last_app l1 l2 tail :
  prints_last l2 tail -> prints_last (l1 ++ l2) tail.
Proof.
  intros [pre Hp]. exists (printed l1 ++ pre).
  now rewrite printed_app, Hp, app_assoc.
Qed.

Lemma prints_last_here l : prints_last l (printed l).
Proof. now exists []. Qed.

Lemma printed_prints (lines : list string) :
  printed (List.map EvPrint lines) = lines.
Proof. induction lines as [|t ts IH]; simpl; now rewrite ?IH. Qed.

(** Stepping lemmas on a state written out. *)
Lemma bind_set_lit {B} (v : option string) (k : unit -> M OS B) o e c :
  bind (set_current_input v) k (mkState o e c) = k tt (mkState o e v).
Proof. apply bind_set_current_input. Qed.

Lemma bind_get_lit {B} (k : option string -> M OS B) o e c :
  bind get_current_input k (mkState o e c) = k c (mkState o e c).
Proof. apply bind_get_current_input. Qed.

Lemma bind_abspath_lit {B} (p : string) (k : string -> M OS B) o e c :
  bind (abspath p) k (mkState o e c) = k (os_abspath p o) (mkState o e c).
Proof. apply bind_abspath. Qed.

Lemma bind_open_write_lit {B} (p t : string) (k : unit -> M OS B) o e c :
  bind (open_write p t) k (mkState o e c) =
  match os_write p t o with
  | (None, o') => prepend [EvWrite p t None] (k tt (mkState o' e c))
  | (Some f, o') =>
      Res (Raised (exn_of f)) (mkState o' e c) [EvWrite p t (Some f)]
  end.
Proof.
  rewrite bind_run. unfold open_write, with_os. simpl.
  destruct (os_write p t o) as [[f|] o']; reflexivity.
Qed.

Lemma bind_warn_continue {B} (msg : string) (k : unit -> M OS B) (s : state OS) :
  bind (bind (print_warn msg) (fun _ => continue_)) k s =
  Res LoopContinue s
    [EvPrint (Colors.YELLOW +:+ "[!] " +:+ msg +:+ Colors.ENDC)].
Proof. reflexivity. Qed.

Lemma bind_print_step {B} (n total : nat) (tool desc : string)
    (k : unit -> M OS B) (s : state OS) :
  bind (print_step n total tool desc) k s =
  prepend (List.map EvPrint
             [NL +:+ Colors.HEADER +:+ Colors.BOLD +:+ "--- Step "
              +:+ pretty n +:+ "/" +:+ pretty total +:+ ": "
              +:+ PyStr.upper tool +:+ " ---" +:+ Colors.ENDC;
              Colors.HEADER +:+ "    Description: " +:+ desc
              +:+ Colors.ENDC])
          (k tt s).
Proof.
  unfold print_step. rewrite bind_assoc, !bind_print, prepend_prepend.
  reflexivity.
Qed.

Lemma final_summary_run (a : Args) (target : string) (s : state OS) :
  final_summary a target s =
  Res (Normal tt) s
    (List.map EvPrint
       (summary_lines a target
          (os_abspath (args_output_dir a) (os_state s)))).
Proof.
  unfold final_summary, summary_lines.
  rewrite !bind_print, bind_abspath, bind_print.
  destruct (PyStr.truthy_opt (args_proxy a)).
  - rewrite bind_assoc, !bind_print. reflexivity.
  - rewrite bind_print. reflexivity.
Qed.

Lemma when_false_r (c : bool) (m : M OS unit) :
  when (c && false) m = ret tt.
Proof. now rewrite andb_false_r. Qed.

(** Closing a branch: the log is written out and projected. *)
Ltac flatten_result :=
  cbv beta iota delta [prepend out final log].

Ltac restore_texts :=
  repeat match goal with
         | E : _ = String ?a ?s |- context [String ?a ?s] => rewrite <- E
         end.

Ltac solve_fresh :=
  solve [ unfold fresh_inputs; project_hyps; project_log; restore_texts;
          solve_chain ].

Ltac abort_leaf :=
  flatten_result; apply it_abort; [exact I | solve_fresh].

(** Replace the computation at the head of the goal, as an equation
    proved for exactly that term says. *)
Ltac rew_head E :=
  lazymatch type of E with
  | ?lhs = _ =>
      let X := fresh "X" in
      let HX := fresh "HX" in
      pose proof E as HX; set (X := lhs) in *; clearbody X; subst X
  end.

(** One step of the computation at the head of the goal. *)
Ltac mstep :=
  lazymatch goal with
  | |- context [bind ?m ?k ?s] =>
      lazymatch m with
      | print_step ?n ?tot ?tool ?d =>
          rew_head (bind_print_step n tot tool d k s); cbv beta
      | bind (print_warn ?msg) (fun _ => continue_) =>
          rew_head (bind_warn_continue msg k s)
      | bind ?m1 ?k1 => rew_head (bind_assoc m1 k1 k s)
      | ret ?x => rew_head (bind_ret x k s); cbv beta
      | print ?t => rew_head (bind_print t k s); cbv beta
      | print_success ?t =>
          change (print_success t)
            with (@print OS (Colors.GREEN +:+ "[✓] " +:+ t +:+ Colors.ENDC))
      | set_current_input ?v =>
          lazymatch s with
          | mkState ?o ?e ?c =>
              let v' := eval cbn [stdout dry_run_result] in v in
              rew_head (bind_set_lit v k o e c);
              change v with v'; cbv beta
          end
      | get_current_input =>
          lazymatch s with
          | mkState ?o ?e ?c => rew_head (bind_get_lit k o e c); cbv beta
          end
      | when ?b ?m1 =>
          let b' := eval cbn [negb andb PyStr.truthy_opt PyStr.truthy] in b in
          lazymatch b' with
          | true => change (when b m1) with m1
          | false => change (when b m1) with (@ret OS unit tt)
          | (?c && false)%bool =>
              change (when b m1) with (when (c && false) m1);
              rew_head (when_false_r c m1)
          | context [PyStr.truthy ?x] =>
              let E := fresh "Etext" in destruct x eqn:E
          | context [PyStr.truthy_opt (args_proxy ?a)] =>
              let E := fresh "Hproxy" in
              destruct (PyStr.truthy_opt (args_proxy a)) eqn:E
          end
      | open_write ?p ?t =>
          lazymatch s with
          | mkState ?o ?e ?c =>
              rew_head (bind_open_write_lit p t k o e c);
              destruct (os_write p t o) as [[?|] ?];
              [abort_leaf|]
          end
      | run_command ?c ?i ?o ?e false =>
          rew_head (bind_run (run_command c i o e false) k s);
          let Hr := fresh "Hrun" in
          assert (Hr : live_outcome c i o e s (run_command c i o e false s))
            by (apply run_command_outcome; discriminate);
          let r := fresh "r" in
          set (r := run_command c i o e false s) in *;
          clearbody r;
          destruct Hr as [? ? ? ? ? ?|? ? ? ? ? ?|? ? ? ?];
          cbv beta iota delta [out final log with_os os_state os_environ
                               current_input];
          [|abort_leaf..]
      | run_command ?c ?i ?o ?e true =>
          rew_head (bind_run (run_command c i o e true) k s);
          let Ho := fresh "Hout" in
          let Hf := fresh "Hfinal" in
          let He := fresh "Heffects" in
          destruct (run_command_dry c i o e s) as (Ho & Hf & He);
          let r := fresh "r" in
          set (r := run_command c i o e true s) in *;
          clearbody r;
          let ro := fresh "ro" in
          let rs := fresh "rs" in
          let rl := fresh "rl" in
          destruct r as [ro rs rl];
          cbv beta iota delta [out final log] in Ho, Hf, He |- *;
          subst ro rs
      | extract_clean_urls ?a ?t =>
          rew_head (bind_run (extract_clean_urls a t) k s);
          let Hr := fresh "Hrun" in
          pose proof (extract_clean_urls_outcome a t s) as Hr;
          let r := fresh "r" in
          set (r := extract_clean_urls a t s) in *;
          clearbody r;
          destruct Hr as [? ? ? ?|? ? ? ?|? ? ? ? ?|? ? ? ?];
          cbv beta iota delta [out final log os_state os_environ
                               current_input];
          [| | |abort_leaf]
      end
  | |- context [final_summary ?a ?t ?s] =>
      rew_head (final_summary_run a t s)
  end.

Lemma prints_last_lines (lines : list string) :
  prints_last (List.map EvPrint lines) lines.
Proof. exists []. apply printed_prints. Qed.

Lemma effects_prints (lines : list string) :
  effects (List.map EvPrint lines) = [].
Proof. induction lines; simpl; auto. Qed.

Ltac solve_prints :=
  lazymatch goal with
  | |- prints_last (?l1 ++ ?l2) _ => apply prints_last_app; solve_prints
  | |- prints_last (List.map EvPrint ?lines) _ => exact (prints_last_lines lines)
  | |- prints_last ?l _ => exact (prints_last_here l)
  end.

Ltac ans1 := lazymatch goal with
  | H : effects _ = run_effects (subfinder_cmd _) _ _ _ ?x |- _ => constr:(x) end.
Ltac ans2 := lazymatch goal with
  | H : effects _ = run_effects dnsx_cmd _ _ _ ?x |- _ => constr:(x) end.
Ltac ans3 := lazymatch goal with
  | H : effects _ = run_effects naabu_cmd _ _ _ ?x |- _ => constr:(x) end.
Ltac ans4 := lazymatch goal with
  | H : effects _ = run_effects (httpx_cmd _ _ _) _ _ _ ?x |- _ => constr:(x) end.
Ltac ans5 := lazymatch goal with
  | H : effects _ = run_effects (katana_cmd _ _) _ _ _ ?x |- _ => constr:(x) end.
Ltac ans6 := lazymatch goal with
  | H : effects _ = run_effects (seed_cmd _ _ _) _ _ _ ?x |- _ => constr:(x) end.
Ltac read_content := lazymatch goal with
  | H : effects _ = EvRead _ (inr ?x) :: _ |- _ => constr:(x) end.
Ltac read_error := lazymatch goal with
  | H : effects _ = [EvRead _ (inl (ENoEntry ?x))] |- _ => constr:(x) end.
Ltac write_error := lazymatch goal with
  | H : effects _ = [EvRead _ _; EvWrite _ _ (Some (ENoEntry ?x))] |- _ =>
      constr:(x) end.

Ltac use_texts :=
  repeat match goal with
         | E : captured ?x = _ |- context [captured ?x] => rewrite E
         | E : urls_text ?x = _ |- context [urls_text ?x] => rewrite E
         end.

Ltac solve_effects :=
  repeat first
    [ rewrite effects_app
    | rewrite effects_prints
    | match goal with
      | Hl : effects ?l = _ |- context [effects ?l] => rewrite Hl
      end ];
  cbn [effects List.filter is_print negb fmt_opt];
  unfold effects_upto4, effects_upto3, effects_upto2, effects_upto1,
    stage_effects;
  use_texts;
  unfold run_effects, saved_output;
  repeat rewrite <- app_assoc;
  cbn [PyStr.truthy PyStr.truthy_opt app];
  rewrite ?app_nil_r;
  reflexivity.

Ltac side := first [assumption | use_texts; reflexivity].

Ltac close_stop a url env t :=
  flatten_result;
  first
    [ let x1 := ans1 in let x2 := ans2 in let x3 := ans3 in
      let x4 := ans4 in
      first
        [ let c := read_content in let w := write_error in
          apply (it_stop4_unsaved a url env t x1 x2 x3 x4 c w)
        | let c := read_content in
          apply (it_stop4_empty a url env t x1 x2 x3 x4 c)
        | let w := read_error in
          apply (it_stop4_missing a url env t x1 x2 x3 x4 w) ]
    | let x1 := ans1 in let x2 := ans2 in let x3 := ans3 in
      apply (it_stop3 a url env t x1 x2 x3)
    | let x1 := ans1 in let x2 := ans2 in
      apply (it_stop2 a url env t x1 x2)
    | let x1 := ans1 in apply (it_stop1 a url env t x1) ];
  [solve_effects | side .. | solve_prints].

Ltac close_done a url env t :=
  flatten_result;
  let x1 := ans1 in let x2 := ans2 in let x3 := ans3 in
  let x4 := ans4 in let x5 := ans5 in let c := read_content in
  first
    [ let x6 := ans6 in
      apply (it_done a url env t x1 x2 x3 x4 x5 c
               [EvExec (seed_cmd a url t) None (Some env) x6])
    | apply (it_done a url env t x1 x2 x3 x4 x5 c []) ];
  [ solve_effects
  | side ..
  | match goal with
    | Hp : PyStr.truthy_opt (args_proxy _) = _ |- _ =>
        rewrite Hp; first [reflexivity | eexists; reflexivity]
    end
  | solve_prints ].

Lemma process_target_live a url env t s :
  args_dry_run a = false ->
  iteration_shape a url env t (process_target a url env t s).
Proof.
  intros Hdry. destruct s as [o e c].
  unfold process_target. rewrite Hdry.
  repeat mstep.
  all: first [close_stop a url env t | close_done a url env t].
Qed.

Lemma process_target_dry a url env t s :
  args_dry_run a = true ->
  dry_shape a t s (process_target a url env t s).
Proof.
  intros Hdry. destruct s as [o e c].
  unfold process_target. rewrite Hdry.
  repeat mstep.
  all: flatten_result; unfold dry_shape;
    cbv beta iota delta [out final log os_state os_environ];
    repeat split; [ | solve_prints].
  all: repeat first
         [ rewrite effects_app
         | rewrite effects_prints
         | match goal with
           | Hl : effects ?l = _ |- context [effects ?l] => rewrite Hl
           end ]; reflexivity.
Qed.

End Iterations.

(** ** The footprint of [main] *)

Section FootprintLemmas.

Context {OS : Type} `{OSModel OS}.

Variable P : event -> Prop.

Lemma emits_ret {A} (x : A) : emits P (ret (OS:=OS) x).
Proof. intros s; split; [constructor | reflexivity]. Qed.

Lemma emits_raise {A} (e : exn) : emits P (raise (OS:=OS) (A:=A) e).
Proof. intros s; split; [constructor | reflexivity]. Qed.

Lemma emits_sys_exit {A} (c : Z) : emits P (sys_exit (OS:=OS) (A:=A) c).
Proof. intros s; split; [constructor | reflexivity]. Qed.

Lemma emits_continue {A} : emits P (continue_ (OS:=OS) (A:=A)).
Proof. intros s; split; [constructor | reflexivity]. Qed.

Lemma emits_get_current_input : emits P (get_current_input (OS:=OS)).
Proof. intros s; split; [constructor | reflexivity]. Qed.

Lemma emits_set_current_input v : emits P (set_current_input (OS:=OS) v).
Proof. intros s; split; [constructor | reflexivity]. Qed.

Lemma emits_get_environ : emits P (get_environ (OS:=OS)).
Proof. intros s; split; [constructor | reflexivity]. Qed.

Lemma emits_abspath p : emits P (abspath (OS:=OS) p).
Proof. intros s; split; [constructor | reflexivity]. Qed.

Lemma emits_print t : P (EvPrint t) -> emits P (print (OS:=OS) t).
Proof. intros Ht s; split; [repeat constructor; exact Ht | reflexivity]. Qed.

Lemma emits_bind {A B} (m : M OS A) (k : A -> M OS B) :
  emits P m -> (forall x, emits P (k x)) -> emits P (bind m k).
Proof.
  intros Hm Hk s. unfold bind.
  destruct (Hm s) as [Hlog Henv].
  destruct (m s) as [[x| |c|e] s1 l1]; simpl in *; try (split; assumption).
  destruct (Hk x s1) as [Hlog' Henv'].
  split; [now apply Forall_app | congruence].
Qed.

Lemma emits_try_except {A} (body : M OS A) (handler : exn -> option (M OS A)) :
  emits P body ->
  (forall e h, handler e = Some h -> emits P h) ->
  emits P (try_except body handler).
Proof.
  intros Hb Hh s. unfold try_except.
  destruct (Hb s) as [Hlog Henv].
  destruct (body s) as [[x| |c|e] s1 l1]; simpl in *; try (split; assumption).
  destruct (handler e) as [h|] eqn:Ee; simpl; [|split; assumption].
  destruct (Hh e h Ee s1) as [Hlog' Henv'].
  split; [now apply Forall_app | congruence].
Qed.

Lemma emits_when (b : bool) (m : M OS unit) :
  (b = true -> emits P m) -> emits P (when b m).
Proof. destruct b; simpl; [auto | intros _; apply emits_ret]. Qed.

Lemma emits_for_each (targets : list string) (body : string -> M OS unit) :
  (forall t, emits P (body t)) -> emits P (for_each targets body).
Proof.
  intros Hb. induction targets as [|t ts IH]; [apply emits_ret|].
  intros s. simpl.
  destruct (Hb t s) as [Hlog Henv].
  destruct (body t s) as [[x| |c|e] s1 l1]; simpl in *;
    try (split; assumption);
    destruct (IH s1) as [Hlog' Henv'];
    (split; [now apply Forall_app | congruence]).
Qed.

Lemma emits_subprocess_run command input env :
  (forall ans, P (EvExec command input env ans)) ->
  emits P (subprocess_run (OS:=OS) command input env).
Proof.
  intros Hp. destruct command as [|prog rest]; [apply emits_raise|].
  intros s; split; [repeat constructor; apply Hp | reflexivity].
Qed.

Lemma emits_open_write path text :
  (forall ans, P (EvWrite path text ans)) ->
  emits P (open_write (OS:=OS) path text).
Proof. intros Hp s; split; [repeat constructor; apply Hp | reflexivity]. Qed.

Lemma emits_open_read path :
  (forall ans, P (EvRead path ans)) -> emits P (open_read (OS:=OS) path).
Proof. intros Hp s; split; [repeat constructor; apply Hp | reflexivity]. Qed.

Lemma emits_makedirs path :
  (forall ans, P (EvMakedirs path ans)) -> emits P (makedirs (OS:=OS) path).
Proof. intros Hp s; split; [repeat constructor; apply Hp | reflexivity]. Qed.

Hypothesis P_print : forall t, P (EvPrint t).

Lemma emits_run_command command input outf env (dry : bool) :
  (dry = false -> forall ans, P (EvExec command input env ans)) ->
  (dry = false -> PyStr.truthy_opt outf = true ->
   forall text ans, P (EvWrite (fmt_opt outf) text ans)) ->
  emits P (run_command (OS:=OS) command input outf env dry).
Proof.
  intros Hexec Hwrite. unfold run_command.
  apply emits_bind; [now apply emits_print | intros _].
  destruct dry.
  - apply emits_bind; [now apply emits_print | intros _].
    apply emits_bind; [|intros _; apply emits_ret].
    apply emits_when; intros _. now apply emits_print.
  - apply emits_try_except.
    + apply emits_bind; [apply emits_subprocess_run; auto | intros result].
      apply emits_bind; [|intros _; apply emits_ret].
      apply emits_when; intros Hout.
      apply emits_bind; [apply emits_open_write; auto | intros _].
      now apply emits_print.
    + intros e h Hh. destruct e as [rc so se|t|c t]; injection Hh as <-.
      * destruct command as [|prog rest]; [apply emits_raise|].
        apply emits_bind; [now apply emits_print | intros _].
        apply emits_bind; [|intros _; apply emits_ret].
        apply emits_when; intros _. now apply emits_print.
      * apply emits_bind; [now apply emits_print | intros _].
        apply emits_sys_exit.
      * apply emits_bind; [now apply emits_print | intros _].
        apply emits_sys_exit.
Qed.

End FootprintLemmas.

Section MainFootprint.

Context {OS : Type} `{OSModel OS}.

Ltac emit :=
  repeat
    lazymatch goal with
    | |- emits _ (bind _ _) => apply emits_bind; [|intros ?]
    | |- emits _ (ret _) => apply emits_ret
    | |- emits _ (sys_exit _) => apply emits_sys_exit
    | |- emits _ (raise _) => apply emits_raise
    | |- emits _ continue_ => apply emits_continue
    | |- emits _ get_current_input => apply emits_get_current_input
    | |- emits _ (set_current_input _) => apply emits_set_current_input
    | |- emits _ get_environ => apply emits_get_environ
    | |- emits _ (abspath _) => apply emits_abspath
    | |- emits _ (print _) => apply emits_print; constructor
    | |- emits _ (print_step _ _ _ _) => unfold print_step
    | |- emits _ (print_warn _) => unfold print_warn
    | |- emits _ (print_info _) => unfold print_info
    | |- emits _ (print_err _) => unfold print_err
    | |- emits _ (print_success _) => unfold print_success
    | |- emits _ (when _ _) => apply emits_when; intros ?
    | |- emits _ (if ?b then _ else _) => destruct b eqn:?
    end.

Lemma check_each_footprint (a : Args) (tools missing : list string) :
  (forall tool, In tool tools -> In tool TOOL_CHAIN) ->
  emits (main_event a) (check_each (OS:=OS) tools missing).
Proof.
  revert missing. induction tools as [|tool rest IH]; intros missing Hin.
  - apply emits_ret.
  - cbn [check_each]. apply emits_bind; [|intros m'; apply IH; intros; apply Hin; now right].
    apply emits_try_except.
    + emit. apply emits_subprocess_run. intros ans.
      apply me_which. apply Hin. now left.
    + intros e h Hh. destruct e; cbv beta iota in Hh; try discriminate;
        injection Hh as <-; emit.
Qed.

Lemma check_tools_footprint (a : Args) :
  emits (main_event a) (check_tools_installed (OS:=OS) TOOL_CHAIN).
Proof.
  unfold check_tools_installed. emit.
  now apply check_each_footprint.
Qed.

Lemma load_targets_footprint (a : Args) :
  emits (main_event a) (load_targets (OS:=OS) a).
Proof.
  unfold load_targets. emit.
  apply emits_try_except.
  - destruct (args_list a) as [path|] eqn:El; emit.
    apply emits_open_read. intros ans. now apply me_read_list.
  - intros e h Hh. destruct e; cbv beta iota in Hh; try discriminate.
    injection Hh as <-. emit.
Qed.

Ltac dry_off :=
  repeat match goal with
         | Hb : (_ && negb _)%bool = true |- _ =>
             apply andb_true_iff in Hb as [_ Hb]
         | Hb : negb _ = true |- _ => apply negb_true_iff in Hb
         end.

Lemma extract_footprint (a : Args) (t : string) :
  args_dry_run a = false ->
  emits (main_event a) (extract_clean_urls (OS:=OS) a t).
Proof.
  intros Hdry. unfold extract_clean_urls. apply emits_try_except.
  - emit.
    + apply emits_open_read. intros ans. now apply me_read_details.
    + apply emits_open_write. intros ans.
      apply (me_write a t); [assumption | simpl; auto 6].
  - intros e h Hh. destruct e; cbv beta iota in Hh; try discriminate.
    injection Hh as <-. emit.
Qed.

Lemma process_target_footprint (a : Args) (env : gmap string string)
    (t : string) :
  proxied a env ->
  emits (main_event a) (process_target (OS:=OS) a (proxy_url_of a) env t).
Proof.
  intros Henv. unfold process_target, final_summary. cbv zeta.
  emit; dry_off;
    try (apply emits_run_command;
           [ constructor
           | intros Hdry ans;
             first [ apply (me_stage a t); [assumption | simpl; auto 6]
                   | apply (me_http_stage a t);
                     [assumption | simpl; auto 6 | assumption] ]
           | intros Hdry Hout text ans;
             first [ discriminate Hout
                   | apply (me_write a t); [assumption | simpl; auto 6] ] ]).
  - apply emits_open_write. intros ans.
    apply (me_write a t); [assumption | simpl; auto 6].
  - now apply extract_footprint.
Qed.

Lemma proxied_current_env (a : Args) (environ : gmap string string) :
  proxied a
    (if PyStr.truthy_opt (args_proxy a)
     then <["HTTPS_PROXY" := proxy_url_of a]>
            (<["HTTP_PROXY" := proxy_url_of a]> environ)
     else environ).
Proof.
  intros addr Ha Ht. unfold proxy_url_of. rewrite Ha. simpl. rewrite Ht.
  split.
  - rewrite lookup_insert_ne by discriminate. apply lookup_insert_eq.
  - apply lookup_insert_eq.
Qed.

Lemma main_footprint (a : Args) : emits (main_event a) (main (OS:=OS) a).
Proof.
  unfold main. apply emits_bind; [apply check_tools_footprint | intros _].
  apply emits_bind; [apply load_targets_footprint | intros targets].
  destruct targets as [|t ts]; cbv zeta; emit.
  - apply emits_makedirs. intros ans. apply me_makedirs.
  - apply emits_for_each. intros t'.
    match goal with
    | x : gmap string string |- _ =>
        exact (process_target_footprint a _ t' (proxied_current_env a x))
    end.
Qed.

End MainFootprint.

(** * The statements of the specification *)

Section RunCommandClaims.

Context {OS : Type} `{OSModel OS}.

(** What a live [run_command] does when the child exits with a status
    other than 0: shared by C2 and C9. *)
Lemma run_command_failed (command : list string) (input outf : option string)
    (env : option (gmap string string)) (s : state OS)
    (rc : Z) (so se : string) (os' : OS) :
  command <> [] ->
  os_exec command input (child_environment (os_environ s) env) (os_state s)
  = (Exited rc so se, os') ->
  rc <> 0%Z ->
  exists l,
    run_command command input outf env false s
    = Res (Normal (mkCompletedProcess command 1 "" se)) (with_os s os') l
    /\ effects l = [EvExec command input env (Exited rc so se)].
Proof.
  intros Hne Hexec Hrc.
  destruct (run_command_live command input outf env s Hne)
    as [so' se' os1 l E _ Hl|so' se' os1 os2 l E _ _ Hl
       |so' se' os1 os2 f l E _ _ Hl|rc' so' se' os1 l E _ Hl|f os1 l E Hl];
    rewrite Hexec in E; inversion E; subst; try congruence.
  now exists l.
Qed.

(** C2 (as the code has it): when the tool exits with a status other than 0,
    [run_command] does not raise; it returns a result with exit status 1
    (whatever the status of the child was), the captured standard error of
    the child, and empty standard output. *)
Theorem failed_tool_returns_status_one (command : list string)
    (input outf : option string) (env : option (gmap string string))
    (s : state OS) (rc : Z) (so se : string) (os' : OS) :
  command <> [] ->
  os_exec command input (child_environment (os_environ s) env) (os_state s)
  = (Exited rc so se, os') ->
  rc <> 0%Z ->
  out (run_command command input outf env false s)
  = Normal (mkCompletedProcess command 1 "" se).
Proof.
  intros Hne Hexec Hrc.
  destruct (run_command_failed command input outf env s rc so se os'
              Hne Hexec Hrc) as (l & -> & _).
  reflexivity.
Qed.

(** C9: when the tool exits with a status other than 0, [run_command]
    neither creates nor writes any file, the designated output file
    included: the outside is left exactly as the child left it. *)
Theorem failed_tool_output_file_untouched (command : list string)
    (input outf : option string) (env : option (gmap string string))
    (s : state OS) (rc : Z) (so se : string) (os' : OS) :
  command <> [] ->
  os_exec command input (child_environment (os_environ s) env) (os_state s)
  = (Exited rc so se, os') ->
  rc <> 0%Z ->
  let r := run_command command input outf env false s in
  fs_changes (log r) = [] /\ os_state (final r) = os'.
Proof.
  intros Hne Hexec Hrc.
  destruct (run_command_failed command input outf env s rc so se os'
              Hne Hexec Hrc) as (l & -> & Hl).
  cbn [log final with_os os_state]. split; [|reflexivity].
  rewrite <- fs_changes_effects, Hl. reflexivity.
Qed.

End RunCommandClaims.

(** C2, tried on a tool that exits with status 2. *)
Lemma failed_tool_returns_status_one_witness :
  Examples.failing_cmd <> []
  /\ os_exec Examples.failing_cmd None
       (child_environment (os_environ (Toy.start ∅)) None)
       (os_state (Toy.start ∅))
     = (Exited 2 "" ("resolver unreachable" +:+ NL),
        Toy.mkWorld ∅ ∅ [("subfinder", None)])
  /\ 2%Z <> 0%Z
  /\ out (run_command Examples.failing_cmd None (Some "out.txt") None false
            (Toy.start ∅))
     = Normal (mkCompletedProcess Examples.failing_cmd 1 ""
                 ("resolver unreachable" +:+ NL)).
Proof.
  assert (Hne : Examples.failing_cmd <> []) by discriminate.
  assert (Hexec :
    os_exec Examples.failing_cmd None
       (child_environment (os_environ (Toy.start ∅)) None)
       (os_state (Toy.start ∅))
     = (Exited 2 "" ("resolver unreachable" +:+ NL),
        Toy.mkWorld ∅ ∅ [("subfinder", None)])) by reflexivity.
  assert (Hrc : 2%Z <> 0%Z) by lia.
  split; [exact Hne | split; [exact Hexec | split; [exact Hrc|]]].
  exact (failed_tool_returns_status_one Examples.failing_cmd None
           (Some "out.txt") None (Toy.start ∅) 2 ""
           ("resolver unreachable" +:+ NL) _ Hne Hexec Hrc).
Defined.

(** C2 as stated fails: the child exited with status 2, the result carries
    status 1. *)
Lemma exit_status_not_carried :
  (os_exec Examples.failing_cmd None ∅ Toy.empty_world).1
  = Exited 2 "" ("resolver unreachable" +:+ NL)
  /\ exists cp,
       out (run_command Examples.failing_cmd None None None false (Toy.start ∅))
       = Normal cp
       /\ returncode cp <> 2%Z.
Proof.
  split; [reflexivity|].
  eexists. split; [vm_compute; reflexivity|]. simpl. lia.
Qed.

(** C9, tried on a tool that exits with status 2 and an output file. *)
Lemma failed_tool_output_file_untouched_witness :
  Examples.failing_cmd <> []
  /\ os_exec Examples.failing_cmd None
       (child_environment (os_environ (Toy.start ∅)) None)
       (os_state (Toy.start ∅))
     = (Exited 2 "" ("resolver unreachable" +:+ NL),
        Toy.mkWorld ∅ ∅ [("subfinder", None)])
  /\ 2%Z <> 0%Z
  /\ let r := run_command Examples.failing_cmd None (Some "out.txt") None false
                (Toy.start ∅) in
     fs_changes (log r) = []
     /\ os_state (final r) = Toy.mkWorld ∅ ∅ [("subfinder", None)].
Proof.
  assert (Hne : Examples.failing_cmd <> []) by discriminate.
  assert (Hexec :
    os_exec Examples.failing_cmd None
       (child_environment (os_environ (Toy.start ∅)) None)
       (os_state (Toy.start ∅))
     = (Exited 2 "" ("resolver unreachable" +:+ NL),
        Toy.mkWorld ∅ ∅ [("subfinder", None)])) by reflexivity.
  assert (Hrc : 2%Z <> 0%Z) by lia.
  split; [exact Hne | split; [exact Hexec | split; [exact Hrc|]]].
  exact (failed_tool_output_file_untouched Examples.failing_cmd None
           (Some "out.txt") None (Toy.start ∅) 2 ""
           ("resolver unreachable" +:+ NL) _ Hne Hexec Hrc).
Defined.

Section LoaderClaims.

Context {OS : Type} `{OSModel OS}.

(** C6: in list-file mode the loader returns exactly the lines of the
    file, trimmed, without the blank ones, in their order and with no
    deduplication. *)
Theorem loader_returns_trimmed_nonblank_lines (a : Args)
    (path content : string) (s : state OS) :
  PyStr.truthy_opt (args_domain a) = false ->
  args_list a = Some path ->
  (os_read path (os_state s)).1 = inr content ->
  out (load_targets a s) = Normal (LoaderSpec.targets content).
Proof.
  intros Hdom Hlist Hread. unfold load_targets, try_except.
  rewrite Hdom, Hlist. rewrite bind_run.
  cbn [open_read out final log]. rewrite Hread. cbn [out final log].
  unfold prepend. cbn [out ret]. now rewrite targets_of_file.
Qed.

(** With an empty string for [-d] the truth test of line 131 fails, the
    loader goes on to open the list file, and there is none. *)
Lemma load_targets_empty_domain (a : Args) (s : state OS) :
  args_domain a = Some "" ->
  args_list a = None ->
  load_targets a s =
  Res (Raised (OtherException "TypeError"
                 "expected str, bytes or os.PathLike object, not NoneType"))
      s [].
Proof.
  intros Hdom Hlist. unfold load_targets, try_except.
  rewrite Hdom, Hlist. reflexivity.
Qed.

End LoaderClaims.

(** C6 on the example of the specification. *)
Lemma loader_returns_trimmed_nonblank_lines_witness :
  PyStr.truthy_opt (args_domain Examples.list_args) = false
  /\ args_list Examples.list_args = Some "targets.txt"
  /\ (os_read "targets.txt"
        (os_state (Toy.start_in Examples.list_world ∅))).1
     = inr Examples.list_text
  /\ out (load_targets Examples.list_args
            (Toy.start_in Examples.list_world ∅))
     = Normal (LoaderSpec.targets Examples.list_text).
Proof.
  split; [reflexivity | split; [reflexivity | split; [reflexivity|]]].
  exact (loader_returns_trimmed_nonblank_lines Examples.list_args
           "targets.txt" Examples.list_text
           (Toy.start_in Examples.list_world ∅)
           eq_refl eq_refl eq_refl).
Defined.

(** The example of the specification, and a repeated line. *)
Example loader_example :
  LoaderSpec.targets Examples.list_text = ["a.com"; "b.com"].
Proof. reflexivity. Qed.

Example loader_keeps_duplicates :
  targets_of_lines (PyStr.file_lines ("a.com" +:+ NL +:+ "a.com" +:+ NL))
  = ["a.com"; "a.com"].
Proof. reflexivity. Qed.

(** C7: the clean URL list is the first whitespace-delimited token of
    every line that is not blank, in order; on the lines of the
    specification it is the two URLs. *)
Theorem clean_urls_are_first_tokens :
  (forall raw_lines : list string,
      clean_urls_of raw_lines = UrlSpec.clean_urls raw_lines)
  /\ clean_urls_of ["https://a.com 200 1234 Title Here" +:+ NL;
                    NL;
                    "https://b.com 403 0 Forbidden" +:+ NL]
     = ["https://a.com"; "https://b.com"].
Proof. split; [apply clean_urls_of_spec | reflexivity]. Qed.

(** C10: [-d ""] does not give the one-element target list: the loader
    raises a [TypeError] nothing catches, and no target is processed. *)
Theorem empty_domain_raises_type_error :
  let r := main Examples.empty_domain_args (Toy.start ∅) in
  out r = Raised (OtherException "TypeError"
                    "expected str, bytes or os.PathLike object, not NoneType")
  /\ launched (log r) = List.map (fun tool => ["which"; tool]) TOOL_CHAIN
  /\ fs_changes (log r) = [].
Proof. vm_compute. repeat split. Qed.

Section IterationClaims.

Context {OS : Type} `{OSModel OS}.

(** What an iteration that was not aborted looks like from outside. *)
Lemma iteration_outline a url env t (r : result OS unit) :
  iteration_shape a url env t r ->
  ~ aborted (out r) ->
  let n := stages_run (log r) in
  (out r = LoopContinue /\ (1 <= n <= 4)%nat
   /\ launched (log r) = firstn n (stage_cmds a url t)
   /\ prints_last (log r) [stop_warning n])
  \/ (out r = Normal tt /\ n = 5%nat
      /\ launched (log r) = stage_cmds a url t ++ seeder_cmds a url t
      /\ prints_last (log r)
           (summary_lines a t
              (os_abspath (args_output_dir a) (os_state (final r))))).
Proof.
  intros Hshape Hrun.
  destruct Hshape
    as [o s' l Habort _
       |a1 s' l Heff Hy1 Hp
       |a1 a2 s' l Heff Hy1 Hy2 Hp
       |a1 a2 a3 s' l Heff Hy1 Hy2 Hy3 Hp
       |a1 a2 a3 a4 tx s' l Heff Hy1 Hy2 Hy3 Hp
       |a1 a2 a3 a4 content s' l Heff Hy1 Hy2 Hy3 Hy4 Hp
       |a1 a2 a3 a4 content tx s' l Heff Hy1 Hy2 Hy3 Hp
       |a1 a2 a3 a4 a5 content seeding s' l Heff Hy1 Hy2 Hy3 Hy4 Hseed Hp];
    cbn [out final log os_state] in *.
  1: contradiction.
  all: cbv zeta.
  all: unfold stages_run, first_empty_stage, stage_yield, probe_yield, launched.
  all: unfold effects_upto4, effects_upto3, effects_upto2, effects_upto1,
         stage_effects in Heff.
  7: unfold seeder_cmds;
     destruct (PyStr.truthy_opt (args_proxy a));
     [destruct Hseed as [a6 ->] | subst seeding].
  all: project_hyps; project_log.
  all: unfold urls_text in *.
  all: simpl;
    repeat (first [rewrite Hy1 | rewrite Hy2 | rewrite Hy3 | rewrite Hy4];
            simpl).
  1-6: left; repeat split; solve [lia | exact Hp].
  all: right; repeat split; exact Hp.
Qed.

Lemma iteration_fresh a url env t (r : result OS unit) :
  iteration_shape a url env t r -> fresh_inputs (log r).
Proof.
  intros Hshape.
  destruct Hshape
    as [o s' l Habort Hf
       |a1 s' l Heff Hy1 Hp
       |a1 a2 s' l Heff Hy1 Hy2 Hp
       |a1 a2 a3 s' l Heff Hy1 Hy2 Hy3 Hp
       |a1 a2 a3 a4 tx s' l Heff Hy1 Hy2 Hy3 Hp
       |a1 a2 a3 a4 content s' l Heff Hy1 Hy2 Hy3 Hy4 Hp
       |a1 a2 a3 a4 content tx s' l Heff Hy1 Hy2 Hy3 Hp
       |a1 a2 a3 a4 a5 content seeding s' l Heff Hy1 Hy2 Hy3 Hy4 Hseed Hp];
    cbn [out final log os_state] in *.
  1: exact Hf.
  all: unfold fresh_inputs.
  all: unfold effects_upto4, effects_upto3, effects_upto2, effects_upto1,
         stage_effects in Heff.
  7: destruct (PyStr.truthy_opt (args_proxy a));
     [destruct Hseed as [a6 ->] | subst seeding].
  all: rewrite Hy1 in Heff; cbn [PyStr.truthy] in Heff; cbv iota in Heff.
  all: project_hyps; project_log.
  all: solve_chain.
Qed.

End IterationClaims.

Section RunClaims.

Context {OS : Type} `{OSModel OS}.

(** In a dry run only the setup before the loop is left of the footprint. *)
Lemma dry_footprint (a : Args) (e : event) :
  args_dry_run a = true -> main_event a e -> setup_event a e.
Proof.
  intros Hdry He. destruct He; try congruence.
  - apply se_print.
  - now apply se_which.
  - now apply se_read_list.
  - apply se_makedirs.
Qed.

Lemma setup_launches (a : Args) (l : list event) :
  Forall (setup_event a) l ->
  Forall (fun cmd => exists tool, In tool TOOL_CHAIN /\ cmd = ["which"; tool])
         (launched l).
Proof.
  unfold launched. induction 1 as [|e l He _ IH]; [constructor|].
  destruct He; cbn [execs map]; try exact IH.
  constructor; [|exact IH]. cbn [ec_cmd]. eauto.
Qed.

Lemma setup_fs_changes (a : Args) (l : list event) :
  Forall (setup_event a) l ->
  Forall (fun e => exists ans, e = EvMakedirs (args_output_dir a) ans)
         (fs_changes l).
Proof.
  unfold fs_changes. induction 1 as [|e l He _ IH]; [constructor|].
  destruct He; cbn [filter is_fs_change]; try exact IH.
  constructor; [|exact IH]. eauto.
Qed.

(** C1 (as the code has it): in a dry run the target loop and [run_command]
    only print. What a dry run still does to its surroundings is the setup
    before the loop: every event of the run is console output, a [which]
    lookup of one of the tools (a child process), the read of the list
    file, or the creation of the output directory. *)
Theorem dry_run_leaves_only_setup (a : Args) (s : state OS) :
  args_dry_run a = true ->
  Forall (setup_event a) (log (main a s))
  /\ Forall (fun cmd => exists tool,
                 In tool TOOL_CHAIN /\ cmd = ["which"; tool])
            (launched (log (main a s)))
  /\ Forall (fun e => exists ans, e = EvMakedirs (args_output_dir a) ans)
            (fs_changes (log (main a s)))
  /\ (forall url env t s',
        let r := process_target a url env t s' in
        out r = Normal tt /\ effects (log r) = []
        /\ os_state (final r) = os_state s')
  /\ (forall command input outf env s',
        let r := run_command command input outf env true s' in
        effects (log r) = [] /\ final r = s').
Proof.
  intros Hdry.
  assert (Hsetup : Forall (setup_event a) (log (main a s))).
  { destruct (main_footprint a s) as [Hall _].
    eapply Forall_impl; [exact Hall|].
    intros e. now apply dry_footprint. }
  split; [exact Hsetup|].
  split; [now apply (setup_launches a)|].
  split; [now apply (setup_fs_changes a)|].
  split.
  - intros url env t s' r.
    destruct (process_target_dry a url env t s' Hdry) as (Ho & He & Hs & _).
    auto.
  - intros command input outf env s' r.
    destruct (run_command_dry command input outf env s') as (_ & Hs & He).
    auto.
Qed.

Lemma footprint_execs (a : Args) (Q : exec_call -> Prop) (l : list event) :
  (forall cmd input env ans,
      main_event a (EvExec cmd input env ans) ->
      Q (mkExecCall cmd input env ans)) ->
  Forall (main_event a) l -> Forall Q (execs l).
Proof.
  intros HQ. induction 1 as [|e l He _ IH]; [constructor|].
  destruct e; cbn [execs]; try exact IH.
  constructor; [now apply HQ | exact IH].
Qed.

End RunClaims.

(** C1, tried on a dry run with a proxy. *)
Lemma dry_run_leaves_only_setup_witness :
  args_dry_run Examples.dry_args = true
  /\ Forall (setup_event Examples.dry_args)
       (log (main Examples.dry_args (Toy.start ∅))).
Proof.
  split; [reflexivity|].
  exact (proj1 (dry_run_leaves_only_setup Examples.dry_args (Toy.start ∅)
                  eq_refl)).
Defined.

(** C1 as stated fails: a dry run starts the five [which] lookups and
    creates the output directory. *)
Lemma dry_run_starts_lookups_and_creates_directory :
  let r := main Examples.dry_args (Toy.start ∅) in
  args_dry_run Examples.dry_args = true
  /\ launched (log r)
     = [["which"; "subfinder"]; ["which"; "dnsx"]; ["which"; "naabu"];
        ["which"; "httpx"]; ["which"; "katana"]]
  /\ fs_changes (log r) = [EvMakedirs "recon_results" None]
  /\ ("recon_results" ∉ Toy.dirs (os_state (Toy.start ∅)))
  /\ ("recon_results" ∈ Toy.dirs (os_state (final r))).
Proof.
  cbv zeta. split; [reflexivity|]. split; [vm_compute; reflexivity|].
  split; [vm_compute; reflexivity|]. split.
  - cbn. set_solver.
  - assert (E : Toy.dirs (os_state (final (main Examples.dry_args
                                             (Toy.start ∅))))
                = {["recon_results"]} ∪ ∅) by reflexivity.
    rewrite E. set_solver.
Qed.

(** A run through all five stages, and one that stops at stage 1,
    evaluated. *)
Example five_stages_example :
  let r := process_target Examples.live_args "" ∅ "a.com" (Toy.start ∅) in
  out r = Normal tt /\ stages_run (log r) = 5%nat
  /\ launched (log r) = stage_cmds Examples.live_args "" "a.com".
Proof. vm_compute. repeat split. Qed.

Example early_stop_example :
  let r := process_target Examples.void_args "" ∅ "void.test" (Toy.start ∅) in
  out r = LoopContinue /\ stages_run (log r) = 1%nat
  /\ launched (log r) = [subfinder_cmd "void.test"].
Proof. vm_compute. repeat split. Qed.

(** C4 as stated fails: a target that stops at stage 1 gets the warning
    and then nothing; not one line of the summary block is printed. *)
Lemma early_stop_prints_no_summary :
  let r := process_target Examples.void_args "" ∅ "void.test" (Toy.start ∅) in
  out r = LoopContinue
  /\ last (printed (log r)) = Some (stop_warning 1)
  /\ forall dir line,
       In line (summary_lines Examples.void_args "void.test" dir) ->
       ~ In line (printed (log r)).
Proof.
  cbv zeta. split; [vm_compute; reflexivity|].
  split; [vm_compute; reflexivity|].
  intros dir line Hin Hpr.
  vm_compute in Hpr.
  unfold summary_lines in Hin. cbn [app In Examples.void_args args_proxy
    PyStr.truthy_opt] in Hin.
  cbn [In] in Hpr.
  repeat (destruct Hin as [<-|Hin];
          [ repeat (destruct Hpr as [Hpr|Hpr]; [discriminate Hpr|]);
            contradiction | ]).
  contradiction.
Qed.

(** C5 as stated fails for stages 1 to 3: started from an environment that
    has [HTTP_PROXY], the subfinder, dnsx and naabu children receive it. *)
Lemma early_stages_inherit_proxy_variable :
  let r := main Examples.live_args (Toy.start Examples.corporate_env) in
  Examples.corporate_env !! "HTTP_PROXY" = Some "http://10.0.0.1:3128"
  /\ filter (fun p => bool_decide (p.1 ∈ ["subfinder"; "dnsx"; "naabu"]))
       (Toy.received (os_state (final r)))
     = [("subfinder", Some "http://10.0.0.1:3128");
        ("dnsx", Some "http://10.0.0.1:3128");
        ("naabu", Some "http://10.0.0.1:3128")].
Proof. cbv zeta. split; vm_compute; reflexivity. Qed.

(** * Further properties of the code *)

(** ** The texts the loader and the URL extraction produce *)

Section TextShapes.
Import PyStr TextShape.

Lemma rstrip_idempotent (s : string) : rstrip (rstrip s) = rstrip s.
Proof.
  induction s as [|c r IH]; [reflexivity|].
  simpl. destruct (rstrip r) as [|d r'] eqn:E.
  - destruct (isspace c) eqn:Hc; [reflexivity|]. simpl. now rewrite Hc.
  - change (rstrip (String c (String d r')))
      with (match rstrip (String d r') with
            | EmptyString =>
                if isspace c then EmptyString else String c EmptyString
            | r'' => String c r''
            end).
    now rewrite IH.
Qed.

Lemma strip_idempotent (s : string) : strip (strip s) = strip s.
Proof.
  unfold strip. destruct (lstrip s) as [|c r] eqn:Hl; [reflexivity|].
  pose proof (lstrip_head _ _ _ Hl) as Hc.
  destruct (rstrip_head c r Hc) as [r' Hr'].
  rewrite Hr'. simpl lstrip. rewrite Hc. rewrite <- Hr'.
  apply rstrip_idempotent.
Qed.

Lemma one_line_lstrip (s : string) :
  one_line s = true -> one_line (lstrip s) = true.
Proof.
  unfold one_line. induction s as [|c r IH]; [reflexivity|].
  simpl. intros [Hc Hr]%andb_prop.
  destruct (isspace c); [auto|]. simpl. now rewrite Hc, Hr.
Qed.

Lemma one_line_rstrip (s : string) :
  one_line s = true -> one_line (rstrip s) = true.
Proof.
  unfold one_line. induction s as [|c r IH]; [reflexivity|].
  simpl. intros [Hc Hr]%andb_prop.
  destruct (rstrip r) as [|d r'].
  - destruct (isspace c); [reflexivity|]. simpl. now rewrite Hc.
  - simpl in *. rewrite Hc. now apply IH.
Qed.

Lemma one_line_text_lines (s : string) :
  Forall (fun l => one_line l = true) (LoaderSpec.text_lines s).
Proof.
  enough (Hboth :
    Forall (fun l => one_line l = true) (LoaderSpec.text_lines s)
    /\ forall d r', s = String d r' ->
         Forall (fun l => one_line l = true) (LoaderSpec.text_lines r'))
    by apply Hboth.
  induction s as [|c r [IHr IHr']]; split; try discriminate.
  - repeat constructor.
  - simpl. destruct (Ascii.eqb c LF) eqn:Hlf; [now constructor|].
    destruct (Ascii.eqb c CR) eqn:Hcr.
    + constructor; [reflexivity|].
      destruct r as [|d r']; [repeat constructor|].
      destruct (Ascii.eqb d LF); [exact (IHr' d r' eq_refl) | exact IHr].
    + pose proof (text_lines_nonempty r) as Hne.
      destruct (LoaderSpec.text_lines r) as [|l ls]; [congruence|].
      inversion IHr as [|? ? Hl Hls]; subst.
      constructor; [|exact Hls].
      unfold one_line in *. simpl. now rewrite Hlf, Hcr.
  - intros d r' [= -> ->]. exact IHr.
Qed.

(** X1: every target the loader takes from a list file is non-empty, has no
    whitespace at either end, and holds no line terminator. *)
Theorem loaded_targets_are_trimmed_lines (content : string) :
  Forall (fun t => trimmed t /\ one_line t = true)
         (targets_of_lines (file_lines content)).
Proof.
  rewrite targets_of_file. unfold LoaderSpec.targets.
  pose proof (one_line_text_lines content) as Hlines.
  induction Hlines as [|l ls Hl _ IH]; [constructor|].
  simpl. destruct (truthy (strip l)) eqn:Ht; [|exact IH].
  constructor; [|exact IH].
  split; [split; [exact Ht | apply strip_idempotent]|].
  unfold strip. now apply one_line_rstrip, one_line_lstrip.
Qed.

Lemma spaceless_take_token (s : string) :
  spaceless (UrlSpec.take_token s) = true.
Proof.
  unfold spaceless. induction s as [|c r IH]; [reflexivity|].
  simpl. destruct (isspace c) eqn:Hc; [reflexivity|].
  simpl. now rewrite Hc.
Qed.

Lemma first_token_truthy (line : string) :
  UrlSpec.blank line = false -> truthy (UrlSpec.first_token line) = true.
Proof.
  unfold UrlSpec.blank, UrlSpec.first_token, strip.
  destruct (lstrip line) as [|c r] eqn:Hl; [discriminate|].
  intros _. simpl. now rewrite (lstrip_head _ _ _ Hl).
Qed.

Lemma clean_urls_shape (raw_lines : list string) :
  Forall (fun url => truthy url = true /\ spaceless url = true)
         (clean_urls_of raw_lines).
Proof.
  rewrite clean_urls_of_spec. unfold UrlSpec.clean_urls.
  induction raw_lines as [|line rest IH]; [constructor|].
  simpl. destruct (UrlSpec.blank line) eqn:Hb; simpl; [exact IH|].
  constructor; [|exact IH].
  split; [now apply first_token_truthy | apply spaceless_take_token].
Qed.

(** X2: every entry of the clean URL list is a non-empty text without
    whitespace, and there is at most one per line of the detail file. *)
Theorem clean_urls_are_spaceless_tokens (raw_lines : list string) :
  Forall (fun url => truthy url = true /\ spaceless url = true)
         (clean_urls_of raw_lines)
  /\ (List.length (clean_urls_of raw_lines) <= List.length raw_lines)%nat.
Proof.
  split; [apply clean_urls_shape|].
  rewrite clean_urls_of_spec. unfold UrlSpec.clean_urls.
  rewrite length_map. apply List.filter_length_le.
Qed.

Lemma spaceless_cons (c : ascii) (r : string) :
  spaceless (String c r) = true ->
  isspace c = false /\ spaceless r = true.
Proof.
  unfold spaceless. simpl. intros [Hc Hr]%andb_prop.
  split; [now apply negb_true_iff | exact Hr].
Qed.

Lemma not_space_not_terminator (c : ascii) :
  isspace c = false -> Ascii.eqb c LF = false /\ Ascii.eqb c CR = false.
Proof.
  intros Hc. split.
  - destruct (Ascii.eqb_spec c LF) as [->|]; [discriminate Hc | reflexivity].
  - destruct (Ascii.eqb_spec c CR) as [->|]; [discriminate Hc | reflexivity].
Qed.

Lemma universal_newlines_token_line (u t : string) :
  spaceless u = true ->
  universal_newlines (u +:+ NL +:+ t) = u +:+ NL +:+ universal_newlines t.
Proof.
  induction u as [|c r IH]; intros Hu; [reflexivity|].
  apply spaceless_cons in Hu as [Hc Hr].
  destruct (not_space_not_terminator c Hc) as [_ Hcr].
  simpl. rewrite Hcr. now rewrite (IH Hr).
Qed.

Lemma universal_newlines_token (u : string) :
  spaceless u = true -> universal_newlines u = u.
Proof.
  induction u as [|c r IH]; intros Hu; [reflexivity|].
  apply spaceless_cons in Hu as [Hc Hr].
  destruct (not_space_not_terminator c Hc) as [_ Hcr].
  simpl. rewrite Hcr. now rewrite (IH Hr).
Qed.

Lemma iter_lines_token_line (u t : string) :
  spaceless u = true ->
  iter_lines (u +:+ NL +:+ t) = (u +:+ NL) :: iter_lines t.
Proof.
  induction u as [|c r IH]; intros Hu; [reflexivity|].
  apply spaceless_cons in Hu as [Hc Hr].
  destruct (not_space_not_terminator c Hc) as [Hlf _].
  simpl. rewrite Hlf.
  now rewrite (IH Hr).
Qed.

Lemma iter_lines_token (u : string) :
  spaceless u = true -> truthy u = true -> iter_lines u = [u].
Proof.
  induction u as [|c r IH]; intros Hu Ht; [discriminate|].
  apply spaceless_cons in Hu as [Hc Hr].
  destruct (not_space_not_terminator c Hc) as [Hlf _].
  simpl. rewrite Hlf. destruct r as [|d r']; [reflexivity|].
  now rewrite (IH Hr eq_refl).
Qed.

Lemma split_token (u : string) :
  spaceless u = true -> truthy u = true -> split u = [u].
Proof.
  induction u as [|c r IH]; intros Hu Ht; [discriminate|].
  apply spaceless_cons in Hu as [Hc Hr].
  simpl. rewrite Hc. destruct r as [|d r']; [reflexivity|].
  destruct (spaceless_cons _ _ Hr) as [Hd _]. rewrite Hd.
  now rewrite (IH Hr eq_refl).
Qed.

Lemma strip_token (u : string) : spaceless u = true -> strip u = u.
Proof.
  intros Hu. unfold strip.
  assert (Hl : lstrip u = u).
  { destruct u as [|c r]; [reflexivity|].
    apply spaceless_cons in Hu as [Hc _]. simpl. now rewrite Hc. }
  rewrite Hl. clear Hl.
  induction u as [|c r IH]; [reflexivity|].
  apply spaceless_cons in Hu as [Hc Hr].
  simpl. rewrite (IH Hr). rewrite Hc. now destruct r.
Qed.

Lemma clean_urls_of_saved (urls : list string) :
  Forall (fun url => truthy url = true /\ spaceless url = true) urls ->
  clean_urls_of (file_lines (join NL urls)) = urls.
Proof.
  unfold file_lines.
  induction 1 as [|u rest [Ht Hu] Hrest IH]; [reflexivity|].
  destruct rest as [|u' rest].
  - simpl join. rewrite universal_newlines_token by exact Hu.
    rewrite iter_lines_token by assumption.
    simpl. rewrite strip_token, split_token by assumption. reflexivity.
  - change (join NL (u :: u' :: rest))
      with (u +:+ NL +:+ join NL (u' :: rest)).
    rewrite universal_newlines_token_line by exact Hu.
    rewrite iter_lines_token_line by exact Hu.
    simpl clean_urls_of. rewrite strip_app_LF.
    rewrite strip_token, split_token by assumption.
    f_equal. exact IH.
Qed.

(** X3: the clean URL file reads back as it was written: extracting the URLs
    from the text that stage 4 saves gives the list that was saved. *)
Theorem clean_url_file_reads_back (raw_lines : list string) :
  clean_urls_of (file_lines (join NL (clean_urls_of raw_lines)))
  = clean_urls_of raw_lines.
Proof.
  apply clean_urls_of_saved.
  apply clean_urls_shape.
Qed.

End TextShapes.

(** ** [run_command] *)

Section RunCommandProperties.

Context {OS : Type} `{OSModel OS}.

(** X4: [run_command] never raises and never leaves a loop: it returns a
    result for the command it was given, with exit status 0 or 1, or it ends
    the program with exit status 1. *)
Theorem run_command_status_is_zero_or_one (command : list string)
    (input outf : option string) (env : option (gmap string string))
    (dry : bool) (s : state OS) :
  let r := run_command command input outf env dry s in
  out r = SysExit 1
  \/ exists cp, out r = Normal cp /\ args cp = command
                /\ (returncode cp = 0%Z \/ returncode cp = 1%Z).
Proof.
  cbv zeta. destruct dry.
  - destruct (run_command_dry command input outf env s) as (Ho & _).
    right. eexists. split; [exact Ho|]. simpl. auto.
  - destruct command as [|prog rest].
    + left. reflexivity.
    + destruct (run_command_live (prog :: rest) input outf env s)
        as [so se os1 l _ _ _|so se os1 os2 l _ _ _ _
           |so se os1 os2 f l _ _ _ _|rc so se os1 l _ _ _|f os1 l _ _];
        [discriminate| | | | |]; cbn [out]; eauto 7.
Qed.

(** X5: a tool that exits with status 0 has its captured output written, as it
    is, to the output file, and returned. *)
Theorem successful_run_saves_captured_output (command : list string)
    (input : option string) (path : string)
    (env : option (gmap string string)) (s : state OS)
    (so se : string) (os1 os2 : OS) :
  command <> [] ->
  PyStr.truthy path = true ->
  os_exec command input (child_environment (os_environ s) env) (os_state s)
  = (Exited 0 so se, os1) ->
  os_write path so os1 = (None, os2) ->
  let r := run_command command input (Some path) env false s in
  out r = Normal (mkCompletedProcess command 0 so se)
  /\ fs_changes (log r) = [EvWrite path so None]
  /\ os_state (final r) = os2.
Proof.
  intros Hne Hpath Hexec Hwrite r. subst r.
  destruct (run_command_live command input (Some path) env s Hne)
    as [so' se' o1 l E Hout Hl|so' se' o1 o2 l E Hout Ew Hl
       |so' se' o1 o2 f l E Hout Ew Hl|rc so' se' o1 l E Hrc Hl|f o1 l E Hl];
    rewrite Hexec in E; inversion E; subst; cbn [fmt_opt] in *.
  - simpl in Hout. congruence.
  - rewrite Hwrite in Ew. inversion Ew; subst.
    cbn [out log final with_os os_state].
    repeat split. rewrite <- fs_changes_effects, Hl. reflexivity.
  - rewrite Hwrite in Ew. discriminate Ew.
  - congruence.
Qed.

(** X6: a tool that cannot be launched (no such program, no permission) ends
    the program with exit status 1, after the error was printed; nothing is
    written. *)
Theorem unlaunchable_tool_exits_program (command : list string)
    (input outf : option string) (env : option (gmap string string))
    (s : state OS) (f : failure) (os1 : OS) :
  command <> [] ->
  os_exec command input (child_environment (os_environ s) env) (os_state s)
  = (ExecError f, os1) ->
  let r := run_command command input outf env false s in
  out r = SysExit 1
  /\ last (printed (log r)) = Some (critical_line (exn_of f))
  /\ fs_changes (log r) = [].
Proof.
  intros Hne Hexec r. subst r.
  destruct command as [|prog rest]; [congruence|].
  unfold run_command. rewrite bind_print. cbv iota.
  unfold try_except. rewrite bind_run. pysimpl. rewrite Hexec. pysimpl.
  destruct f; pysimpl; rewrite bind_print; pysimpl; repeat split.
Qed.

(** X7: when the output file cannot be written, the tool has run and its
    output is lost: the program ends with exit status 1 after printing the
    error. *)
Theorem unwritable_output_exits_program (command : list string)
    (input : option string) (path : string)
    (env : option (gmap string string)) (s : state OS)
    (so se : string) (f : failure) (os1 os2 : OS) :
  command <> [] ->
  PyStr.truthy path = true ->
  os_exec command input (child_environment (os_environ s) env) (os_state s)
  = (Exited 0 so se, os1) ->
  os_write path so os1 = (Some f, os2) ->
  let r := run_command command input (Some path) env false s in
  out r = SysExit 1
  /\ launched (log r) = [command]
  /\ last (printed (log r)) = Some (critical_line (exn_of f)).
Proof.
  intros Hne Hpath Hexec Hwrite r. subst r.
  destruct command as [|prog rest]; [congruence|].
  unfold run_command. rewrite bind_print. cbv iota.
  unfold try_except. rewrite bind_run. pysimpl. rewrite Hexec. pysimpl.
  change (0 =? 0)%Z with true. cbv iota. pysimpl. rewrite Hpath.
  rewrite bind_assoc, bind_run. pysimpl. rewrite Hwrite. pysimpl.
  destruct f; pysimpl; rewrite bind_print; pysimpl; repeat split.
Qed.

End RunCommandProperties.

(** ** The setup of [main] *)

Section SetupProperties.

Context {OS : Type} `{OSModel OS}.

Lemma failed_tools_app (l1 l2 : list event) :
  failed_tools (l1 ++ l2) = failed_tools l1 ++ failed_tools l2.
Proof.
  unfold failed_tools. now rewrite execs_app, List.filter_app, map_app.
Qed.

Lemma launched_app (l1 l2 : list event) :
  launched (l1 ++ l2) = launched l1 ++ launched l2.
Proof. unfold launched. now rewrite execs_app, map_app. Qed.

(** The probes one after the other: unless launching [which] itself fails
    for another reason than its absence, every tool is probed, and the
    tools not found are added to the list in the order probed. *)
Lemma check_each_probes (tools : list string) :
  forall (missing : list string) (s : state OS),
    let r := check_each tools missing s in
    (exists e, out r = Raised e)
    \/ (out r = Normal (missing ++ failed_tools (log r))
        /\ launched (log r) = map (fun tool => ["which"; tool]) tools
        /\ fs_changes (log r) = []).
Proof.
  induction tools as [|tool rest IH]; intros missing s; cbv zeta.
  - right. cbn. now rewrite app_nil_r.
  - cbn [check_each]. rewrite bind_run.
    match goal with
    | |- context [out (try_except ?b ?h s)] => set (r1 := try_except b h s)
    end.
    assert (Hr1 :
      (exists e, out r1 = Raised e)
      \/ (out r1 = Normal (missing ++ failed_tools (log r1))
          /\ launched (log r1) = [["which"; tool]]
          /\ fs_changes (log r1) = [])).
    { subst r1. unfold try_except. rewrite bind_run. pysimpl.
      destruct (os_exec ["which"; tool] None
                  (child_environment (os_environ s) None) (os_state s))
        as [[rc so se|f] os1] eqn:Eexec; pysimpl.
      - destruct (Z.eqb rc 0) eqn:Hrc; pysimpl.
        + right. rewrite bind_print. pysimpl.
          unfold failed_tools.
          cbn [execs List.filter probe_ok ec_answer].
          rewrite Hrc. cbn. now rewrite app_nil_r.
        + right. rewrite bind_print. pysimpl.
          unfold failed_tools.
          cbn [execs List.filter probe_ok ec_answer].
          rewrite Hrc. repeat split.
      - destruct f as [t|c t]; pysimpl.
        + right. rewrite bind_print. pysimpl. repeat split.
        + left. eexists. reflexivity. }
    clearbody r1. destruct r1 as [o1 s1 l1]. cbn [out final log] in *.
    destruct Hr1 as [[e ->]|(-> & Hl1 & Hf1)].
    + left. exists e. reflexivity.
    + unfold prepend. cbn [out log].
      destruct (IH (missing ++ failed_tools l1) s1) as [[e He]|(Ho & Hl & Hf)].
      * left. exists e. exact He.
      * right. rewrite Ho, failed_tools_app, launched_app, fs_changes_app,
          Hl1, Hf1, Hl, Hf, app_assoc.
        repeat split.
Qed.

(** X8: [check_tools_installed] probes every tool of the list, in order,
    whether or not an earlier one was missing, and touches no file. When every
    probe finds its tool it returns; otherwise it names the missing tools, in
    the order probed, and ends the program with exit status 1. (An error other
    than a missing [which] is not handled and propagates.) *)
Theorem tool_check_probes_every_tool (tools : list string) (s : state OS) :
  (forall e, out (check_tools_installed tools s) <> Raised e) ->
  let r := check_tools_installed tools s in
  launched (log r) = map (fun tool => ["which"; tool]) tools
  /\ fs_changes (log r) = []
  /\ match failed_tools (log r) with
     | [] => out r = Normal tt
     | _ :: _ =>
         out r = SysExit 1
         /\ In (NL +:+ Colors.RED +:+ Colors.BOLD
                +:+ "[FATAL] The following tools are missing: "
                +:+ PyStr.join ", " (failed_tools (log r)) +:+ Colors.ENDC)
               (printed (log r))
     end.
Proof.
  intros Hno r. subst r. revert Hno.
  unfold check_tools_installed. rewrite bind_print, bind_run.
  destruct (check_each_probes tools [] s) as [[e He]|(Ho & Hl & Hf)].
  - rewrite He. intros Hno. now destruct (Hno e).
  - intros _. rewrite Ho. cbn [app].
    set (c := check_each tools [] s) in *. clearbody c.
    destruct c as [o1 s1 l1]. cbn [out final log] in *.
    destruct (failed_tools l1) as [|m ms] eqn:Hm.
    + unfold prepend. cbn [out final log print].
      rewrite !launched_app, !fs_changes_app, !failed_tools_app, Hl, Hf, Hm.
      repeat split. cbn. now rewrite app_nil_r.
    + rewrite !bind_print. unfold prepend. cbn [out final log sys_exit].
      rewrite !launched_app, !fs_changes_app, !failed_tools_app, Hl, Hf, Hm.
      cbn [launched execs map failed_tools List.filter fs_changes app].
      rewrite !app_nil_r. repeat split.
      cbn [printed]. right. rewrite printed_app. apply in_or_app. right.
      now left.
Qed.

(** The tool check, when it passes. *)
Lemma check_tools_passed (tools : list string) (s : state OS) :
  out (check_tools_installed tools s) = Normal tt ->
  launched (log (check_tools_installed tools s))
  = map (fun tool => ["which"; tool]) tools
  /\ fs_changes (log (check_tools_installed tools s)) = [].
Proof.
  unfold check_tools_installed. rewrite bind_print, bind_run.
  destruct (check_each_probes tools [] s) as [[e He]|(Ho & Hl & Hf)].
  - rewrite He. discriminate.
  - rewrite Ho. cbn [app].
    set (c := check_each tools [] s) in *. clearbody c.
    destruct c as [o1 s1 l1]. cbn [out final log] in *.
    destruct (failed_tools l1) as [|m ms].
    + intros _. unfold prepend. cbn [out final log print].
      rewrite !launched_app, !fs_changes_app, Hl, Hf.
      split; [cbn; now rewrite app_nil_r | reflexivity].
    + rewrite !bind_print. discriminate.
Qed.

Lemma load_targets_log (a : Args) (s : state OS) :
  launched (log (load_targets a s)) = []
  /\ fs_changes (log (load_targets a s)) = [].
Proof.
  unfold load_targets.
  destruct (PyStr.truthy_opt (args_domain a)); [now split|].
  unfold try_except. destruct (args_list a) as [path|]; [|now split].
  rewrite bind_run. pysimpl.
  destruct (os_read path (os_state s)) as [[[t|c t]|content] os1]; pysimpl;
    now split.
Qed.

(** X9: of the ways reading the list file can fail, only its absence is
    handled: the program then names the file and ends with exit status 1. Any
    other failure (no permission, a directory) leaves [load_targets] as the
    exception it is. *)
Theorem only_missing_list_file_is_handled (a : Args) (path : string)
    (s : state OS) (f : failure) (os' : OS) :
  PyStr.truthy_opt (args_domain a) = false ->
  args_list a = Some path ->
  os_read path (os_state s) = (inl f, os') ->
  let r := load_targets a s in
  effects (log r) = [EvRead path (inl f)]
  /\ match f with
     | ENoEntry _ =>
         out r = SysExit 1
         /\ printed (log r)
            = [Colors.RED +:+ "[✗] "
               +:+ ("Input list file '" +:+ path +:+ "' not found.")
               +:+ Colors.ENDC]
     | EOther c t =>
         out r = Raised (OtherException c t) /\ printed (log r) = []
     end.
Proof.
  intros Hdom Hlist Hread r. subst r. unfold load_targets, try_except.
  rewrite Hdom, Hlist. rewrite bind_run. pysimpl. rewrite Hread. pysimpl.
  destruct f as [t|c t]; pysimpl.
  - unfold print_err. rewrite bind_print. pysimpl. repeat split.
  - repeat split.
Qed.

(** X10: when the input holds no target, [main] says so and ends with exit
    status 1 before it creates the output directory or starts a stage: all it
    has launched are the probes of the tool check. *)
Theorem no_targets_exits_before_setup (a : Args) (s : state OS) :
  out (check_tools_installed TOOL_CHAIN s) = Normal tt ->
  out (load_targets a (final (check_tools_installed TOOL_CHAIN s)))
  = Normal [] ->
  let r := main a s in
  out r = SysExit 1
  /\ fs_changes (log r) = []
  /\ launched (log r) = map (fun tool => ["which"; tool]) TOOL_CHAIN
  /\ last (printed (log r))
     = Some (Colors.RED +:+ "[✗] " +:+ "No valid targets found in the input."
             +:+ Colors.ENDC).
Proof.
  intros Hcheck Hload r. subst r.
  destruct (check_tools_passed TOOL_CHAIN s Hcheck) as (Hl1 & Hf1).
  unfold main. rewrite bind_run.
  set (c := check_tools_installed TOOL_CHAIN s) in *. clearbody c.
  destruct c as [o1 s1 l1]. cbn [out final log] in *. subst o1.
  rewrite bind_run.
  destruct (load_targets_log a s1) as [Hl2 Hf2].
  set (t := load_targets a s1) in *. clearbody t.
  destruct t as [o2 s2 l2]. cbn [out final log] in *. subst o2.
  unfold print_err. rewrite bind_print. unfold prepend.
  cbn [out final log sys_exit].
  rewrite !launched_app, !fs_changes_app, !printed_app, Hl1, Hf1, Hl2, Hf2.
  cbn [launched execs map fs_changes List.filter is_fs_change app printed].
  rewrite app_nil_r, app_assoc, last_snoc. repeat split.
Qed.

End SetupProperties.

Ltac close_files :=
  (split; [cbn [app]; rewrite ?app_nil_r; reflexivity|]);
  (split; [reflexivity|]);
  (split; [repeat constructor; assumption|]);
  first [ now left
        | right; eexists; repeat split; first [reflexivity | lia] ].

(** ** The files of an iteration *)

Section IterationFiles.

Context {OS : Type} `{OSModel OS}.

Lemma saved_files_app (l1 l2 : list event) :
  saved_files (l1 ++ l2) = saved_files l1 ++ saved_files l2.
Proof.
  induction l1 as [|e l1 IH]; [reflexivity|].
  destruct e as [| | |p c [f|]|]; simpl; now rewrite ?IH.
Qed.

Lemma saved_files_effects (l : list event) :
  saved_files (effects l) = saved_files l.
Proof.
  induction l as [|e l IH]; [reflexivity|].
  destruct e as [| | |p c [f|]|]; simpl; now rewrite ?IH.
Qed.

Lemma out_file_truthy (a : Args) (t suffix : string) :
  PyStr.truthy suffix = true -> PyStr.truthy (out_file a t suffix) = true.
Proof.
  intros Hs. unfold out_file, PyStr.path_join.
  assert (Hb : PyStr.truthy (t +:+ suffix) = true) by now apply truthy_app_r.
  destruct (t +:+ suffix) as [|c r] eqn:E; [discriminate|].
  assert (Hgen : forall x, PyStr.truthy (x +:+ String c r) = true)
    by (intros x; now apply truthy_app_r).
  destruct (Ascii.eqb_spec c "/"%char) as [->|Hc].
  - reflexivity.
  - assert (Hcases :
      PyStr.truthy
        (if negb (PyStr.truthy (args_output_dir a))
            || PyStr.ends_with_slash (args_output_dir a)
         then args_output_dir a +:+ String c r
         else args_output_dir a +:+ "/" +:+ String c r) = true).
    { destruct (_ || _); [apply Hgen | apply truthy_app_r; reflexivity]. }
    destruct c as [[] [] [] [] [] [] [] []]; try exact Hcases; congruence.
Qed.

(** What a stage that handed something on has saved. *)
Lemma saved_files_stage (path : string) (ans : exec_answer) :
  PyStr.truthy path = true ->
  PyStr.truthy (captured ans) = true ->
  saved_files (saved_output (Some path) ans) = [(path, captured ans)].
Proof.
  intros Hp Hc. unfold saved_output. cbn [PyStr.truthy_opt fmt_opt].
  rewrite Hp. destruct ans as [rc so se|f]; [|discriminate Hc].
  simpl in *. destruct (rc =? 0)%Z; [reflexivity | discriminate Hc].
Qed.

Lemma saved_files_run_effects (cmd : list string) (input outf : option string)
    (env : option (gmap string string)) (ans : exec_answer) :
  saved_files (run_effects cmd input outf env ans)
  = saved_files (saved_output outf ans).
Proof. reflexivity. Qed.

(** X11: in a live iteration that completes, every file the script saves holds
    exactly the text that was fed to the next stage: the subfinder, dnsx and
    naabu files feed dnsx, naabu and httpx, and the clean URL list, made from
    the detail file as read, feeds katana. The katana file is saved when
    katana exits with status 0, and only then. *)
Theorem completed_iteration_files (a : Args) (url : string)
    (env : gmap string string) (t : string) (s : state OS) :
  args_dry_run a = false ->
  out (process_target a url env t s) = Normal tt ->
  let r := process_target a url env t s in
  exists x1 x2 x3 content a5,
    map (fun c => (ec_cmd c, ec_input c)) (take 5 (execs (log r)))
    = [(subfinder_cmd t, None); (dnsx_cmd, Some x1); (naabu_cmd, Some x2);
       (httpx_cmd a url t, Some x3);
       (katana_cmd a url, Some (urls_text content))]
    /\ read_answers (log r) = [inr content]
    /\ ec_answer <$> execs (log r) !! 4%nat = Some a5
    /\ saved_files (log r)
       = [(subfinder_output_file a t, x1); (dnsx_output_file a t, x2);
          (naabu_output_file a t, x3);
          (urls_for_burp_file a t, urls_text content)]
         ++ saved_files (saved_output (Some (katana_output_file a t)) a5).
Proof.
  intros Hlive Hout r. subst r.
  pose proof (process_target_live a url env t s Hlive) as Hshape.
  destruct Hshape
    as [o s' l Habort _
       |a1 s' l Heff Hy1 Hp
       |a1 a2 s' l Heff Hy1 Hy2 Hp
       |a1 a2 a3 s' l Heff Hy1 Hy2 Hy3 Hp
       |a1 a2 a3 a4 tx s' l Heff Hy1 Hy2 Hy3 Hp
       |a1 a2 a3 a4 content s' l Heff Hy1 Hy2 Hy3 Hy4 Hp
       |a1 a2 a3 a4 content tx s' l Heff Hy1 Hy2 Hy3 Hp
       |a1 a2 a3 a4 a5 content seeding s' l Heff Hy1 Hy2 Hy3 Hy4 Hseed Hp];
    cbn [out final log] in *; try discriminate Hout.
  { subst o. contradiction. }
  exists (captured a1), (captured a2), (captured a3), content, a5.
  assert (Hseeding : saved_files seeding = []
                     /\ read_answers seeding = []
                     /\ exists extra, execs seeding = extra).
  { destruct (PyStr.truthy_opt (args_proxy a)).
    - destruct Hseed as [a6 ->]. repeat split. eauto.
    - subst seeding. repeat split. eauto. }
  destruct Hseeding as (Hsaved & Hreads & extra & Hextra).
  unfold effects_upto4, effects_upto3, effects_upto2, effects_upto1,
    stage_effects in Heff.
  rewrite Hy1 in Heff.
  pose proof (f_equal saved_files Heff) as Hfiles.
  rewrite saved_files_effects in Hfiles.
  project_hyps. project_log.
  split; [reflexivity|]. split; [reflexivity|]. split; [reflexivity|].
  rewrite Hfiles.
  rewrite !saved_files_app, !saved_files_run_effects, Hsaved.
  rewrite !saved_files_stage
    by first [assumption | apply out_file_truthy; reflexivity].
  cbn [saved_files app]. now rewrite app_nil_r.
Qed.

(** What a stage that handed nothing on has saved: nothing, or an empty
    file when the tool exited with status 0. *)
Lemma saved_files_empty_stage (path : string) (ans : exec_answer) :
  captured ans = "" ->
  saved_files (saved_output (Some path) ans) = []
  \/ saved_files (saved_output (Some path) ans) = [(path, "")].
Proof.
  intros Hc. unfold saved_output. cbn [PyStr.truthy_opt fmt_opt].
  destruct (PyStr.truthy path); [|now left].
  destruct ans as [rc so se|f]; [|now left].
  simpl in *. destruct (rc =? 0)%Z; [|now left]. subst so. now right.
Qed.

(** X12: a live iteration that stops at stage [n] leaves the files of the
    stages before [n], none of them empty, and at most one more: an empty file
    of stage [n] itself, which stage 1 never leaves. *)
Theorem early_stop_files (a : Args) (url : string)
    (env : gmap string string) (t : string) (s : state OS) :
  args_dry_run a = false ->
  out (process_target a url env t s) = LoopContinue ->
  let r := process_target a url env t s in
  let n := stages_run (log r) in
  let files := [subfinder_output_file a t; dnsx_output_file a t;
                naabu_output_file a t; urls_for_burp_file a t] in
  exists earlier own,
    saved_files (log r) = earlier ++ own
    /\ map fst earlier = take (n - 1) files
    /\ Forall (fun saved => PyStr.truthy saved.2 = true) earlier
    /\ (own = []
        \/ exists path, files !! (n - 1)%nat = Some path
                        /\ (2 <= n)%nat /\ own = [(path, "")]).
Proof.
  intros Hlive Hout r n files. subst r n files.
  pose proof (process_target_live a url env t s Hlive) as Hshape.
  destruct Hshape
    as [o s' l Habort _
       |a1 s' l Heff Hy1 Hp
       |a1 a2 s' l Heff Hy1 Hy2 Hp
       |a1 a2 a3 s' l Heff Hy1 Hy2 Hy3 Hp
       |a1 a2 a3 a4 tx s' l Heff Hy1 Hy2 Hy3 Hp
       |a1 a2 a3 a4 content s' l Heff Hy1 Hy2 Hy3 Hy4 Hp
       |a1 a2 a3 a4 content tx s' l Heff Hy1 Hy2 Hy3 Hp
       |a1 a2 a3 a4 a5 content seeding s' l Heff Hy1 Hy2 Hy3 Hy4 Hseed Hp];
    cbn [out final log] in *; try discriminate Hout.
  1: subst o; contradiction.
  all: unfold stages_run, first_empty_stage, stage_yield, probe_yield.
  all: unfold effects_upto4, effects_upto3, effects_upto2, effects_upto1,
         stage_effects in Heff.
  all: rewrite Hy1 in Heff; cbn [PyStr.truthy] in Heff; cbv iota in Heff.
  all: pose proof (f_equal saved_files Heff) as Hfiles;
       rewrite saved_files_effects in Hfiles.
  all: rewrite ?saved_files_app, ?saved_files_run_effects in Hfiles.
  all: rewrite ?saved_files_stage in Hfiles
         by first [assumption | apply out_file_truthy; reflexivity].
  all: cbn [saved_files app] in Hfiles.
  all: project_hyps; project_log.
  all: unfold urls_text in *.
  all: rewrite Hfiles; clear Hfiles.
  all: simpl List.find;
    repeat (first [rewrite Hy1 | rewrite Hy2 | rewrite Hy3 | rewrite Hy4];
            simpl List.find).
  all: cbn [negb PyStr.truthy Nat.sub take lookup list_lookup].
  - exists [], []. close_files.
  - destruct (saved_files_empty_stage (dnsx_output_file a t) a2 Hy2)
      as [-> | ->];
      exists [(subfinder_output_file a t, captured a1)]; eexists.
    + close_files.
    + close_files.
  - destruct (saved_files_empty_stage (naabu_output_file a t) a3 Hy3)
      as [-> | ->];
      exists [(subfinder_output_file a t, captured a1);
              (dnsx_output_file a t, captured a2)]; eexists;
      close_files.
  - eexists; exists []. close_files.
  - exists [(subfinder_output_file a t, captured a1);
            (dnsx_output_file a t, captured a2);
            (naabu_output_file a t, captured a3)]; eexists.
    close_files.
  - eexists; exists []. close_files.
Qed.

End IterationFiles.

(** ** The target loop and the whole run *)

Section LoopProperties.

Context {OS : Type} `{OSModel OS}.

Lemma subfinder_runs_app (l1 l2 : list event) :
  subfinder_runs (l1 ++ l2) = subfinder_runs l1 ++ subfinder_runs l2.
Proof.
  unfold subfinder_runs, launched.
  now rewrite execs_app, map_app, List.filter_app.
Qed.

(** One iteration that was not aborted ran subfinder once, on its target. *)
Lemma iteration_subfinder_runs (a : Args) (url : string)
    (env : gmap string string) (t : string) (s : state OS) :
  args_dry_run a = false ->
  ~ aborted (out (process_target a url env t s)) ->
  subfinder_runs (log (process_target a url env t s)) = [subfinder_cmd t].
Proof.
  intros Hlive Hrun.
  pose proof (iteration_outline a url env t _
                (process_target_live a url env t s Hlive) Hrun) as Ho.
  cbv zeta in Ho. unfold subfinder_runs.
  destruct Ho as [(_ & Hn & -> & _)|(_ & _ & -> & _)].
  - destruct (stages_run _) as [|[|[|[|[|n]]]]]; try lia; reflexivity.
  - unfold seeder_cmds. destruct (PyStr.truthy_opt (args_proxy a)); reflexivity.
Qed.

(** X13: a live run of the loop that reaches its end has run subfinder exactly
    once for every target, in the order of the list: no target is skipped,
    whether or not the targets before it stopped early. *)
Theorem every_target_is_enumerated_once (a : Args) (url : string)
    (env : gmap string string) (targets : list string) (s : state OS) :
  args_dry_run a = false ->
  ~ aborted (out (for_each targets (process_target a url env) s)) ->
  subfinder_runs (log (for_each targets (process_target a url env) s))
  = map subfinder_cmd targets.
Proof.
  intros Hlive. revert s.
  induction targets as [|t ts IH]; intros s Hrun; [reflexivity|].
  cbn [for_each] in *.
  pose proof (iteration_subfinder_runs a url env t s Hlive) as Hone.
  destruct (process_target a url env t s) as [[[]| |c|e] s1 l1];
    cbn [out final log] in *; try (exfalso; apply Hrun; exact I).
  - rewrite subfinder_runs_app, Hone, IH by auto. reflexivity.
  - rewrite subfinder_runs_app, Hone, IH by auto. reflexivity.
Qed.

Lemma footprint_saved_files (a : Args) (l : list event) :
  Forall (main_event a) l ->
  Forall (fun saved =>
            args_dry_run a = false
            /\ exists target,
                 In saved.1 [subfinder_output_file a target;
                             dnsx_output_file a target;
                             naabu_output_file a target;
                             urls_for_burp_file a target;
                             katana_output_file a target])
         (saved_files l).
Proof.
  induction 1 as [|e l He _ IH]; [constructor|].
  destruct e as [| | |path text [f|]|]; cbn [saved_files]; try exact IH.
  constructor; [|exact IH].
  inversion He as [| | | | | | |target p x ans Hdry Hin]; subst.
  split; [exact Hdry | now exists target].
Qed.

(** X14: whatever the input and whatever the tools answer, the only files
    [main] writes are the five stage files of some target (and none in a dry
    run); the only directory it creates is the output directory; the only
    files it reads are the list file and the detail file httpx wrote; and it
    leaves its own environment as it found it. It deletes nothing. *)
Theorem main_writes_only_stage_files (a : Args) (s : state OS) :
  Forall (fun saved =>
            args_dry_run a = false
            /\ exists target,
                 In saved.1 [subfinder_output_file a target;
                             dnsx_output_file a target;
                             naabu_output_file a target;
                             urls_for_burp_file a target;
                             katana_output_file a target])
         (saved_files (log (main a s)))
  /\ Forall (fun e =>
               match e with
               | EvMakedirs path _ => path = args_output_dir a
               | EvRead path _ =>
                   args_list a = Some path
                   \/ exists target, path = httpx_details_file a target
               | _ => True
               end)
            (log (main a s))
  /\ os_environ (final (main a s)) = os_environ s.
Proof.
  destruct (main_footprint a s) as [Hall Henv].
  split; [now apply footprint_saved_files|]. split; [|exact Henv].
  eapply Forall_impl; [exact Hall|].
  intros e He. destruct He; eauto.
Qed.

End LoopProperties.

(** ** File names *)

Section FileNames.
Import PyStr.

(** No slash anywhere in the text. *)
Lemma basename_after_slash (x b : string) :
  slashless b = true -> basename (x +:+ "/" +:+ b) = b.
Proof.
  intros Hb.
  assert (Hno : existsb (Ascii.eqb "/"%char) (list_ascii_of_string b) = false).
  { unfold slashless in Hb. induction b as [|c r IH]; [reflexivity|].
    cbn [list_ascii_of_string forallb existsb] in *.
    apply andb_prop in Hb as [Hc Hr].
    rewrite (IH Hr), orb_false_r. apply negb_true_iff in Hc.
    now rewrite Ascii.eqb_sym. }
  induction x as [|c r IH].
  - change (basename (String "/"%char b) = b). cbn [basename].
    rewrite Hno. reflexivity.
  - change (basename (String c (r +:+ "/" +:+ b)) = b).
    cbn [basename].
    assert (Hyes : existsb (Ascii.eqb "/"%char)
                     (list_ascii_of_string (r +:+ "/" +:+ b)) = true).
    { clear IH. induction r as [|d r IHr]; [reflexivity|].
      change (existsb (Ascii.eqb "/"%char)
                (d :: list_ascii_of_string (r +:+ "/" +:+ b)) = true).
      cbn [existsb]. rewrite IHr.
      apply orb_true_r. }
    rewrite Hyes. exact IH.
Qed.

Lemma basename_slashless (b : string) : slashless b = true -> basename b = b.
Proof.
  unfold slashless. destruct b as [|c r]; [reflexivity|].
  cbn [list_ascii_of_string forallb]. intros [Hc Hr]%andb_prop.
  cbn [basename].
  assert (Hno : existsb (Ascii.eqb "/"%char) (list_ascii_of_string r) = false).
  { induction r as [|d r IH]; [reflexivity|].
    cbn [list_ascii_of_string forallb existsb] in *.
    apply andb_prop in Hr as [Hd Hr].
    rewrite (IH Hr), orb_false_r. apply negb_true_iff in Hd.
    now rewrite Ascii.eqb_sym. }
  rewrite Hno. apply negb_true_iff in Hc. now rewrite Hc.
Qed.

Lemma ends_with_slash_split (a : string) :
  ends_with_slash a = true -> exists x, a = x +:+ "/".
Proof.
  induction a as [|c r IH]; [discriminate|].
  cbn [ends_with_slash]. destruct r as [|d r'].
  - intros Hc. apply Ascii.eqb_eq in Hc. subst c. now exists "".
  - intros Hr. destruct (IH Hr) as [x Hx]. exists (String c x).
    change (String c (String d r') = String c (x +:+ "/")).
    now rewrite <- Hx.
Qed.

Lemma slashless_app (x y : string) :
  slashless x = true -> slashless y = true -> slashless (x +:+ y) = true.
Proof.
  unfold slashless. intros Hx Hy. induction x as [|c r IH]; [exact Hy|].
  cbn [list_ascii_of_string forallb] in *.
  apply andb_prop in Hx as [Hc Hr].
  change (negb (c =? "/")%char
          && forallb (fun c0 => negb (c0 =? "/")%char)
               (list_ascii_of_string (r +:+ y)) = true).
  now rewrite Hc, (IH Hr).
Qed.

Lemma append_assoc (x y z : string) : (x +:+ y) +:+ z = x +:+ (y +:+ z).
Proof.
  induction x as [|c r IH]; [reflexivity|].
  change (String c ((r +:+ y) +:+ z) = String c (r +:+ (y +:+ z))).
  now rewrite IH.
Qed.

(** X15: for a target without a slash, every stage file is named by the target
    and the suffix of its stage, whatever the output directory is: relative or
    absolute, empty, with or without a slash at its end. The summary names the
    clean URL file by that name. *)
Theorem stage_file_is_named_by_target (a : Args) (t suffix : string) :
  slashless t = true ->
  slashless suffix = true ->
  basename (out_file a t suffix) = t +:+ suffix.
Proof.
  intros Ht Hs. pose proof (slashless_app t suffix Ht Hs) as Hb.
  unfold out_file, path_join.
  destruct (t +:+ suffix) as [|c r] eqn:E.
  - destruct (negb (truthy (args_output_dir a)) || _) eqn:Hd.
    + apply orb_prop in Hd as [Hd|Hd].
      * destruct (args_output_dir a); [reflexivity | discriminate Hd].
      * destruct (ends_with_slash_split _ Hd) as [x ->].
        rewrite append_assoc. now apply basename_after_slash.
    + now apply basename_after_slash.
  - assert (Hc : (c =? "/")%char = false).
    { unfold slashless in Hb. cbn [list_ascii_of_string forallb] in Hb.
      apply andb_prop in Hb as [Hc _]. now apply negb_true_iff in Hc. }
    assert (Hjoin :
      basename
        (if negb (truthy (args_output_dir a))
            || ends_with_slash (args_output_dir a)
         then args_output_dir a +:+ String c r
         else args_output_dir a +:+ "/" +:+ String c r) = String c r).
    { destruct (negb (truthy (args_output_dir a)) || _) eqn:Hd.
      - apply orb_prop in Hd as [Hd|Hd].
        + destruct (args_output_dir a); [|discriminate Hd].
          now apply basename_slashless.
        + destruct (ends_with_slash_split _ Hd) as [x ->].
          rewrite append_assoc. now apply basename_after_slash.
      - now apply basename_after_slash. }
    destruct c as [[] [] [] [] [] [] [] []]; try exact Hjoin;
      discriminate Hc.
Qed.

End FileNames.

Ltac emits_trivially :=
  repeat first
    [ apply emits_bind; [|intros ?]
    | apply emits_ret | apply emits_sys_exit | apply emits_raise
    | apply emits_continue | apply emits_get_current_input
    | apply emits_set_current_input | apply emits_get_environ
    | apply emits_abspath
    | apply emits_print; exact I
    | apply emits_when; intros ?
    | apply emits_subprocess_run; intros; exact I
    | apply emits_open_read; intros; exact I
    | apply emits_open_write; intros; exact I
    | apply emits_try_except;
      [|let e := fresh "e" in
        let h := fresh "h" in
        let Hh := fresh "Hh" in
        intros e h Hh; destruct e; cbv beta iota in Hh;
        try discriminate Hh; injection Hh as <-]
    | progress unfold print_step, print_warn, print_info, print_err,
        print_success, final_summary, extract_clean_urls
    | match goal with
      | |- emits _ (if ?b then _ else _) => destruct b
      end ].

Section SetupOrder.

Context {OS : Type} `{OSModel OS}.

Lemma check_each_before_setup (a : Args) (tools missing : list string) :
  emits (before_setup a) (check_each (OS:=OS) tools missing).
Proof.
  revert missing. induction tools as [|tool rest IH]; intros missing.
  - apply emits_ret.
  - cbn [check_each]. apply emits_bind; [|intros m'; apply IH].
    apply emits_try_except.
    + apply emits_bind.
      * apply emits_subprocess_run. intros ans. now exists tool.
      * intros _. apply emits_bind; [now apply emits_print|].
        intros _. apply emits_ret.
    + intros e h Hh. destruct e; cbv beta iota in Hh; try discriminate;
        injection Hh as <-;
        (apply emits_bind; [now apply emits_print | intros _; apply emits_ret]).
Qed.

Lemma check_tools_before_setup (a : Args) (tools : list string) :
  emits (before_setup a) (check_tools_installed (OS:=OS) tools).
Proof.
  unfold check_tools_installed.
  apply emits_bind; [now apply emits_print | intros _].
  apply emits_bind; [apply check_each_before_setup | intros missing].
  destruct missing.
  - now apply emits_print.
  - apply emits_bind; [now apply emits_print | intros _].
    apply emits_bind; [now apply emits_print | intros _].
    apply emits_sys_exit.
Qed.

Lemma load_targets_before_setup (a : Args) :
  emits (before_setup a) (load_targets (OS:=OS) a).
Proof.
  unfold load_targets.
  destruct (PyStr.truthy_opt (args_domain a)); [apply emits_ret|].
  apply emits_try_except.
  - destruct (args_list a) as [path|] eqn:El; [|apply emits_raise].
    apply emits_bind; [|intros content; apply emits_ret].
    apply emits_open_read. intros ans. exact El.
  - intros e h Hh. destruct e; cbv beta iota in Hh; try discriminate.
    injection Hh as <-. unfold print_err.
    apply emits_bind; [now apply emits_print | intros _].
    apply emits_sys_exit.
Qed.

Lemma process_target_no_makedirs (a : Args) (url : string)
    (env : gmap string string) (t : string) :
  emits no_makedirs (process_target (OS:=OS) a url env t).
Proof. unfold process_target. cbv zeta. emits_trivially. Qed.

(** X16: the output directory is the first thing [main] changes: before it,
    there are only the probes of the tool check, the read of the list file and
    console output; and when the directory cannot be created, nothing follows. *)
Theorem output_directory_is_made_first (a : Args) (s : state OS) :
  exists before after,
    log (main a s) = before ++ after
    /\ Forall (before_setup a) before
    /\ (after = []
        \/ exists ans rest,
             after = EvMakedirs (args_output_dir a) ans :: rest
             /\ Forall no_makedirs rest
             /\ (ans <> None ->
                 rest = [] /\ exists e, out (main a s) = Raised e)).
Proof.
  unfold main. rewrite bind_run.
  destruct (check_tools_before_setup a TOOL_CHAIN s) as [Hcheck _].
  destruct (check_tools_installed TOOL_CHAIN s) as [o1 s1 l1].
  cbn [out final log] in *.
  destruct o1 as [[]| |c|e]; cbn [log];
    try solve [exists l1, []; rewrite app_nil_r; auto].
  rewrite bind_run.
  destruct (load_targets_before_setup a s1) as [Hload _].
  destruct (load_targets a s1) as [o2 s2 l2]. cbn [out final log] in *.
  unfold prepend.
  destruct o2 as [targets| |c|e]; cbn [out final log];
    try solve [exists (l1 ++ l2), []; rewrite app_nil_r;
               split; [reflexivity | split; [now apply Forall_app | now left]]].
  destruct targets as [|t ts].
  - unfold print_err. rewrite bind_print. unfold prepend.
    cbn [out final log sys_exit].
    exists (l1 ++ l2
            ++ [EvPrint (Colors.RED +:+ "[✗] "
                         +:+ "No valid targets found in the input."
                         +:+ Colors.ENDC)]), [].
    rewrite !app_nil_r.
    split; [reflexivity|]. split; [|now left].
    apply Forall_app; split; [exact Hcheck|].
    apply Forall_app; split; [exact Hload|]. repeat constructor.
  - cbv zeta. rewrite bind_run. pysimpl.
    destruct (os_makedirs (args_output_dir a) (os_state s2))
      as [[f|] os3]; pysimpl.
    + exists (l1 ++ l2), [EvMakedirs (args_output_dir a) (Some f)].
      split; [now rewrite app_assoc|].
      split; [now apply Forall_app|]. right. do 2 eexists.
      split; [reflexivity|]. split; [constructor|].
      intros _. split; [reflexivity|].
      destruct f; eexists; reflexivity.
    + match goal with
      | |- context [EvMakedirs _ None :: log ?r] => set (tail := r)
      end.
      assert (Htail : Forall no_makedirs (log tail)).
      { subst tail.
        match goal with
        | |- Forall _ (log (?k ?st)) =>
            enough (Hk : emits no_makedirs k) by apply (Hk st)
        end.
        emits_trivially;
          apply emits_for_each; intros; apply process_target_no_makedirs. }
      clearbody tail.
      exists (l1 ++ l2), (EvMakedirs (args_output_dir a) None :: log tail).
      split; [now rewrite app_assoc|].
      split; [now apply Forall_app|]. right.
      exists None, (log tail). split; [reflexivity|].
      split; [exact Htail | congruence].
Qed.

End SetupOrder.

Section DryRun.

Context {OS : Type} `{OSModel OS}.

Lemma announced_app (l1 l2 : list event) :
  announced (l1 ++ l2) = announced l1 ++ announced l2.
Proof. unfold announced. now rewrite printed_app, List.filter_app. Qed.

Lemma announces_ret {A} (x : A) : announces (ret (OS:=OS) x) [].
Proof. intros s. repeat split. now exists x. Qed.

Lemma announces_bind {A B} (m : M OS A) (k : A -> M OS B) l1 l2 :
  announces m l1 -> (forall x, announces (k x) l2) ->
  announces (bind m k) (l1 ++ l2).
Proof.
  intros Hm Hk s. rewrite bind_run.
  destruct (Hm s) as ([x Hx] & Hl & He). rewrite Hx.
  destruct (Hk x (final (m s))) as ([y Hy] & Hl' & He').
  unfold prepend. cbn [out log].
  rewrite announced_app, effects_app, Hl, Hl', He, He'.
  repeat split. now exists y.
Qed.

Lemma announces_print (t : string) :
  is_announcement t = false -> announces (print (OS:=OS) t) [].
Proof.
  intros Ht s. split; [now exists tt|].
  unfold announced. cbn. now rewrite Ht.
Qed.

Lemma announces_get_current_input :
  announces (get_current_input (OS:=OS)) [].
Proof. intros s. repeat split. eexists. reflexivity. Qed.

Lemma announces_set_current_input v :
  announces (set_current_input (OS:=OS) v) [].
Proof. intros s. repeat split. now exists tt. Qed.

Lemma announces_abspath p : announces (abspath (OS:=OS) p) [].
Proof. intros s. repeat split. eexists. reflexivity. Qed.

Lemma announces_when_false (b : bool) (m : M OS unit) :
  b = false -> announces (when b m) [].
Proof. intros ->. apply announces_ret. Qed.

Lemma executing_line_announced (command : list string) :
  is_announcement (executing_line command) = true.
Proof. reflexivity. Qed.

Lemma announces_executing (command : list string) :
  announces (print (OS:=OS) (executing_line command))
            [executing_line command].
Proof.
  intros s. split; [now exists tt|]. split; [|reflexivity].
  unfold announced. cbn [print log printed List.filter].
  now rewrite executing_line_announced.
Qed.

Lemma announces_run_command_dry command input outf env :
  announces (run_command (OS:=OS) command input outf env true)
            [executing_line command].
Proof.
  unfold run_command.
  change [executing_line command]
    with ([executing_line command] ++ [] ++ [] ++ []).
  apply announces_bind; [apply announces_executing | intros _].
  apply announces_bind; [now apply announces_print | intros _].
  apply announces_bind; [|intros _; apply announces_ret].
  unfold when. destruct (PyStr.truthy_opt outf).
  - now apply announces_print.
  - apply announces_ret.
Qed.

Ltac announce :=
  repeat first
    [ apply announces_ret
    | apply announces_get_current_input
    | apply announces_set_current_input
    | apply announces_abspath
    | apply announces_run_command_dry
    | apply announces_when_false;
      first [reflexivity | apply andb_false_r]
    | apply announces_print; reflexivity
    | eapply announces_bind; [|intros ?]
    | progress unfold print_step, final_summary
    | match goal with
      | |- announces (if ?b then _ else _) _ => destruct b
      end ].

Lemma process_target_announces (a : Args) (url : string)
    (env : gmap string string) (t : string) :
  args_dry_run a = true ->
  announces (process_target (OS:=OS) a url env t)
            (map executing_line (stage_cmds a url t)).
Proof.
  intros Hdry.
  enough (Hall : exists lines,
             announces (process_target a url env t) lines
             /\ lines = map executing_line (stage_cmds a url t)).
  { now destruct Hall as (lines & Hlines & ->). }
  eexists. split.
  - unfold process_target. cbv zeta. rewrite Hdry. cbn [negb].
    announce.
  - reflexivity.
Qed.

Lemma announces_for_each (targets : list string)
    (body : string -> M OS unit) (plan : string -> list string) :
  (forall t, announces (body t) (plan t)) ->
  announces (for_each targets body) (List.concat (map plan targets)).
Proof.
  intros Hbody. induction targets as [|t ts IH]; [apply announces_ret|].
  intros s. cbn [for_each map List.concat].
  destruct (Hbody t s) as ([[] Hx] & Hl & He). rewrite Hx.
  destruct (IH (final (body t s))) as ([[] Hy] & Hl' & He').
  cbn [out log]. rewrite announced_app, effects_app, Hl, Hl', He, He'.
  repeat split. now exists tt.
Qed.

(** X17: in a dry run the loop goes through every target to the end of its
    iteration, whatever the targets are, and announces for each of them
    exactly the five stage commands, in pipeline order: no stage is skipped,
    and the seeding command is not announced even when a proxy is configured. *)
Theorem dry_run_announces_every_stage (a : Args) (url : string)
    (env : gmap string string) (targets : list string) (s : state OS) :
  args_dry_run a = true ->
  let r := for_each targets (process_target a url env) s in
  out r = Normal tt
  /\ announced (log r)
     = List.concat (map (fun t => map executing_line (stage_cmds a url t))
                   targets).
Proof.
  intros Hdry r. subst r.
  destruct (announces_for_each targets (process_target a url env)
              (fun t => map executing_line (stage_cmds a url t))
              (fun t => process_target_announces a url env t Hdry) s)
    as ([[] Hx] & Hl & _).
  now split.
Qed.

End DryRun.

(** The plan a dry run with a proxy prints for one target. *)
Example dry_run_plan_example :
  announced (log (for_each ["a.com"]
                    (process_target Examples.dry_args "http://127.0.0.1:8080"
                       ∅)
                    (Toy.start ∅)))
  = [executing_line ["subfinder"; "-d"; "a.com"; "-silent"];
     executing_line ["dnsx"; "-silent"];
     executing_line
       ["naabu"; "-p"; "80,443,8080,8443"; "-nmap-cli"; "-silent"];
     executing_line
       ["httpx"; "-sc"; "-cl"; "-title"; "-probe"; "-silent"; "-o";
        "recon_results/a.com_httpx_details.txt"; "-http-proxy";
        "http://127.0.0.1:8080"];
     executing_line
       ["katana"; "-jc"; "-aff"; "-kf"; "all"; "-silent"; "-proxy";
        "http://127.0.0.1:8080"]].
Proof. vm_compute. reflexivity. Qed.

(** X17, on a concrete run. *)
Lemma dry_run_announces_every_stage_witness :
  let a := Examples.dry_args in
  let r := for_each ["a.com"; "b.com"] (process_target a "" ∅)
             (Toy.start ∅) in
  args_dry_run a = true
  /\ out r = Normal tt
  /\ announced (log r)
     = List.concat (map (fun t => map executing_line (stage_cmds a "" t))
                   ["a.com"; "b.com"]).
Proof.
  cbv zeta. split; [reflexivity|].
  exact (dry_run_announces_every_stage Examples.dry_args "" ∅
           ["a.com"; "b.com"] (Toy.start ∅) eq_refl).
Defined.

Section LiveTrace.

Context {OS : Type} `{OSModel OS}.

Lemma traced_silent {A} (m : M OS A) :
  (forall s, log (m s) = []) -> traced m.
Proof. intros Hm s. now rewrite Hm. Qed.

Lemma traced_print (t : string) :
  is_announcement t = false -> traced (print (OS:=OS) t).
Proof. intros Ht s. unfold announced. cbn. now rewrite Ht. Qed.

Lemma traced_bind {A B} (m : M OS A) (k : A -> M OS B) :
  traced m -> (forall x, traced (k x)) -> traced (bind m k).
Proof.
  intros Hm Hk s. rewrite bind_run. pose proof (Hm s) as Hs.
  destruct (out (m s)) as [x| |c|e]; cbn [log]; try exact Hs.
  unfold prepend. cbn [log].
  now rewrite announced_app, launched_app, map_app, Hs, Hk.
Qed.

Lemma traced_try_except {A} (body : M OS A)
    (handler : exn -> option (M OS A)) :
  traced body ->
  (forall e h, handler e = Some h -> traced h) ->
  traced (try_except body handler).
Proof.
  intros Hb Hh s. unfold try_except. pose proof (Hb s) as Hs.
  destruct (out (body s)) as [x| |c|e]; try exact Hs.
  destruct (handler e) as [h|] eqn:Ee; [|exact Hs].
  cbn [log].
  now rewrite announced_app, launched_app, map_app, Hs, (Hh e h Ee).
Qed.

Lemma traced_when (b : bool) (m : M OS unit) :
  (b = true -> traced m) -> traced (when b m).
Proof. destruct b; simpl; [auto | intros _; now apply traced_silent]. Qed.

Lemma traced_for_each (targets : list string) (body : string -> M OS unit) :
  (forall t, traced (body t)) -> traced (for_each targets body).
Proof.
  intros Hb. induction targets as [|t ts IH]; [now apply traced_silent|].
  intros s. cbn [for_each]. pose proof (Hb t s) as Hs.
  destruct (out (body t s)) as [x| |c|e]; cbn [log]; try exact Hs;
    now rewrite announced_app, launched_app, map_app, Hs, IH.
Qed.

Lemma traced_open_write path text : traced (open_write (OS:=OS) path text).
Proof. intros s. reflexivity. Qed.

Lemma traced_open_read path : traced (open_read (OS:=OS) path).
Proof. intros s. reflexivity. Qed.

Lemma announced_executing (command : list string) :
  announced [EvPrint (executing_line command)] = [executing_line command].
Proof.
  unfold announced. cbn [printed List.filter].
  now rewrite executing_line_announced.
Qed.

Lemma quiet_silent {A} (m : M OS A) :
  (forall s, log (m s) = []) -> quiet m.
Proof. intros Hm s. now rewrite Hm. Qed.

Lemma quiet_print (t : string) :
  is_announcement t = false -> quiet (print (OS:=OS) t).
Proof. intros Ht s. unfold announced. cbn. now rewrite Ht. Qed.

Lemma quiet_open_write path text : quiet (open_write (OS:=OS) path text).
Proof. intros s. split; reflexivity. Qed.

Lemma quiet_bind {A B} (m : M OS A) (k : A -> M OS B) :
  quiet m -> (forall x, quiet (k x)) -> quiet (bind m k).
Proof.
  intros Hm Hk s. rewrite bind_run. destruct (Hm s) as [Ha Hl].
  destruct (out (m s)) as [x| |c|e]; cbn [log]; try (split; assumption).
  unfold prepend. cbn [log]. destruct (Hk x (final (m s))) as [Ha' Hl'].
  now rewrite announced_app, launched_app, Ha, Hl, Ha', Hl'.
Qed.

Lemma quiet_when (b : bool) (m : M OS unit) : quiet m -> quiet (when b m).
Proof. destruct b; simpl; [auto | intros _; now apply quiet_silent]. Qed.

Ltac hush :=
  repeat first
    [ apply quiet_bind; [|intros ?]
    | apply quiet_when
    | apply quiet_open_write
    | apply quiet_print; reflexivity
    | apply quiet_silent; reflexivity ].

Lemma launches_bind {A B} command (m : M OS A) (k : A -> M OS B) :
  launches command m -> (forall x, quiet (k x)) ->
  launches command (bind m k).
Proof.
  intros Hm Hk s. rewrite bind_run. destruct (Hm s) as [Ha Hl].
  destruct (out (m s)) as [x| |c|e]; cbn [log]; try (split; assumption).
  unfold prepend. cbn [log]. destruct (Hk x (final (m s))) as [Ha' Hl'].
  now rewrite announced_app, launched_app, Ha, Hl, Ha', Hl'.
Qed.

Lemma launches_try_except {A} command (body : M OS A)
    (handler : exn -> option (M OS A)) :
  launches command body ->
  (forall e h, handler e = Some h -> quiet h) ->
  launches command (try_except body handler).
Proof.
  intros Hb Hh s. unfold try_except. destruct (Hb s) as [Ha Hl].
  destruct (out (body s)) as [x| |c|e]; try (split; assumption).
  destruct (handler e) as [h|] eqn:Ee; [|split; assumption].
  cbn [log]. destruct (Hh e h Ee (final (body s))) as [Ha' Hl'].
  now rewrite announced_app, launched_app, Ha, Hl, Ha', Hl'.
Qed.

Lemma launches_subprocess_run command input env :
  command <> [] ->
  launches command (subprocess_run (OS:=OS) command input env).
Proof.
  intros Hne s. destruct command as [|prog rest]; [congruence|].
  split; reflexivity.
Qed.

(** A live [run_command] announces its command, and launches it. *)
Lemma traced_run_command command input outf env :
  command <> [] ->
  traced (run_command (OS:=OS) command input outf env false).
Proof.
  intros Hne s.
  unfold run_command. rewrite bind_print. cbv iota.
  unfold prepend. cbn [log].
  fold (executing_line command).
  rewrite announced_app, launched_app, announced_executing.
  change (launched [EvPrint (executing_line command)]) with
    (@nil (list string)).
  cbn [app].
  match goal with
  | |- _ :: announced (log (?m s)) = _ =>
      enough (Hr : launches command m)
        by (destruct (Hr s) as [-> ->]; reflexivity)
  end.
  apply launches_try_except.
  - apply launches_bind; [now apply launches_subprocess_run|].
    intros result. hush.
  - intros e h Hh. destruct e; injection Hh as <-.
    + destruct command as [|prog rest]; [congruence|]. hush.
    + hush.
    + hush.
Qed.

Ltac trace :=
  repeat first
    [ apply traced_run_command; discriminate
    | apply traced_bind; [|intros ?]
    | apply traced_when; intros ?
    | apply traced_open_write
    | apply traced_open_read
    | apply traced_print; reflexivity
    | apply traced_silent; reflexivity
    | apply traced_try_except;
      [|let e := fresh "e" in
        let h := fresh "h" in
        let Hh := fresh "Hh" in
        intros e h Hh; destruct e; cbv beta iota in Hh;
        try discriminate Hh; injection Hh as <-]
    | progress unfold print_step, print_warn, print_success, final_summary,
        extract_clean_urls
    | match goal with
      | |- traced (if ?b then _ else _) => destruct b
      end ].

Lemma process_target_traced (a : Args) (url : string)
    (env : gmap string string) (t : string) :
  args_dry_run a = false ->
  traced (process_target (OS:=OS) a url env t).
Proof.
  intros Hlive. unfold process_target. cbv zeta. rewrite Hlive.
  trace.
Qed.

(** X18: in a live run of the loop the console tells what was run: the
    commands announced are exactly the commands launched, in the same order,
    however the run ends (early stops, failing tools and fatal errors
    included). *)
Theorem live_run_announces_what_it_launches (a : Args) (url : string)
    (env : gmap string string) (targets : list string) (s : state OS) :
  args_dry_run a = false ->
  let r := for_each targets (process_target a url env) s in
  announced (log r) = map executing_line (launched (log r)).
Proof.
  intros Hlive r. subst r.
  apply (traced_for_each targets (process_target a url env)).
  intros t. now apply process_target_traced.
Qed.

End LiveTrace.

(** X18, on a concrete run. *)
Lemma live_run_announces_what_it_launches_witness :
  let a := Examples.proxy_args in
  let r := for_each ["void.test"; "a.com"]
             (process_target a "http://127.0.0.1:8080" ∅) (Toy.start ∅) in
  args_dry_run a = false
  /\ announced (log r) = map executing_line (launched (log r)).
Proof.
  cbv zeta. split; [reflexivity|].
  exact (live_run_announces_what_it_launches Examples.proxy_args
           "http://127.0.0.1:8080" ∅ ["void.test"; "a.com"] (Toy.start ∅)
           eq_refl).
Defined.

(** ** The properties on concrete runs *)

(** X5, on a concrete run. *)
Lemma successful_run_saves_captured_output_witness :
  subfinder_cmd "a.com" <> []
  /\ PyStr.truthy "out.txt" = true
  /\ os_exec (subfinder_cmd "a.com") None
       (child_environment (os_environ (Toy.start ∅)) None)
       (os_state (Toy.start ∅))
     = (Exited 0 ("www.a.com" +:+ NL) "",
        Toy.mkWorld ∅ ∅ [("subfinder", None)])
  /\ os_write "out.txt" ("www.a.com" +:+ NL)
       (Toy.mkWorld ∅ ∅ [("subfinder", None)])
     = (None, Toy.mkWorld (<["out.txt" := "www.a.com" +:+ NL]> ∅) ∅
                [("subfinder", None)])
  /\ let r := run_command (subfinder_cmd "a.com") None (Some "out.txt") None
                false (Toy.start ∅) in
     out r = Normal (mkCompletedProcess (subfinder_cmd "a.com") 0
                       ("www.a.com" +:+ NL) "")
     /\ fs_changes (log r) = [EvWrite "out.txt" ("www.a.com" +:+ NL) None]
     /\ os_state (final r)
        = Toy.mkWorld (<["out.txt" := "www.a.com" +:+ NL]> ∅) ∅
            [("subfinder", None)].
Proof.
  assert (Hne : subfinder_cmd "a.com" <> []) by discriminate.
  split; [exact Hne|]. split; [reflexivity|].
  split; [reflexivity|]. split; [reflexivity|].
  exact (successful_run_saves_captured_output (subfinder_cmd "a.com") None
           "out.txt" None (Toy.start ∅) ("www.a.com" +:+ NL) "" _ _
           Hne eq_refl eq_refl eq_refl).
Defined.

(** X6, on a concrete run. *)
Lemma unlaunchable_tool_exits_program_witness :
  Cases.unknown_cmd <> []
  /\ os_exec Cases.unknown_cmd None
       (child_environment (os_environ (Toy.start ∅)) None)
       (os_state (Toy.start ∅))
     = (ExecError Cases.no_such_file, Toy.mkWorld ∅ ∅ [("nmap", None)])
  /\ let r := run_command Cases.unknown_cmd None (Some "out.txt") None false
                (Toy.start ∅) in
     out r = SysExit 1
     /\ last (printed (log r))
        = Some (critical_line (exn_of Cases.no_such_file))
     /\ fs_changes (log r) = [].
Proof.
  assert (Hne : Cases.unknown_cmd <> []) by discriminate.
  split; [exact Hne|]. split; [reflexivity|].
  exact (unlaunchable_tool_exits_program Cases.unknown_cmd None
           (Some "out.txt") None (Toy.start ∅) Cases.no_such_file _
           Hne eq_refl).
Defined.

(** X7, on a concrete run. *)
Lemma unwritable_output_exits_program_witness :
  dnsx_cmd <> []
  /\ PyStr.truthy "out.txt" = true
  /\ os_exec dnsx_cmd (Some "a.com")
       (child_environment (os_environ Faulty.start) None)
       (os_state Faulty.start)
     = (Exited 0 ("found" +:+ NL) "", Faulty.Locked)
  /\ os_write "out.txt" ("found" +:+ NL) Faulty.Locked
     = (Some Faulty.denied, Faulty.Locked)
  /\ let r := run_command dnsx_cmd (Some "a.com") (Some "out.txt") None false
                Faulty.start in
     out r = SysExit 1
     /\ launched (log r) = [dnsx_cmd]
     /\ last (printed (log r)) = Some (critical_line (exn_of Faulty.denied)).
Proof.
  assert (Hne : dnsx_cmd <> []) by discriminate.
  split; [exact Hne|]. split; [reflexivity|].
  split; [reflexivity|]. split; [reflexivity|].
  exact (unwritable_output_exits_program dnsx_cmd (Some "a.com") "out.txt"
           None Faulty.start ("found" +:+ NL) "" Faulty.denied _ _
           Hne eq_refl eq_refl eq_refl).
Defined.

(** X8, on a concrete run. *)
Lemma tool_check_probes_every_tool_witness :
  (forall e, out (check_tools_installed TOOL_CHAIN (Toy.start ∅)) <> Raised e)
  /\ let r := check_tools_installed TOOL_CHAIN (Toy.start ∅) in
     launched (log r) = map (fun tool => ["which"; tool]) TOOL_CHAIN
     /\ fs_changes (log r) = []
     /\ match failed_tools (log r) with
        | [] => out r = Normal tt
        | _ :: _ =>
            out r = SysExit 1
            /\ In (NL +:+ Colors.RED +:+ Colors.BOLD
                   +:+ "[FATAL] The following tools are missing: "
                   +:+ PyStr.join ", " (failed_tools (log r))
                   +:+ Colors.ENDC)
                  (printed (log r))
        end.
Proof.
  assert (Hno : forall e,
             out (check_tools_installed TOOL_CHAIN (Toy.start ∅)) <> Raised e)
    by (intros e; vm_compute; discriminate).
  split; [exact Hno|].
  exact (tool_check_probes_every_tool TOOL_CHAIN (Toy.start ∅) Hno).
Defined.

(** X9, on a concrete run. *)
Lemma only_missing_list_file_is_handled_witness :
  PyStr.truthy_opt (args_domain Examples.list_args) = false
  /\ args_list Examples.list_args = Some "targets.txt"
  /\ os_read "targets.txt" (os_state (Toy.start ∅))
     = (inl Cases.no_such_file, Toy.empty_world)
  /\ let r := load_targets Examples.list_args (Toy.start ∅) in
     effects (log r) = [EvRead "targets.txt" (inl Cases.no_such_file)]
     /\ out r = SysExit 1
     /\ printed (log r)
        = [Colors.RED +:+ "[✗] "
           +:+ ("Input list file '" +:+ "targets.txt" +:+ "' not found.")
           +:+ Colors.ENDC].
Proof.
  split; [reflexivity|]. split; [reflexivity|]. split; [reflexivity|].
  exact (only_missing_list_file_is_handled Examples.list_args "targets.txt"
           (Toy.start ∅) Cases.no_such_file Toy.empty_world
           eq_refl eq_refl eq_refl).
Defined.

(** X10, on a concrete run. *)
Lemma no_targets_exits_before_setup_witness :
  let s := Toy.start_in Cases.blank_list_world ∅ in
  out (check_tools_installed TOOL_CHAIN s) = Normal tt
  /\ out (load_targets Examples.list_args
            (final (check_tools_installed TOOL_CHAIN s))) = Normal []
  /\ let r := main Examples.list_args s in
     out r = SysExit 1
     /\ fs_changes (log r) = []
     /\ launched (log r) = map (fun tool => ["which"; tool]) TOOL_CHAIN
     /\ last (printed (log r))
        = Some (Colors.RED +:+ "[✗] "
                +:+ "No valid targets found in the input." +:+ Colors.ENDC).
Proof.
  cbv zeta.
  assert (Hcheck :
    out (check_tools_installed TOOL_CHAIN
           (Toy.start_in Cases.blank_list_world ∅)) = Normal tt)
    by (vm_compute; reflexivity).
  assert (Hload :
    out (load_targets Examples.list_args
           (final (check_tools_installed TOOL_CHAIN
                     (Toy.start_in Cases.blank_list_world ∅)))) = Normal [])
    by (vm_compute; reflexivity).
  split; [exact Hcheck|]. split; [exact Hload|].
  exact (no_targets_exits_before_setup Examples.list_args
           (Toy.start_in Cases.blank_list_world ∅) Hcheck Hload).
Defined.

(** X11, on a concrete run. *)
Lemma completed_iteration_files_witness :
  let a := Examples.live_args in
  let r := process_target a "" ∅ "a.com" (Toy.start ∅) in
  args_dry_run a = false
  /\ out r = Normal tt
  /\ exists x1 x2 x3 content a5,
       map (fun c => (ec_cmd c, ec_input c)) (take 5 (execs (log r)))
       = [(subfinder_cmd "a.com", None); (dnsx_cmd, Some x1);
          (naabu_cmd, Some x2); (httpx_cmd a "" "a.com", Some x3);
          (katana_cmd a "", Some (urls_text content))]
       /\ read_answers (log r) = [inr content]
       /\ ec_answer <$> execs (log r) !! 4%nat = Some a5
       /\ saved_files (log r)
          = [(subfinder_output_file a "a.com", x1);
             (dnsx_output_file a "a.com", x2);
             (naabu_output_file a "a.com", x3);
             (urls_for_burp_file a "a.com", urls_text content)]
            ++ saved_files
                 (saved_output (Some (katana_output_file a "a.com")) a5).
Proof.
  cbv zeta.
  assert (Hout :
    out (process_target Examples.live_args "" ∅ "a.com" (Toy.start ∅))
    = Normal tt) by (vm_compute; reflexivity).
  split; [reflexivity|]. split; [exact Hout|].
  exact (completed_iteration_files Examples.live_args "" ∅ "a.com"
           (Toy.start ∅) eq_refl Hout).
Defined.

(** The files of that run, written out. *)
Example completed_iteration_files_example :
  saved_files (log (process_target Examples.live_args "" ∅ "a.com"
                      (Toy.start ∅)))
  = [("recon_results/a.com_subfinder.txt", "www.a.com" +:+ NL);
     ("recon_results/a.com_dnsx.txt", "www.a.com" +:+ NL);
     ("recon_results/a.com_naabu.txt", "www.a.com" +:+ NL);
     ("recon_results/a.com_urls_for_burp.txt",
      "https://a.com" +:+ NL +:+ "https://b.com");
     ("recon_results/a.com_katana_crawled_paths.txt",
      "https://a.com/login" +:+ NL)].
Proof. vm_compute. reflexivity. Qed.

(** X12, on a concrete run. *)
Lemma early_stop_files_witness :
  let a := Examples.void_args in
  let r := process_target a "" ∅ "void.test" (Toy.start ∅) in
  let n := stages_run (log r) in
  let files := [subfinder_output_file a "void.test";
                dnsx_output_file a "void.test";
                naabu_output_file a "void.test";
                urls_for_burp_file a "void.test"] in
  args_dry_run a = false
  /\ out r = LoopContinue
  /\ exists earlier own,
       saved_files (log r) = earlier ++ own
       /\ map fst earlier = take (n - 1) files
       /\ Forall (fun saved => PyStr.truthy saved.2 = true) earlier
       /\ (own = []
           \/ exists path, files !! (n - 1)%nat = Some path
                           /\ (2 <= n)%nat /\ own = [(path, "")]).
Proof.
  cbv zeta.
  assert (Hout :
    out (process_target Examples.void_args "" ∅ "void.test" (Toy.start ∅))
    = LoopContinue) by (vm_compute; reflexivity).
  split; [reflexivity|]. split; [exact Hout|].
  exact (early_stop_files Examples.void_args "" ∅ "void.test"
           (Toy.start ∅) eq_refl Hout).
Defined.

(** X13, on a concrete run. *)
Lemma every_target_is_enumerated_once_witness :
  let a := Examples.live_args in
  let r := for_each ["void.test"; "a.com"] (process_target a "" ∅)
             (Toy.start ∅) in
  args_dry_run a = false
  /\ ~ aborted (out r)
  /\ subfinder_runs (log r) = map subfinder_cmd ["void.test"; "a.com"].
Proof.
  cbv zeta.
  assert (Hrun :
    ~ aborted (out (for_each ["void.test"; "a.com"]
                      (process_target Examples.live_args "" ∅)
                      (Toy.start ∅))))
    by (vm_compute; tauto).
  split; [reflexivity|]. split; [exact Hrun|].
  exact (every_target_is_enumerated_once Examples.live_args "" ∅
           ["void.test"; "a.com"] (Toy.start ∅) eq_refl Hrun).
Defined.

(** X15, on a concrete run. *)
Lemma stage_file_is_named_by_target_witness :
  slashless "a.com" = true
  /\ slashless "_urls_for_burp.txt" = true
  /\ PyStr.basename (out_file Examples.live_args "a.com" "_urls_for_burp.txt")
     = "a.com" +:+ "_urls_for_burp.txt".
Proof.
  split; [reflexivity|]. split; [reflexivity|].
  exact (stage_file_is_named_by_target Examples.live_args "a.com"
           "_urls_for_burp.txt" eq_refl eq_refl).
Defined.

(** * The statements about whole runs *)

(** ** A run of the loop, split into its iterations *)

Section LoopLemmas.

Context {OS : Type} `{OSModel OS}.

Lemma for_each_log (targets : list string) (body : string -> M OS unit)
    (s : state OS) :
  log (for_each targets body s)
  = List.concat (map (fun it => log it.2) (iterations targets body s)).
Proof.
  revert s. induction targets as [|t rest IH]; intros s; [reflexivity|].
  cbn [for_each iterations map List.concat fst snd].
  destruct (out (body t s)) as [[]| |c|e]; cbn [log map List.concat];
    rewrite ?IH, ?app_nil_r; reflexivity.
Qed.



(** Every iteration of the loop is an iteration of the body. *)
Lemma iterations_body (targets : list string) (body : string -> M OS unit)
    (P : string -> result OS unit -> Prop) (s : state OS) :
  (forall t s', P t (body t s')) ->
  Forall (fun it => P it.1 it.2) (iterations targets body s).
Proof.
  intros HP. revert s. induction targets as [|t rest IH]; intros s.
  - constructor.
  - cbn [iterations]. constructor; [apply HP|].
    destruct (out (body t s)); auto.
Qed.

End LoopLemmas.

(** ** The stages an iteration went through *)

Section Counting.

Context {OS : Type} `{OSModel OS}.


(** The stage at which a live iteration stopped early. *)
Lemma iteration_stop a url env t (r : result OS unit) :
  iteration_shape a url env t r ->
  out r = LoopContinue ->
  let n := stages_reached (log r) in
  (1 <= n <= 4)%nat
  /\ first_silent_stage (log r) = Some n
  /\ launched (log r) = firstn n (stage_cmds a url t)
  /\ prints_last (log r) [stop_warning n].
Proof.
  intros Hshape Hout.
  destruct Hshape
    as [o s' l Habort _
       |a1 s' l Heff Hy1 Hp
       |a1 a2 s' l Heff Hy1 Hy2 Hp
       |a1 a2 a3 s' l Heff Hy1 Hy2 Hy3 Hp
       |a1 a2 a3 a4 tx s' l Heff Hy1 Hy2 Hy3 Hp
       |a1 a2 a3 a4 content s' l Heff Hy1 Hy2 Hy3 Hy4 Hp
       |a1 a2 a3 a4 content tx s' l Heff Hy1 Hy2 Hy3 Hp
       |a1 a2 a3 a4 a5 content seeding s' l Heff Hy1 Hy2 Hy3 Hy4 Hseed Hp];
    cbn [out final log os_state] in *.
  1: subst o; destruct Habort.
  7: discriminate Hout.
  all: cbv zeta.
  all: unfold stages_reached, first_silent_stage, stage_output,
         probe_yield, launched.
  all: unfold effects_upto4, effects_upto3, effects_upto2, effects_upto1,
         stage_effects in Heff.
  all: project_hyps; project_log.
  all: unfold urls_text in *.
  all: simpl;
    repeat (first [rewrite Hy1 | rewrite Hy2 | rewrite Hy3 | rewrite Hy4];
            simpl).
  all: try (destruct (exited_zero a4); simpl;
            repeat (first [rewrite Hy4]; simpl)).
  all: repeat split; solve [lia | exact Hp].
Qed.

End Counting.

(** ** The commands of an iteration, in order *)

Section WithinLemmas.

Context {OS : Type} `{OSModel OS}.

Lemma launched_no_exec (l : list event) : Forall no_exec l -> launched l = [].
Proof.
  unfold launched. induction 1 as [|e l He _ IH]; [reflexivity|].
  destruct e; cbn [execs]; solve [exact IH | destruct He].
Qed.

Lemma runs_within_silent {A} (m : M OS A) :
  emits no_exec m -> runs_within [] m.
Proof.
  intros Hm s. destruct (Hm s) as [Hl _].
  rewrite (launched_no_exec _ Hl). split; [now exists 0%nat | reflexivity].
Qed.

Lemma firstn_within {X} (k : nat) (c1 c2 : list X) :
  exists k', firstn k c1 = firstn k' (c1 ++ c2).
Proof.
  exists (Nat.min k (List.length c1)).
  rewrite List.firstn_app.
  replace (Nat.min k (List.length c1) - List.length c1)%nat with 0%nat by lia.
  cbn [firstn]. rewrite app_nil_r.
  destruct (Nat.le_ge_cases k (List.length c1)) as [Hle|Hge].
  - now rewrite Nat.min_l.
  - rewrite Nat.min_r by exact Hge.
    now rewrite !List.firstn_all2 by lia.
Qed.

Lemma runs_within_bind {A B} c1 c2 (m : M OS A) (k : A -> M OS B) :
  runs_within c1 m -> (forall x, runs_within c2 (k x)) ->
  runs_within (c1 ++ c2) (bind m k).
Proof.
  intros Hm Hk s. rewrite bind_run. destruct (Hm s) as [[k1 Hk1] Hall].
  destruct (out (m s)) as [x| |c|e] eqn:Eo; cbn [log out].
  - unfold prepend. cbn [log out].
    destruct (Hk x (final (m s))) as [[k2 Hk2] Hall2].
    rewrite launched_app, (Hall (ex_intro _ x eq_refl)). split.
    + exists (List.length c1 + k2)%nat.
      rewrite List.firstn_app_2. now rewrite Hk2.
    + intros Hn. now rewrite (Hall2 Hn).
  - split; [rewrite Hk1; apply firstn_within | intros [x Hx]; discriminate].
  - split; [rewrite Hk1; apply firstn_within | intros [x Hx]; discriminate].
  - split; [rewrite Hk1; apply firstn_within | intros [x Hx]; discriminate].
Qed.

Lemma runs_within_when c (b : bool) (m : M OS unit) :
  runs_within c m -> runs_within (if b then c else []) (when b m).
Proof.
  destruct b; cbn [when]; [auto|]. intros _.
  apply runs_within_silent, emits_ret.
Qed.

Lemma runs_within_run_command command input outf env :
  command <> [] ->
  runs_within [command] (run_command (OS:=OS) command input outf env false).
Proof.
  intros Hne s.
  assert (Hl : launched
                 (log (run_command command input outf env false s))
               = [command]).
  { unfold launched.
    destruct (run_command_outcome command input outf env s Hne)
      as [ans rc se os' l Hl|so se f os' l Hl|f os' l Hl]; cbn [log];
      rewrite <- execs_effects, Hl.
    - unfold run_effects. cbn [execs map ec_cmd].
      now rewrite execs_saved_output.
    - reflexivity.
    - reflexivity. }
  rewrite Hl. split; [now exists 1%nat | reflexivity].
Qed.

Ltac within :=
  repeat first
    [ eapply runs_within_run_command; discriminate
    | eapply runs_within_bind; [|intros ?]
    | apply runs_within_silent; solve [emits_trivially]
    | eapply runs_within_when ].

(** The child processes of a live iteration are the first of its stage
    commands and, after all five, the seeding run. *)
Lemma process_target_within (a : Args) (url : string)
    (env : gmap string string) (t : string) :
  args_dry_run a = false ->
  runs_within (stage_cmds a url t ++ seeder_cmds a url t)
              (process_target (OS:=OS) a url env t).
Proof.
  intros Hlive.
  enough (Hall : exists cmds,
             runs_within cmds (process_target a url env t)
             /\ cmds = stage_cmds a url t ++ seeder_cmds a url t).
  { now destruct Hall as (cmds & Hc & ->). }
  eexists. split.
  - unfold process_target. cbv zeta. rewrite Hlive. cbn [negb].
    within.
  - unfold seeder_cmds, stage_cmds.
    destruct (PyStr.truthy_opt (args_proxy a)); reflexivity.
Qed.

End WithinLemmas.

(** ** The number of stage commands per target *)

Section StageCount.

Context {OS : Type} `{OSModel OS}.


End StageCount.


(** The same run, evaluated: one stage for the first target, five for the
    second. *)
Example stage_count_example :
  let a := Examples.live_args in
  let its := iterations ["void.test"; "a.com"] (process_target a "" ∅)
               (Toy.start ∅) in
  map (fun it => (it.1, out it.2, stale_probe (log it.2),
                  stages_reached (log it.2),
                  List.length (launched (log it.2)))) its
  = [("void.test", LoopContinue, false, 1%nat, 1%nat);
     ("a.com", Normal tt, false, 5%nat, 5%nat)].
Proof. vm_compute. reflexivity. Qed.


(** ** The summary block on the console *)

Ltac plain_step :=
  first
    [ apply emits_bind; [|intros ?]
    | apply emits_ret | apply emits_sys_exit | apply emits_raise
    | apply emits_continue | apply emits_get_current_input
    | apply emits_set_current_input | apply emits_get_environ
    | apply emits_abspath
    | apply emits_print; unfold not_summary; reflexivity
    | apply emits_when; intros ?
    | apply emits_subprocess_run; intros; exact I
    | apply emits_open_read; intros; exact I
    | apply emits_open_write; intros; exact I
    | apply emits_try_except;
      [|let e := fresh "e" in
        let h := fresh "h" in
        let Hh := fresh "Hh" in
        intros e h Hh; destruct e; cbv beta iota in Hh;
        try discriminate Hh; injection Hh as <-]
    | progress unfold print_step, print_warn, print_info, print_err,
        print_success, extract_clean_urls
    | match goal with
      | |- emits _ (if ?b then _ else _) => destruct b
      end ].

Section SummaryLemmas.

Context {OS : Type} `{OSModel OS}.

Lemma summaries_app (l1 l2 : list event) :
  summaries (l1 ++ l2) = summaries l1 ++ summaries l2.
Proof. unfold summaries. now rewrite printed_app, List.filter_app. Qed.

Lemma summaries_plain (l : list event) :
  Forall not_summary l -> summaries l = [].
Proof.
  unfold summaries. induction 1 as [|e l He _ IH]; [reflexivity|].
  destruct e; cbn [printed List.filter]; try exact IH.
  cbn in He. now rewrite He.
Qed.

Lemma summary_lines_all (a : Args) (t dir : string) :
  List.filter is_summary_line (summary_lines a t dir) = summary_lines a t dir.
Proof.
  unfold summary_lines.
  destruct (PyStr.truthy_opt (args_proxy a)); reflexivity.
Qed.

Lemma summarised_bind {A B} a t (m : M OS A) (k : A -> M OS B) :
  emits not_summary m -> (forall x, summarised a t (k x)) ->
  summarised a t (bind m k).
Proof.
  intros Hm Hk s. rewrite bind_run. destruct (Hm s) as [Hl _].
  pose proof (summaries_plain _ Hl) as Hs.
  destruct (out (m s)) as [x| |c|e]; cbn [log out final]; try exact Hs.
  unfold prepend. cbn [log out final].
  now rewrite summaries_app, Hs, Hk.
Qed.

Lemma summarised_final_summary a t :
  summarised a t (final_summary (OS:=OS) a t).
Proof.
  intros s. rewrite (final_summary_run a t s). cbn [out final log].
  unfold summaries. rewrite printed_prints. apply summary_lines_all.
Qed.

Lemma run_command_plain command input outf env (dry : bool) :
  emits not_summary (run_command (OS:=OS) command input outf env dry).
Proof.
  unfold run_command.
  apply emits_bind; [repeat plain_step | intros _].
  destruct dry; [repeat plain_step|].
  apply emits_try_except; [repeat plain_step|].
  intros e h Hh. destruct e as [rc so se|t|c t]; injection Hh as <-.
  - destruct command as [|prog rest]; repeat plain_step.
  - repeat plain_step.
  - repeat plain_step.
Qed.

Ltac plainly := repeat first [apply run_command_plain | plain_step].

Ltac summarise :=
  repeat lazymatch goal with
    | |- summarised _ _ (final_summary _ _) =>
        apply summarised_final_summary
    | |- summarised _ _ (bind _ _) =>
        apply summarised_bind; [solve [plainly] | intros ?]
    end.

Lemma process_target_summarised (a : Args) (url : string)
    (env : gmap string string) (t : string) :
  summarised a t (process_target (OS:=OS) a url env t).
Proof. unfold process_target. cbv zeta. summarise. Qed.

End SummaryLemmas.

Section SummaryClaim.

Context {OS : Type} `{OSModel OS}.

Lemma prints_last_one (l : list event) (w : string) :
  prints_last l [w] -> last (printed l) = Some w.
Proof. intros [pre ->]. apply last_snoc. Qed.

(** C4 (as the code has it): the summary block is printed for the targets
    whose iteration runs through all five stages, and for no other. An
    iteration that returns has announced the five stage commands (in a live
    run it has launched them, and the seeding run a proxy asks for) and
    ends its output with the summary block, printed once; every dry
    iteration is one. An iteration that stops early has launched the first
    [n] stages, where [n], from 1 to 4, is the first stage without output;
    it ends its output with the warning of stage [n] and prints no line of
    a summary block; nor does an iteration that exits or raises. So the summary lines of the whole run
    are the blocks of the completed targets, in order. The block holds the
    absolute path of the output directory and the proxy notice or the
    manual import notice. *)
Theorem summary_only_after_completed_target (a : Args) (url : string)
    (env : gmap string string) (targets : list string) (s : state OS) :
  let r := for_each targets (process_target a url env) s in
  let its := iterations targets (process_target a url env) s in
  let block (it : string * result OS unit) :=
    summary_lines a it.1
      (os_abspath (args_output_dir a) (os_state (final it.2))) in
  printed (log r) = List.concat (map (fun it => printed (log it.2)) its)
  /\ summaries (log r)
     = List.concat
         (map (fun it => match out it.2 with
                         | Normal _ => block it
                         | _ => []
                         end) its)
  /\ Forall (fun it =>
       let l := log it.2 in
       (args_dry_run a = true -> out it.2 = Normal tt)
       /\ match out it.2 with
          | Normal _ =>
              announced l
              = map executing_line
                  (stage_cmds a url it.1
                   ++ (if args_dry_run a then []
                       else seeder_cmds a url it.1))
              /\ (args_dry_run a = false ->
                  launched l
                  = stage_cmds a url it.1 ++ seeder_cmds a url it.1)
              /\ prints_last l (block it)
              /\ summaries l = block it
          | LoopContinue =>
              args_dry_run a = false
              /\ (let n := stages_reached l in
                  (1 <= n <= 4)%nat
                  /\ first_silent_stage l = Some n
                  /\ launched l = firstn n (stage_cmds a url it.1)
                  /\ last (printed l) = Some (stop_warning n))
              /\ summaries l = []
          | SysExit _ | Raised _ => summaries l = []
          end) its
  /\ forall t dir,
       In ("    " +:+ Colors.CYAN +:+ "Results Directory:" +:+ Colors.ENDC
           +:+ " " +:+ dir) (summary_lines a t dir)
       /\ In (if PyStr.truthy_opt (args_proxy a)
              then "    " +:+ Colors.CYAN +:+ "Proxy Status:" +:+ Colors.ENDC
                   +:+ "      Traffic sent to " +:+ fmt_opt (args_proxy a)
              else "    " +:+ Colors.CYAN +:+ "Manual Import:"
                   +:+ Colors.ENDC +:+ "     Import '"
                   +:+ PyStr.basename (urls_for_burp_file a t)
                   +:+ "' into Burp.")
             (summary_lines a t dir).
Proof.
  intros r its block. subst r its block. split; [|split; [|split]].
  - rewrite for_each_log.
    induction (iterations targets (process_target a url env) s)
      as [|it its IH]; [reflexivity|].
    cbn [map List.concat]. now rewrite printed_app, IH.
  - rewrite for_each_log.
    assert (Hits : Forall (fun it =>
                     summaries (log it.2)
                     = match out it.2 with
                       | Normal _ =>
                           summary_lines a it.1
                             (os_abspath (args_output_dir a)
                                (os_state (final it.2)))
                       | _ => []
                       end)
                     (iterations targets (process_target a url env) s)).
    { apply (iterations_body targets (process_target a url env)
               (fun t ri =>
                  summaries (log ri)
                  = match out ri with
                    | Normal _ =>
                        summary_lines a t
                          (os_abspath (args_output_dir a)
                             (os_state (final ri)))
                    | _ => []
                    end)).
      intros t s'. apply process_target_summarised. }
    induction Hits as [|it its Hit _ IH]; [reflexivity|].
    cbn [map List.concat]. now rewrite summaries_app, Hit, IH.
  - apply (iterations_body targets (process_target a url env)
             (fun t ri =>
                (args_dry_run a = true -> out ri = Normal tt)
                /\ match out ri with
                   | Normal _ =>
                       announced (log ri)
                       = map executing_line
                           (stage_cmds a url t
                            ++ (if args_dry_run a then []
                                else seeder_cmds a url t))
                       /\ (args_dry_run a = false ->
                           launched (log ri)
                           = stage_cmds a url t ++ seeder_cmds a url t)
                       /\ prints_last (log ri)
                            (summary_lines a t
                               (os_abspath (args_output_dir a)
                                  (os_state (final ri))))
                       /\ summaries (log ri)
                          = summary_lines a t
                              (os_abspath (args_output_dir a)
                                 (os_state (final ri)))
                   | LoopContinue =>
                       args_dry_run a = false
                       /\ ((1 <= stages_reached (log ri) <= 4)%nat
                           /\ first_silent_stage (log ri)
                              = Some (stages_reached (log ri))
                           /\ launched (log ri)
                              = firstn (stages_reached (log ri))
                                  (stage_cmds a url t)
                           /\ last (printed (log ri))
                              = Some (stop_warning
                                        (stages_reached (log ri))))
                       /\ summaries (log ri) = []
                   | SysExit _ | Raised _ => summaries (log ri) = []
                   end)).
    intros t s'.
    pose proof (process_target_summarised a url env t s') as Hsum.
    destruct (args_dry_run a) eqn:Hdry.
    + destruct (process_target_dry a url env t s' Hdry)
        as (Hout & _ & Hos & _ & Hp).
      destruct (process_target_announces a url env t Hdry s')
        as (_ & Hann & _).
      rewrite Hout in *. split; [reflexivity|].
      rewrite app_nil_r, Hos. repeat split; try assumption.
      * discriminate.
      * now rewrite <- Hos.
    + split; [discriminate|].
      pose proof (process_target_live a url env t s' Hdry) as Hshape.
      pose proof (process_target_traced a url env t Hdry s') as Htr.
      destruct (process_target_within a url env t Hdry s') as [_ Hall].
      destruct (out (process_target a url env t s')) as [[]| |c|e] eqn:Eo;
        try exact Hsum.
      * assert (Hrun : ~ aborted (out (process_target a url env t s')))
          by (rewrite Eo; auto).
        pose proof (iteration_outline a url env t _ Hshape Hrun) as Ho.
        cbv zeta in Ho.
        destruct Ho as [(Hout & _)|(_ & _ & _ & Hp)];
          [rewrite Eo in Hout; discriminate Hout|].
        pose proof (Hall (ex_intro _ tt eq_refl)) as Hl.
        repeat split; try assumption.
        -- now rewrite Htr, Hl.
        -- intros _. exact Hl.
      * destruct (iteration_stop a url env t _ Hshape Eo)
          as (Hn & Hfirst & Hl & Hp).
        repeat split; try assumption; try tauto.
        now apply prints_last_one.
  - intros t dir. split.
    + unfold summary_lines. cbn [app In]. tauto.
    + unfold summary_lines. cbn [app].
      destruct (PyStr.truthy_opt (args_proxy a)); cbn [app In]; tauto.
Qed.

End SummaryClaim.

(** The run of C4 over a target without subdomains and one all five stages
    answer for: the console shows one summary block, that of [a.com]. *)
Example summary_block_example :
  let a := Examples.live_args in
  let r := for_each ["void.test"; "a.com"] (process_target a "" ∅)
             (Toy.start ∅) in
  summaries (log r) = summary_lines a "a.com" "/work/recon_results".
Proof. vm_compute. reflexivity. Qed.

(** ** A detail file left by an earlier iteration *)

(** C8 fails on the code: the list names [a.com] twice and httpx fails in
    the second iteration. The buffer was reset, the stages 1 to 4 of the
    second iteration ran on its own data, and yet its katana was fed the URL
    list of the first iteration, read back from the detail file that the
    first httpx had written. *)
Theorem stale_urls_reach_katana :
  let r := main Examples.list_args Outage.start in
  let feed c := (program c, exited_zero (ec_answer c), ec_input c) in
  let hosts := Some ("www.a.com" +:+ NL) in
  let urls := Some (urls_text Toy.detail_lines) in
  out r = Normal tt
  /\ map feed (drop 5 (execs (log r)))
     = [("subfinder", true, None); ("dnsx", true, hosts);
        ("naabu", true, hosts); ("httpx", true, hosts);
        ("katana", true, urls);
        ("subfinder", true, None); ("dnsx", true, hosts);
        ("naabu", true, hosts); ("httpx", false, hosts);
        ("katana", true, urls)]
  /\ urls = Some ("https://a.com" +:+ NL +:+ "https://b.com").
Proof. cbv zeta. repeat split; vm_compute; reflexivity. Qed.

(** The same run, iteration by iteration. The second iteration is the one
    the count of C3 leaves aside: httpx failed, so that stage 4 is the first
    stage without output, and yet all five stage commands were launched. *)
Example stale_probe_example :
  let its := iterations ["a.com"; "a.com"]
               (process_target Examples.list_args "" ∅) Outage.start in
  map (fun it => (out it.2, stale_probe (log it.2),
                  stages_reached (log it.2),
                  List.length (launched (log it.2)))) its
  = [(Normal tt, false, 5%nat, 5%nat); (Normal tt, true, 4%nat, 5%nat)].
Proof. vm_compute. reflexivity. Qed.

(** ** The environment of the child processes *)

Section ProxyClaim.

Context {OS : Type} `{OSModel OS}.

(** C5 (as the code has it): in every run, with or without a proxy, each
    subfinder, dnsx and naabu child process is given no mapping at all, so
    that it inherits the environment of the script, which the script never
    changes: it sees the proxy variables that environment already had, and
    no others. Each httpx and katana child is given a mapping, and with a
    proxy address configured [HTTP_PROXY] and [HTTPS_PROXY] are both
    [http://<address>] in it. *)
Theorem proxy_given_to_http_stages_only (a : Args) (s : state OS) :
  Forall (fun c =>
            (In (program c) ["subfinder"; "dnsx"; "naabu"] ->
             ec_env c = None
             /\ child_environment (os_environ s) (ec_env c) = os_environ s)
            /\ (In (program c) ["httpx"; "katana"] ->
                exists m,
                  ec_env c = Some m
                  /\ forall addr,
                       args_proxy a = Some addr ->
                       PyStr.truthy addr = true ->
                       m !! "HTTP_PROXY" = Some ("http://" +:+ addr)
                       /\ m !! "HTTPS_PROXY" = Some ("http://" +:+ addr)))
         (execs (log (main a s)))
  /\ os_environ (final (main a s)) = os_environ s.
Proof.
  destruct (main_footprint a s) as [Hall Henv].
  split; [|exact Henv].
  eapply footprint_execs; [|exact Hall].
  intros cmd input env ans He. unfold program. cbn [ec_cmd ec_env].
  inversion He as [| tool ans' Hin | | | t c i ans' _ Hin
                   | t c i m ans' _ Hin Hm | |]; subst.
  - split; cbn [In]; intros Hp;
      repeat (destruct Hp as [Hp|Hp]; [discriminate Hp|]); contradiction.
  - cbn [In] in Hin.
    repeat (destruct Hin as [<-|Hin]); try contradiction;
      (split; cbn [In]; intros Hp; [now split|]);
      repeat (destruct Hp as [Hp|Hp]; [discriminate Hp|]); contradiction.
  - cbn [In] in Hin.
    repeat (destruct Hin as [<-|Hin]); try contradiction;
      (split; cbn [In]; intros Hp; [|now exists m]);
      repeat (destruct Hp as [Hp|Hp]; [discriminate Hp|]); contradiction.
Qed.

End ProxyClaim.

(** C5, on a live run with a proxy. *)
Lemma proxy_given_to_http_stages_only_witness :
  let r := main Examples.proxy_args (Toy.start ∅) in
  Forall (fun c =>
            In (program c) ["httpx"; "katana"] ->
            exists m,
              ec_env c = Some m
              /\ m !! "HTTP_PROXY" = Some "http://127.0.0.1:8080"
              /\ m !! "HTTPS_PROXY" = Some "http://127.0.0.1:8080")
         (execs (log r)).
Proof.
  cbv zeta.
  eapply Forall_impl;
    [exact (proj1 (proxy_given_to_http_stages_only Examples.proxy_args
                     (Toy.start ∅)))|].
  intros c [_ Hc] Hin. destruct (Hc Hin) as (m & Hm & Hp).
  exists m. split; [exact Hm|]. exact (Hp _ eq_refl eq_refl).
Defined.

(** * Further properties of the code: the buffer between the stages *)

Section BufferReset.

Context {OS : Type} `{OSModel OS}.

(** X19: an iteration does not depend on what the buffer held when it
    began, so nothing a previous target left in the buffer reaches a stage;
    and every child process of the iteration is fed by what the iteration
    itself just produced or read: subfinder and the seeding run get no
    input, dnsx, naabu and httpx the captured output of the stage before,
    katana the URL list made from the detail file as read in this
    iteration. *)
Theorem no_stale_input_across_targets (a : Args) (url : string)
    (env : gmap string string) (t : string)
    (o : OS) (environ : gmap string string) (left_over : option string) :
  process_target a url env t (mkState o environ left_over)
  = process_target a url env t (mkState o environ None)
  /\ fresh_inputs (log (process_target a url env t
                          (mkState o environ left_over)))
  /\ forall rest,
       for_each (t :: rest) (process_target a url env)
         (mkState o environ left_over)
       = for_each (t :: rest) (process_target a url env)
           (mkState o environ None).
Proof.
  assert (Hreset :
    process_target a url env t (mkState o environ left_over)
    = process_target a url env t (mkState o environ None)).
  { unfold process_target. rewrite !bind_print.
    now rewrite !bind_set_current_input. }
  split; [exact Hreset|]. split.
  - destruct (args_dry_run a) eqn:Hdry.
    + destruct (process_target_dry a url env t
                  (mkState o environ left_over) Hdry) as (_ & Heff & _).
      unfold fresh_inputs.
      rewrite (execs_of_effects _ _ Heff). intros i c Hc. destruct i; discriminate Hc.
    + apply (iteration_fresh a url env t).
      now apply process_target_live.
  - intros rest. cbn [for_each]. now rewrite Hreset.
Qed.

End BufferReset.
